(** * crawl_dc: a shallow embedding of the gallery crawler

    The development follows [crawl_dc.py]: the date normalizer
    ([parse_date]), the record extractor ([extract_post_data]), the
    pagination crawler ([crawl_posts]), the week partitioner
    ([get_week_info], [organize_by_week]) and the archive store
    ([merge_and_save]).

    The collaborators of the program (the HTML tree, the HTTP
    transport, the data directory and the wall clock) are data here: a
    row is the record of what the extractor asks the tree for, the
    transport is a function from page numbers to fetch results, the
    data directory is a finite map from week identifiers to week files
    and the clock is passed in. *)

From Stdlib Require Import ZArith Ascii String List Bool Lia Sorted Permutation.
From Stdlib Require Import OrderedTypeEx DecimalString.
From stdpp Require Import gmap strings list.

Open Scope string_scope.
Open Scope list_scope.
Open Scope Z_scope.

(** ** The Python primitives the program calls *)

Module Py.

(** Strings are byte strings (UTF-8); the primitives below are those of
    [str] on ASCII input. A digit is one of the ten ASCII digits: the
    decimal digits of other scripts, which [str.isdigit], [int] and the
    [\d] of [strptime] also take, are bytes above 127 here and count as
    other characters. *)

Definition code (c : ascii) : Z := Z.of_nat (nat_of_ascii c).

Definition is_digit (c : ascii) : bool := (48 <=? code c) && (code c <=? 57).

Definition digit_val (c : ascii) : Z := code c - 48.

(** [str.isspace] on one ASCII character: tab to carriage return, the
    four separators 28 to 31, and the blank. *)
Definition is_space (c : ascii) : bool :=
  ((9 <=? code c) && (code c <=? 13)) || ((28 <=? code c) && (code c <=? 32)).

(** Truth value of a string: non-empty. *)
Definition truthy (s : string) : bool :=
  match s with EmptyString => false | String _ _ => true end.

(** [tag.get(name)] returns [None] for a missing attribute, and both
    [None] and the empty string are false. *)
Definition attr_truthy (a : option string) : bool :=
  match a with Some s => truthy s | None => false end.

(** [tag.get(name, '')]. *)
Definition attr_or_empty (a : option string) : string :=
  match a with Some s => s | None => "" end.

(** [c in s] for a one-character [c]. *)
Fixpoint char_in (c : ascii) (s : string) : bool :=
  match s with
  | EmptyString => false
  | String d rest => Ascii.eqb c d || char_in c rest
  end.

(** [needle in hay]. *)
Fixpoint contains (needle hay : string) : bool :=
  String.prefix needle hay ||
  match hay with
  | EmptyString => false
  | String _ rest => contains needle rest
  end.

(** [s.startswith(p)]. *)
Definition startswith (s p : string) : bool := String.prefix p s.

(** [s.split(sep)] for a one-character separator: never empty. *)
Fixpoint split (sep : ascii) (s : string) : list string :=
  match s with
  | EmptyString => [EmptyString]
  | String c rest =>
      if Ascii.eqb c sep then EmptyString :: split sep rest
      else match split sep rest with
           | [] => [String c EmptyString]
           | h :: t => String c h :: t
           end
  end.

Fixpoint lstrip (drop : ascii -> bool) (s : string) : string :=
  match s with
  | EmptyString => EmptyString
  | String c rest => if drop c then lstrip drop rest else s
  end.

Fixpoint rstrip (drop : ascii -> bool) (s : string) : string :=
  match s with
  | EmptyString => EmptyString
  | String c rest =>
      match rstrip drop rest with
      | EmptyString => if drop c then EmptyString else String c EmptyString
      | r => String c r
      end
  end.

(** [s.strip(chars)]. *)
Definition strip (chars : string) (s : string) : string :=
  rstrip (fun c => char_in c chars) (lstrip (fun c => char_in c chars) s).

(** [s.strip()]. *)
Definition strip_ws (s : string) : string := rstrip is_space (lstrip is_space s).

(** [s.isdigit()]: at least one character and all of them digits. *)
Fixpoint all_digits (s : string) : bool :=
  match s with
  | EmptyString => true
  | String c rest => is_digit c && all_digits rest
  end.

Definition isdigit (s : string) : bool := truthy s && all_digits s.

(** The blanks that [int] skips around an ASCII literal: tab to
    carriage return and the blank. The separators 28 to 31, which
    [str.strip] drops, are not among them. *)
Definition is_blank (c : ascii) : bool :=
  ((9 <=? code c) && (code c <=? 13)) || (code c =? 32).

(** [sys.get_int_max_str_digits()]: [int] refuses a literal with more
    digits, underscores and sign not counted. *)
Definition MAX_STR_DIGITS : Z := 4300.

Fixpoint count_digits (s : string) : Z :=
  match s with
  | EmptyString => 0
  | String c rest => (if is_digit c then 1 else 0) + count_digits rest
  end.

(** [int(s)]: surrounding blanks are dropped, one sign is allowed, and
    the digits may be grouped by single underscores. [None] stands for
    [ValueError]. *)
Fixpoint int_digits (acc : Z) (prev_digit : bool) (s : string) : option Z :=
  match s with
  | EmptyString => if prev_digit then Some acc else None
  | String c rest =>
      if is_digit c then int_digits (10 * acc + digit_val c) true rest
      else if Ascii.eqb c "_"%char then
        if prev_digit then int_digits acc false rest else None
      else None
  end.

Definition int_unsigned (s : string) : option Z :=
  match s with
  | EmptyString => None
  | String c _ =>
      if is_digit c then
        if count_digits s <=? MAX_STR_DIGITS then int_digits 0 false s else None
      else None
  end.

Definition int (s : string) : option Z :=
  match rstrip is_blank (lstrip is_blank s) with
  | String "-"%char rest => option_map Z.opp (int_unsigned rest)
  | String "+"%char rest => int_unsigned rest
  | t => int_unsigned t
  end.

(** [str(n)]. *)
Definition str_of_int (n : Z) : string := NilZero.string_of_int (Z.to_int n).

(** [f"{n:02d}"]: zero-filled to width two. *)
Definition fmt_02d (n : Z) : string :=
  if (0 <=? n) && (n <=? 9) then "0" +:+ str_of_int n else str_of_int n.

(** [l.sort(key=key, reverse=True)] for string keys: a stable sort in
    non-increasing key order. An element is inserted behind the
    elements with a strictly greater key and before all others. *)
Fixpoint insert_desc {A : Type} (key : A -> string) (x : A) (l : list A) : list A :=
  match l with
  | [] => [x]
  | y :: l' =>
      if String.ltb (key x) (key y) then y :: insert_desc key x l'
      else x :: l
  end.

Definition sort_desc {A : Type} (key : A -> string) (l : list A) : list A :=
  foldr (insert_desc key) [] l.

End Py.

(** ** [datetime]: dates, ordinals, ISO weeks, formatting and parsing *)

Module DT.

Record t : Type := mk
  { year : Z; month : Z; day : Z;
    hour : Z; minute : Z; second : Z; microsecond : Z }.

Definition MINYEAR : Z := 1.
Definition MAXYEAR : Z := 9999.
Definition MAXORDINAL : Z := 3652059.

Definition is_leap (y : Z) : bool :=
  (y mod 4 =? 0) && (negb (y mod 100 =? 0) || (y mod 400 =? 0)).

Definition days_before_year (y : Z) : Z :=
  let y1 := y - 1 in y1 * 365 + y1 / 4 - y1 / 100 + y1 / 400.

(** The table [_DAYS_IN_MONTH], for a common year. *)
Definition DAYS_IN_MONTH (m : Z) : Z :=
  match m with
  | 2 => 28
  | 4 | 6 | 9 | 11 => 30
  | _ => 31
  end.

Definition days_in_month (y m : Z) : Z :=
  if (m =? 2) && is_leap y then 29 else DAYS_IN_MONTH m.

(** The table [_DAYS_BEFORE_MONTH], for a common year. *)
Definition DAYS_BEFORE_MONTH (m : Z) : Z :=
  match m with
  | 1 => 0 | 2 => 31 | 3 => 59 | 4 => 90 | 5 => 120 | 6 => 151
  | 7 => 181 | 8 => 212 | 9 => 243 | 10 => 273 | 11 => 304 | 12 => 334
  | _ => 0
  end.

Definition days_before_month (y m : Z) : Z :=
  DAYS_BEFORE_MONTH m + (if (2 <? m) && is_leap y then 1 else 0).

Definition ymd2ord (y m d : Z) : Z :=
  days_before_year y + days_before_month y m + d.

Definition DI400Y : Z := 146097.
Definition DI100Y : Z := 36524.
Definition DI4Y : Z := 1461.

(** [_ord2ymd]: the date of a proleptic Gregorian ordinal. *)
Definition ord2ymd (n0 : Z) : Z * Z * Z :=
  let n := n0 - 1 in
  let n400 := n / DI400Y in
  let n := n mod DI400Y in
  let y := n400 * 400 + 1 in
  let n100 := n / DI100Y in
  let n := n mod DI100Y in
  let n4 := n / DI4Y in
  let n := n mod DI4Y in
  let n1 := n / 365 in
  let n := n mod 365 in
  let y := y + n100 * 100 + n4 * 4 + n1 in
  if (n1 =? 4) || (n100 =? 4) then (y - 1, 12, 31)
  else
    let leapyear := (n1 =? 3) && (negb (n4 =? 24) || (n100 =? 3)) in
    let m := Z.shiftr (n + 50) 5 in
    let preceding := DAYS_BEFORE_MONTH m + (if (2 <? m) && leapyear then 1 else 0) in
    if n <? preceding then
      let m' := m - 1 in
      let preceding' :=
        preceding - (DAYS_IN_MONTH m' + (if (m' =? 2) && leapyear then 1 else 0)) in
      (y, m', n - preceding' + 1)
    else (y, m, n - preceding + 1).

Definition valid_date (y m d : Z) : bool :=
  (MINYEAR <=? y) && (y <=? MAXYEAR) && (1 <=? m) && (m <=? 12) &&
  (1 <=? d) && (d <=? days_in_month y m).

Definition valid_time (h mi s us : Z) : bool :=
  (0 <=? h) && (h <=? 23) && (0 <=? mi) && (mi <=? 59) &&
  (0 <=? s) && (s <=? 59) && (0 <=? us) && (us <=? 999999).

Definition valid (d : t) : bool :=
  valid_date (year d) (month d) (day d) &&
  valid_time (hour d) (minute d) (second d) (microsecond d).

(** [datetime(y, m, d, h, mi, s)]; [None] stands for the [ValueError]
    of a field out of range. *)
Definition make (y m d h mi s : Z) : option t :=
  if valid_date y m d && valid_time h mi s 0
  then Some (mk y m d h mi s 0) else None.

Definition toordinal (d : t) : Z := ymd2ord (year d) (month d) (day d).

(** [d.weekday()]: Monday is 0. *)
Definition weekday (d : t) : Z := (toordinal d + 6) mod 7.

Definition isoweek1monday (y : Z) : Z :=
  let firstday := ymd2ord y 1 1 in
  let firstweekday := (firstday + 6) mod 7 in
  let week1monday := firstday - firstweekday in
  if 3 <? firstweekday then week1monday + 7 else week1monday.

(** [d.isocalendar()]: ISO year, ISO week, ISO weekday (Monday is 1). *)
Definition isocalendar (d : t) : Z * Z * Z :=
  let y := year d in
  let week1monday := isoweek1monday y in
  let today := toordinal d in
  let week := (today - week1monday) / 7 in
  let wday := (today - week1monday) mod 7 in
  if week <? 0 then
    let y := y - 1 in
    let week1monday := isoweek1monday y in
    (y, (today - week1monday) / 7 + 1, (today - week1monday) mod 7 + 1)
  else if (52 <=? week) && (isoweek1monday (y + 1) <=? today) then
    (y + 1, 1, wday + 1)
  else (y, week + 1, wday + 1).

(** [d + timedelta(days=k)]: the clock fields are kept; [None] stands
    for the [OverflowError] of a date outside years 1 to 9999. *)
Definition add_days (d : t) (k : Z) : option t :=
  let o := toordinal d + k in
  if (1 <=? o) && (o <=? MAXORDINAL) then
    let '(y, m, dd) := ord2ymd o in
    Some (mk y m dd (hour d) (minute d) (second d) (microsecond d))
  else None.

Definition fields (d : t) : list Z :=
  [year d; month d; day d; hour d; minute d; second d; microsecond d].

Fixpoint lex_compare (a b : list Z) : comparison :=
  match a, b with
  | [], [] => Eq
  | [], _ :: _ => Lt
  | _ :: _, [] => Gt
  | x :: a', y :: b' =>
      match x ?= y with Eq => lex_compare a' b' | c => c end
  end.

Definition compare (a b : t) : comparison := lex_compare (fields a) (fields b).

(** [a >= b]. *)
Definition geb (a b : t) : bool :=
  match compare a b with Lt => false | _ => true end.

(** [a < b]. *)
Definition ltb (a b : t) : bool :=
  match compare a b with Lt => true | _ => false end.

(** *** Formatting *)

Definition digit_char (k : Z) : ascii := ascii_of_nat (Z.to_nat (48 + k)).

Definition pad2 (n : Z) : string :=
  String (digit_char (n / 10 mod 10)) (String (digit_char (n mod 10)) "").

Definition pad4 (n : Z) : string :=
  String (digit_char (n / 1000 mod 10)) (String (digit_char (n / 100 mod 10)) (pad2 n)).

(** ['%Y-%m-%d']; the year is zero-filled to four digits, as [%Y] is
    documented. A C library that writes a year below 1000 without the
    zeros gives another text for such a year; for the years 1000 to
    9999 every [strftime] gives this one. *)
Definition strftime_date (d : t) : string :=
  pad4 (year d) +:+ "-" +:+ pad2 (month d) +:+ "-" +:+ pad2 (day d).

(** ['%H:%M:%S']. *)
Definition strftime_time (d : t) : string :=
  pad2 (hour d) +:+ ":" +:+ pad2 (minute d) +:+ ":" +:+ pad2 (second d).

(** ['%Y-%m-%dT%H:%M:%S']. *)
Definition strftime_iso (d : t) : string :=
  strftime_date d +:+ "T" +:+ strftime_time d.

(** ['%Y-%m-%dT%H:%M:%S+09:00']. *)
Definition strftime_stamp (d : t) : string := strftime_iso d +:+ "+09:00".

(** *** Parsing

    [strptime] compiles the format to a regular expression, takes its
    first match in priority order, and refuses the input when the
    match stops before the end. A regular expression is modelled by
    the list of its matches, best first. *)

Definition matches (A : Type) : Type := list (A * string).

Definition re (A : Type) : Type := string -> matches A.

Definition re_bind {A B : Type} (p : re A) (k : A -> re B) : re B :=
  fun s => flat_map (fun ar => k (fst ar) (snd ar)) (p s).

Definition re_ret {A : Type} (a : A) : re A := fun s => [(a, s)].

(** One alternative of a field: a sequence of character classes. *)
Fixpoint re_seq (classes : list (ascii -> bool)) (acc : string) (s : string)
  : option (string * string) :=
  match classes with
  | [] => Some (acc, s)
  | cl :: more =>
      match s with
      | String c rest =>
          if cl c then re_seq more (acc +:+ String c "") rest else None
      | EmptyString => None
      end
  end.

(** A field: its alternatives in order; the matched text is read by
    [int]. *)
Definition re_field (alts : list (list (ascii -> bool))) : re Z :=
  fun s =>
    flat_map (fun alt =>
      match re_seq alt "" s with
      | Some (txt, rest) =>
          match Py.int txt with Some v => [(v, rest)] | None => [] end
      | None => []
      end) alts.

Definition in_range (lo hi : ascii) (c : ascii) : bool :=
  (Py.code lo <=? Py.code c) && (Py.code c <=? Py.code hi).

Definition chr_is (x : ascii) (c : ascii) : bool := Ascii.eqb x c.

Definition re_Y : re Z :=
  re_field [[Py.is_digit; Py.is_digit; Py.is_digit; Py.is_digit]].

Definition re_m : re Z :=
  re_field [[chr_is "1"; in_range "0" "2"]; [chr_is "0"; in_range "1" "9"]; [in_range "1" "9"]]%char.

Definition re_d : re Z :=
  re_field [[chr_is "3"; in_range "0" "1"]; [in_range "1" "2"; Py.is_digit];
            [chr_is "0"; in_range "1" "9"]; [in_range "1" "9"];
            [chr_is " "; in_range "1" "9"]]%char.

Definition re_H : re Z :=
  re_field [[chr_is "2"; in_range "0" "3"]; [in_range "0" "1"; Py.is_digit]; [Py.is_digit]]%char.

Definition re_M : re Z :=
  re_field [[in_range "0" "5"; Py.is_digit]; [Py.is_digit]]%char.

Definition re_S : re Z :=
  re_field [[chr_is "6"; in_range "0" "1"]; [in_range "0" "5"; Py.is_digit]; [Py.is_digit]]%char.

(** A literal character of the format. *)
Definition re_lit (cl : ascii -> bool) : re unit :=
  fun s => match s with
           | String c rest => if cl c then [(tt, rest)] else []
           | EmptyString => []
           end.

(** A blank of the format matches one or more blanks, longest first. *)
Fixpoint re_spaces0 (s : string) : matches unit :=
  match s with
  | String c rest => if Py.is_space c then re_spaces0 rest ++ [(tt, s)] else [(tt, s)]
  | EmptyString => [(tt, s)]
  end.

Definition re_spaces : re unit :=
  fun s => match s with
           | String c rest => if Py.is_space c then re_spaces0 rest else []
           | EmptyString => []
           end.

(** The regular expression of a date-and-time format whose date and
    clock parts are separated by [sep]. *)
Definition re_datetime (sep : re unit) : re (Z * Z * Z * Z * Z * Z) :=
  re_bind re_Y (fun y =>
  re_bind (re_lit (chr_is "-")) (fun _ =>
  re_bind re_m (fun m =>
  re_bind (re_lit (chr_is "-")) (fun _ =>
  re_bind re_d (fun d =>
  re_bind sep (fun _ =>
  re_bind re_H (fun h =>
  re_bind (re_lit (chr_is ":")) (fun _ =>
  re_bind re_M (fun mi =>
  re_bind (re_lit (chr_is ":")) (fun _ =>
  re_bind re_S (fun sec =>
  re_ret (y, m, d, h, mi, sec)))))))))))).

Definition strptime_with (sep : re unit) (s : string) : option t :=
  match re_datetime sep s with
  | ((y, m, d, h, mi, sec), EmptyString) :: _ => make y m d h mi sec
  | _ => None
  end.

(** [datetime.strptime(s, '%Y-%m-%d %H:%M:%S')]. *)
Definition strptime_full (s : string) : option t := strptime_with re_spaces s.

(** [datetime.strptime(s, '%Y-%m-%dT%H:%M:%S')]; letters of the format
    match in either case. *)
Definition strptime_iso (s : string) : option t :=
  strptime_with (re_lit (fun c => chr_is "T" c || chr_is "t" c)) s.

End DT.

(** ** Exceptions *)

Inductive exn : Type := KeyError | ValueError | OverflowError.

Inductive exc (A : Type) : Type :=
  | Ret (a : A)
  | Raise (e : exn).

Arguments Ret {A} a.
Arguments Raise {A} e.

#[global] Instance exc_bind : MBind exc :=
  fun A B (k : A -> exc B) (m : exc A) =>
    match m with
    | Ret a => k a
    | Raise e => Raise e
    end.

(** [try: ... except Exception: return None]. *)
Definition try_or_none {A : Type} (m : exc (option A)) : option A :=
  match m with
  | Ret r => r
  | Raise _ => None
  end.

(** ** The listing row, as the extractor sees it *)

(** [td.gall_date]: its [title] attribute and its displayed text
    ([get_text(strip=True)]). *)
Record DateTag : Type :=
  { date_title : option string;
    date_text : string }.

(** [td.gall_tit a]: its [href] attribute, the text of its
    [.reply_numbox] child when it has one, and its own text once that
    child is taken out of the tree. *)
Record TitleTag : Type :=
  { href : option string;
    reply_numbox : option string;
    title_text : string }.

(** [td.gall_writer]: the attributes [data-nick], [data-ip],
    [data-uid], and the displayed text. *)
Record WriterTag : Type :=
  { data_nick : option string;
    data_ip : option string;
    data_uid : option string;
    writer_text : string }.

(** [tr.ub-content]: the attributes [data-type] and [data-no], and the
    cells the extractor selects (the text of [td.gall_num],
    [td.gall_count] and [td.gall_recommend]). *)
Record Row : Type :=
  { data_type : option string;
    data_no : option string;
    gall_tit_a : option TitleTag;
    gall_num : option string;
    gall_date : option DateTag;
    gall_writer : option WriterTag;
    gall_count : option string;
    gall_recommend : option string }.

(** ** Records *)

Inductive AuthorType : Type := member | ip | semi_anonymous | unknown.

Module Post.

Record t : Type := mk
  { post_id : string;
    title : string;
    author : string;
    author_ip : string;
    author_type : AuthorType;
    date : string;
    time : string;
    datetime : string;
    views : Z;
    likes : Z;
    comments : Z;
    url : string }.

End Post.

(** The dictionary [extract_post_data] returns: the record and the
    transient [_datetime_obj] entry, which [crawl_posts] deletes before
    it returns. *)
Record PostData : Type :=
  { record : Post.t;
    _datetime_obj : DT.t }.

Module WeekInfo.

Record t : Type := mk
  { week_id : string;
    year : Z;
    week : Z;
    week_start : string;
    week_end : string }.

End WeekInfo.

Module WeekFile.

Record t : Type := mk
  { gallery_id : string;
    gallery_name : string;
    week : string;
    week_start : string;
    week_end : string;
    last_updated : string;
    posts : list Post.t;
    total_posts : Z }.

End WeekFile.

(** ** Configuration *)

Definition GALL_ID : string := "thesingularity".
Definition GALL_NAME : string := "특이점이 온다".
Definition DAYS_LIMIT : Z := 28.

(** The marker of a semi-anonymous nickname. *)
Definition SEMI_ANONYMOUS_MARK : string := "ㅇㅇ".

(** ** [parse_date] *)

(** [datetime.strptime(date_str, '%Y-%m-%d %H:%M:%S')] under
    [if date_str:]. *)
Definition parse_title (date_str : option string) : option DT.t :=
  match date_str with
  | Some s => if Py.truthy s then DT.strptime_full s else None
  | None => None
  end.

(** [hour, minute = map(int, date_text.split(':'))] and the
    constructor call. *)
Definition parse_hh_mm (date_text : string) (today : DT.t) : option DT.t :=
  match map Py.int (Py.split ":" date_text) with
  | [Some hour; Some minute] =>
      DT.make (DT.year today) (DT.month today) (DT.day today) hour minute 0
  | _ => None
  end.

(** The body of the [try] under [elif '.' in date_text]. *)
Definition parse_dotted (date_text : string) (today : DT.t) : option DT.t :=
  match Py.split "." date_text with
  | [p0; p1] =>
      match Py.int p0, Py.int p1 with
      | Some m, Some d => DT.make (DT.year today) m d 0 0 0
      | _, _ => None
      end
  | [p0; p1; p2] =>
      match Py.int p0 with
      | Some yy =>
          let year := 2000 + yy in
          match Py.int p1, Py.int p2 with
          | Some m, Some d => DT.make year m d 0 0 0
          | _, _ => None
          end
      | None => None
      end
  | _ => None
  end.

Definition parse_date (date_tag : option DateTag) (today : DT.t) : option DT.t :=
  match date_tag with
  | None => None
  | Some tag =>
      match parse_title (date_title tag) with
      | Some d => Some d
      | None =>
          let date_text := date_text tag in
          if Py.char_in ":" date_text then parse_hh_mm date_text today
          else if Py.char_in "." date_text then parse_dotted date_text today
          else None
      end
  end.

(** ** [extract_post_data] *)

(** [int(text)] under [try: ... except: pass], with the default 0. *)
Definition int_or_zero (text : string) : Z :=
  match Py.int text with Some n => n | None => 0 end.

Definition count_of (cell : option string) : Z :=
  match cell with Some text => int_or_zero text | None => 0 end.

(** The author fields read off the writer cell. *)
Definition writer_info (writer_tag : option WriterTag) : string * string * AuthorType :=
  match writer_tag with
  | None => ("", "", unknown)
  | Some w =>
      let author := Py.attr_or_empty (data_nick w) in
      let author_ip := Py.attr_or_empty (data_ip w) in
      let author := if Py.truthy author then author else writer_text w in
      let author_type :=
        if Py.attr_truthy (data_uid w) then member
        else if Py.truthy author_ip then
          (if Py.startswith author SEMI_ANONYMOUS_MARK then semi_anonymous else ip)
        else ip in
      (author, author_ip, author_type)
  end.

(** The body of the outer [try]. *)
Definition extract_post_body (row : Row) (today : DT.t) : exc (option PostData) :=
  let data_type := Py.attr_or_empty (data_type row) in
  if Py.contains "icon_notice" data_type then Ret None
  else
    match gall_tit_a row with
    | None => Ret None
    | Some title_tag =>
        let comments :=
          match reply_numbox title_tag with
          | Some text => int_or_zero (Py.strip "[]" text)
          | None => 0
          end in
        let title := title_text title_tag in
        h ← match href title_tag with Some h => Ret h | None => Raise KeyError end;
        let url := "https://gall.dcinside.com" +:+ h in
        let post_id := Py.attr_or_empty (data_no row) in
        match
          (if Py.truthy post_id then Some post_id
           else
             let num_text := Py.attr_or_empty (gall_num row) in
             if Py.isdigit num_text then Some num_text else None)
        with
        | None => Ret None
        | Some post_id =>
            match parse_date (gall_date row) today with
            | None => Ret None
            | Some post_datetime =>
                let '(author, author_ip, author_type) := writer_info (gall_writer row) in
                let views := count_of (gall_count row) in
                let likes := count_of (gall_recommend row) in
                Ret (Some
                  {| record :=
                       {| Post.post_id := post_id;
                          Post.title := title;
                          Post.author := author;
                          Post.author_ip := author_ip;
                          Post.author_type := author_type;
                          Post.date := DT.strftime_date post_datetime;
                          Post.time := DT.strftime_time post_datetime;
                          Post.datetime := DT.strftime_iso post_datetime;
                          Post.views := views;
                          Post.likes := likes;
                          Post.comments := comments;
                          Post.url := url |};
                     _datetime_obj := post_datetime |})
            end
        end
    end.

Definition extract_post_data (row : Row) (today : DT.t) : option PostData :=
  try_or_none (extract_post_body row today).

(** ** The archive *)

(** The data directory: the week file stored under each week
    identifier. *)
Abbreviation Archive := (gmap string WeekFile.t).

Definition post_ids (posts : list Post.t) : list string := map Post.post_id posts.

(** [load_week_data]. *)
Definition load_week_data (archive : Archive) (week_id : string) : option WeekFile.t :=
  archive !! week_id.

(** [save_week_data]. *)
Definition save_week_data (archive : Archive) (week_id : string) (data : WeekFile.t) : Archive :=
  <[week_id := data]> archive.

(** [load_all_existing_ids]: the identifiers of the posts of every file
    of the directory. *)
Definition load_all_existing_ids (archive : Archive) : gset string :=
  foldr (fun file all_ids => list_to_set (post_ids (WeekFile.posts (snd file))) ∪ all_ids)
        ∅ (map_to_list archive).

(** ** [crawl_posts] *)

(** What the transport and the tree give for one page: a failed
    request, or the rows [tr.ub-content] of the page. *)
Inductive Response : Type :=
  | RequestFailed
  | Page (rows : list Row).

(** The variables of the loop. *)
Record CrawlState : Type :=
  { all_posts : list PostData;
    page : nat;
    stop_crawling : bool;
    new_posts_count : nat;
    consecutive_dup_count : nat }.

Definition crawl_init : CrawlState :=
  {| all_posts := []; page := 1; stop_crawling := false;
     new_posts_count := 0; consecutive_dup_count := 0 |}.

Section Crawl.

Variable fetch : nat -> Response.
Variable today : DT.t.
Variable cutoff_date : DT.t.
Variable existing_ids : gset string.

(** [for row in rows: ...]; a [break] leaves [stop_crawling] set. *)
Fixpoint for_rows (rows : list Row) (st : CrawlState) : CrawlState :=
  match rows with
  | [] => st
  | row :: rest =>
      match extract_post_data row today with
      | None => for_rows rest st
      | Some post_data =>
          let post_id := Post.post_id (record post_data) in
          let post_datetime := _datetime_obj post_data in
          if bool_decide (post_id ∈ existing_ids) then
            let count := S (consecutive_dup_count st) in
            if (5 <=? count)%nat then
              {| all_posts := all_posts st; page := page st;
                 stop_crawling := true;
                 new_posts_count := new_posts_count st;
                 consecutive_dup_count := count |}
            else
              for_rows rest
                {| all_posts := all_posts st; page := page st;
                   stop_crawling := stop_crawling st;
                   new_posts_count := new_posts_count st;
                   consecutive_dup_count := count |}
          else if DT.geb post_datetime cutoff_date then
            for_rows rest
              {| all_posts := all_posts st ++ [post_data]; page := page st;
                 stop_crawling := stop_crawling st;
                 new_posts_count := S (new_posts_count st);
                 consecutive_dup_count := 0 |}
          else
            {| all_posts := all_posts st; page := page st;
               stop_crawling := true;
               new_posts_count := new_posts_count st;
               consecutive_dup_count := 0 |}
      end
  end.

Definition next_page (st : CrawlState) : CrawlState :=
  {| all_posts := all_posts st; page := S (page st);
     stop_crawling := stop_crawling st;
     new_posts_count := new_posts_count st;
     consecutive_dup_count := consecutive_dup_count st |}.

(** [while not stop_crawling: ...], entered with [stop_crawling]
    unset. The loop has no bound of its own: [fuel] bounds the number
    of pages requested and [None] means that it ran out. *)
Fixpoint crawl_loop (fuel : nat) (st : CrawlState) : option CrawlState :=
  match fuel with
  | O => None
  | S fuel' =>
      match fetch (page st) with
      | RequestFailed => Some st
      | Page [] => Some st
      | Page rows =>
          let st' := for_rows rows st in
          if stop_crawling st' then Some st'
          else crawl_loop fuel' (next_page st')
      end
  end.

End Crawl.

(** [crawl_posts]: the window, the known identifiers, the loop, and the
    records without their transient entry. *)
Definition crawl_posts (fetch : nat -> Response) (today : DT.t) (archive : Archive)
    (fuel : nat) : option (exc (list Post.t)) :=
  match DT.add_days today (- DAYS_LIMIT) with
  | None => Some (Raise OverflowError)
  | Some cutoff_date =>
      let existing_ids := load_all_existing_ids archive in
      match crawl_loop fetch today cutoff_date existing_ids fuel crawl_init with
      | None => None
      | Some st => Some (Ret (map record (all_posts st)))
      end
  end.

(** ** [get_week_info] and [organize_by_week] *)

Definition week_id_of (year week : Z) : string :=
  Py.str_of_int year +:+ "_W" +:+ Py.fmt_02d week.

Definition or_raise {A : Type} (e : exn) (o : option A) : exc A :=
  match o with Some a => Ret a | None => Raise e end.

Definition get_week_info (date : DT.t) : exc WeekInfo.t :=
  let iso_calendar := DT.isocalendar date in
  let year := fst (fst iso_calendar) in
  let week := snd (fst iso_calendar) in
  week_start ← or_raise OverflowError (DT.add_days date (- DT.weekday date));
  week_end ← or_raise OverflowError (DT.add_days week_start 6);
  Ret {| WeekInfo.week_id := week_id_of year week;
         WeekInfo.year := year;
         WeekInfo.week := week;
         WeekInfo.week_start := DT.strftime_date week_start;
         WeekInfo.week_end := DT.strftime_date week_end |}.

Module WeekData.

Record t : Type := mk
  { info : WeekInfo.t;
    posts : list Post.t }.

End WeekData.

(** The dictionary [weeks] keeps its keys in insertion order. *)
Abbreviation Weeks := (list (string * WeekData.t)).

(** [if week_id not in weeks: weeks[week_id] = {...}] followed by
    [weeks[week_id]['posts'].append(post)]. *)
Fixpoint weeks_append (weeks : Weeks) (week_info : WeekInfo.t) (post : Post.t) : Weeks :=
  match weeks with
  | [] =>
      [(WeekInfo.week_id week_info,
        {| WeekData.info := week_info; WeekData.posts := [post] |})]
  | (k, wd) :: rest =>
      if String.eqb k (WeekInfo.week_id week_info) then
        (k, {| WeekData.info := WeekData.info wd;
               WeekData.posts := WeekData.posts wd ++ [post] |}) :: rest
      else (k, wd) :: weeks_append rest week_info post
  end.

Fixpoint organize_loop (posts : list Post.t) (weeks : Weeks) : exc Weeks :=
  match posts with
  | [] => Ret weeks
  | post :: rest =>
      post_date ← or_raise ValueError (DT.strptime_iso (Post.datetime post));
      week_info ← get_week_info post_date;
      organize_loop rest (weeks_append weeks week_info post)
  end.

Definition organize_by_week (posts : list Post.t) : exc Weeks :=
  organize_loop posts [].

(** ** [merge_and_save] *)

(** [create_week_structure]; [now] is the clock at the call. *)
Definition create_week_structure (week_info : WeekInfo.t) (now : DT.t) : WeekFile.t :=
  {| WeekFile.gallery_id := GALL_ID;
     WeekFile.gallery_name := GALL_NAME;
     WeekFile.week := WeekInfo.week_id week_info;
     WeekFile.week_start := WeekInfo.week_start week_info;
     WeekFile.week_end := WeekInfo.week_end week_info;
     WeekFile.last_updated := DT.strftime_stamp now;
     WeekFile.posts := [];
     WeekFile.total_posts := 0 |}.

(** [[post for post in new_posts if post['post_id'] not in existing_ids]]. *)
Definition unique_new_posts (existing_posts new_posts : list Post.t) : list Post.t :=
  let existing_ids : gset string := list_to_set (post_ids existing_posts) in
  List.filter (fun post => negb (bool_decide (Post.post_id post ∈ existing_ids))) new_posts.

(** The list that is sorted: the posts of the file on disk followed by
    the new posts it does not have, or the new posts alone when there
    is no file. *)
Definition merged_posts (existing_data : option WeekFile.t) (new_posts : list Post.t)
  : list Post.t :=
  match existing_data with
  | Some existing =>
      WeekFile.posts existing ++ unique_new_posts (WeekFile.posts existing) new_posts
  | None => new_posts
  end.

(** The body of the loop of [merge_and_save]: load, merge, sort, write. *)
Definition merge_and_persist (now : DT.t) (week_id : string) (week_info : WeekInfo.t)
    (new_posts : list Post.t) (archive : Archive) : Archive :=
  let existing_data := load_week_data archive week_id in
  let all_posts := Py.sort_desc Post.datetime (merged_posts existing_data new_posts) in
  let week_structure := create_week_structure week_info now in
  let week_structure :=
    {| WeekFile.gallery_id := WeekFile.gallery_id week_structure;
       WeekFile.gallery_name := WeekFile.gallery_name week_structure;
       WeekFile.week := WeekFile.week week_structure;
       WeekFile.week_start := WeekFile.week_start week_structure;
       WeekFile.week_end := WeekFile.week_end week_structure;
       WeekFile.last_updated := WeekFile.last_updated week_structure;
       WeekFile.posts := all_posts;
       WeekFile.total_posts := Z.of_nat (length all_posts) |} in
  save_week_data archive week_id week_structure.

(** [merge_and_save]; [clock n] is the clock when the [n]-th week is
    written. *)
Fixpoint merge_and_save (clock : nat -> DT.t) (weeks_data : Weeks) (archive : Archive)
  : Archive :=
  match weeks_data with
  | [] => archive
  | (week_id, week_data) :: rest =>
      merge_and_save (fun n => clock (S n)) rest
        (merge_and_persist (clock O) week_id (WeekData.info week_data)
           (WeekData.posts week_data) archive)
  end.

(** ** [main]

    One run: crawl, partition, merge. [None] means that the crawl ran
    out of fuel; an exception leaves the archive as it was, since all
    of them are raised before the first file is written. *)
Definition main (fetch : nat -> Response) (today : DT.t) (clock : nat -> DT.t)
    (fuel : nat) (archive : Archive) : option (exc Archive) :=
  match crawl_posts fetch today archive fuel with
  | None => None
  | Some (Raise e) => Some (Raise e)
  | Some (Ret posts) =>
      match posts with
      | [] => Some (Ret archive)
      | _ :: _ =>
          match organize_by_week posts with
          | Raise e => Some (Raise e)
          | Ret weeks_data => Some (Ret (merge_and_save clock weeks_data archive))
          end
      end
  end.

(** ** The rules of the date normalizer, stated apart from the code

    The rule that reads a cell, and what each rule computes; they are
    compared with [parse_date] below. *)

Inductive DateRule : Type :=
  | FullTimestamp
  | HourMinute
  | MonthDay
  | YearMonthDay
  | NoRule.

(** The full timestamp applies when the [title] attribute holds one;
    otherwise the displayed text decides. *)
Definition rule_of (tag : DateTag) : DateRule :=
  match parse_title (date_title tag) with
  | Some _ => FullTimestamp
  | None =>
      if Py.char_in ":" (date_text tag) then HourMinute
      else if Py.char_in "." (date_text tag) then
        match length (Py.split "." (date_text tag)) with
        | 2%nat => MonthDay
        | 3%nat => YearMonthDay
        | _ => NoRule
        end
      else NoRule
  end.

Definition apply_rule (rule : DateRule) (tag : DateTag) (today : DT.t) : option DT.t :=
  match rule with
  | FullTimestamp => parse_title (date_title tag)
  | HourMinute =>
      match Py.split ":" (date_text tag) with
      | [hh; mm] =>
          match Py.int hh, Py.int mm with
          | Some h, Some mi =>
              DT.make (DT.year today) (DT.month today) (DT.day today) h mi 0
          | _, _ => None
          end
      | _ => None
      end
  | MonthDay =>
      match Py.split "." (date_text tag) with
      | [mm; dd] =>
          match Py.int mm, Py.int dd with
          | Some m, Some d => DT.make (DT.year today) m d 0 0 0
          | _, _ => None
          end
      | _ => None
      end
  | YearMonthDay =>
      match Py.split "." (date_text tag) with
      | [yy; mm; dd] =>
          match Py.int yy, Py.int mm, Py.int dd with
          | Some y, Some m, Some d => DT.make (2000 + y) m d 0 0 0
          | _, _, _ => None
          end
      | _ => None
      end
  | NoRule => None
  end.

(** ** Sample inputs *)

Definition sample_today : DT.t := DT.mk 2024 3 10 9 30 0 0.

Definition sample_title : TitleTag :=
  {| href := Some "/mgallery/board/view/?id=thesingularity&no=7";
     reply_numbox := Some "[3]";
     title_text := "hello" |}.

Definition sample_row (id stamp : string) (writer : option WriterTag) : Row :=
  {| data_type := None;
     data_no := Some id;
     gall_tit_a := Some sample_title;
     gall_num := None;
     gall_date := Some {| date_title := Some stamp; date_text := "" |};
     gall_writer := writer;
     gall_count := Some "12";
     gall_recommend := Some "-" |}.

Definition plain_writer : WriterTag :=
  {| data_nick := Some "guest"; data_ip := None; data_uid := None; writer_text := "guest" |}.

Definition semi_writer : WriterTag :=
  {| data_nick := Some "ㅇㅇ"; data_ip := Some "1.2"; data_uid := None;
     writer_text := "ㅇㅇ(1.2)" |}.

(** The row with another displayed text in its writer cell. *)
Definition with_writer_text (row : Row) (text : string) : Row :=
  {| data_type := data_type row;
     data_no := data_no row;
     gall_tit_a := gall_tit_a row;
     gall_num := gall_num row;
     gall_date := gall_date row;
     gall_writer :=
       match gall_writer row with
       | Some w =>
           Some {| data_nick := data_nick w; data_ip := data_ip w;
                   data_uid := data_uid w; writer_text := text |}
       | None => None
       end;
     gall_count := gall_count row;
     gall_recommend := gall_recommend row |}.

(** The ways the extraction of one row fails. *)
Inductive extraction_failure (row : Row) (today : DT.t) : Prop :=
  | notice_row :
      Py.contains "icon_notice" (Py.attr_or_empty (data_type row)) = true ->
      extraction_failure row today
  | missing_title_cell :
      gall_tit_a row = None ->
      extraction_failure row today
  | non_numeric_id :
      Py.attr_truthy (data_no row) = false ->
      Py.isdigit (Py.attr_or_empty (gall_num row)) = false ->
      extraction_failure row today
  | unresolvable_timestamp :
      parse_date (gall_date row) today = None ->
      extraction_failure row today
  | unexpected_exception (e : exn) :
      extract_post_body row today = Raise e ->
      extraction_failure row today.

Definition nameless_writer : WriterTag :=
  {| data_nick := None; data_ip := Some "1.2"; data_uid := None; writer_text := "passer-by" |}.

(** A row whose title link has no [href]: reading it raises. *)
Definition broken_row : Row :=
  {| data_type := None;
     data_no := Some "9";
     gall_tit_a := Some {| href := None; reply_numbox := None; title_text := "x" |};
     gall_num := None;
     gall_date := Some {| date_title := Some "2024-03-10 10:00:00"; date_text := "" |};
     gall_writer := None;
     gall_count := None;
     gall_recommend := None |}.

(** ** The row stream of a crawl

    The rows of the pages [p], [p + 1], ... in the order the loop meets
    them, over at most [n] pages: the stream ends at the first failed
    request or empty page. *)
Fixpoint row_stream (fetch : nat -> Response) (p n : nat) : list Row :=
  match n with
  | O => []
  | S n' =>
      match fetch p with
      | Page (row :: rows) => (row :: rows) ++ row_stream fetch (S p) n'
      | _ => []
      end
  end.

(** Two states of the loop that differ at most in the page number. *)
Definition scan_eq (a b : CrawlState) : Prop :=
  all_posts a = all_posts b /\
  stop_crawling a = stop_crawling b /\
  consecutive_dup_count a = consecutive_dup_count b /\
  new_posts_count a = new_posts_count b.

(** A record is new when its identifier is not known, and in the window
    when its timestamp is on or after the cutoff. *)
Definition is_known (existing_ids : gset string) (pd : PostData) : Prop :=
  Post.post_id (record pd) ∈ existing_ids.

Definition in_window (cutoff_date : DT.t) (pd : PostData) : Prop :=
  DT.geb (_datetime_obj pd) cutoff_date = true.

(** A listing whose first page shows the known posts 10, 9, 8, 7, 6 and
    then a new one. *)
Definition stale_known : gset string := {["6"; "7"; "8"; "9"; "10"]}.

Definition stale_fetch (p : nat) : Response :=
  match p with
  | 1%nat =>
      Page [sample_row "10" "2024-03-10 10:00:00" None;
            sample_row "9" "2024-03-10 09:00:00" None;
            broken_row;
            sample_row "8" "2024-03-10 08:00:00" None;
            sample_row "7" "2024-03-10 07:00:00" None;
            sample_row "6" "2024-03-10 06:00:00" None;
            sample_row "11" "2024-03-10 05:00:00" None]
  | _ => Page []
  end.

(** A listing with a post before the window between two posts inside
    it. *)
Definition sample_cutoff : DT.t := DT.mk 2024 2 11 9 30 0 0.

Definition window_fetch (p : nat) : Response :=
  match p with
  | 1%nat => Page [sample_row "12" "2024-03-10 10:00:00" None]
  | 2%nat =>
      Page [sample_row "11" "2024-02-10 10:00:00" None;
            sample_row "13" "2024-03-09 10:00:00" None]
  | _ => Page []
  end.

(** ** Order of the [datetime] keys *)

(** [a] does not come after [b] in a list sorted by key, newest
    first: the key of [b] is at most the key of [a]. *)
Definition key_ge {A : Type} (key : A -> string) (a b : A) : Prop :=
  String.leb (key b) (key a) = true.

(** ** The dedup invariant *)


(** The posts of all the weeks of a partition. *)
Definition weeks_posts (weeks : Weeks) : list Post.t :=
  concat (map (fun entry => WeekData.posts (snd entry)) weeks).


Definition sample_clock (n : nat) : DT.t := sample_today.

(** ** Boolean checks, evaluated in the proofs *)

(** The month and the day of the [r]-th day of a year, as [_ord2ymd]
    finds them. *)
Definition month_day_ok (leap : bool) (r : Z) : bool :=
  let m := Z.shiftr (r + 50) 5 in
  let preceding := DT.DAYS_BEFORE_MONTH m + (if (2 <? m) && leap then 1 else 0) in
  let md :=
    if r <? preceding then
      (m - 1,
       r - (preceding - (DT.DAYS_IN_MONTH (m - 1) + (if (m - 1 =? 2) && leap then 1 else 0))) + 1)
    else (m, r - preceding + 1) in
  let m' := fst md in
  let d' := snd md in
  (1 <=? m') && (m' <=? 12) && (1 <=? d') &&
  (d' <=? DT.DAYS_IN_MONTH m' + (if (m' =? 2) && leap then 1 else 0)) &&
  (DT.DAYS_BEFORE_MONTH m' + (if (2 <? m') && leap then 1 else 0) + d' =? r + 1).

(** [f] reads the whole of [txt] as [v], at its first match. *)
Definition field_reads (f : DT.re Z) (txt : string) (v : Z) : bool :=
  match f txt with
  | (v', EmptyString) :: _ => v' =? v
  | _ => false
  end.

(** [f] holds on the integers from [lo] to [hi]. *)
Definition holds_between (f : Z -> bool) (lo hi : Z) : bool :=
  forallb (fun k => f (lo + Z.of_nat k)) (seq 0 (Z.to_nat (hi - lo + 1))).

(** [int] reads back what [str] and the two-digit format print. *)
Definition int_reads (txt : string) (v : Z) : bool :=
  match Py.int txt with
  | Some v' => v' =? v
  | None => false
  end.

(** ** ISO weeks of records *)

Definition iso_year (d : DT.t) : Z := fst (fst (DT.isocalendar d)).

Definition iso_week (d : DT.t) : Z := snd (fst (DT.isocalendar d)).

(** ["{ISO-year}_W{ISO-week:02d}"] of a date. *)
Definition iso_week_id (d : DT.t) : string := week_id_of (iso_year d) (iso_week d).

(** The Sunday of the week of [d] is a date: [d] is not after
    9999-12-26, the last Sunday of the calendar. *)
Definition week_in_range (d : DT.t) : Prop := DT.toordinal d <= DT.ymd2ord 9999 12 26.

(** [info] is the description of the ISO week [w] of the ISO year [y]:
    its identifier, and its Monday and its Sunday as [YYYY-MM-DD]. *)
Definition describes_week (info : WeekInfo.t) (y w : Z) : Prop :=
  WeekInfo.week_id info = week_id_of y w /\
  WeekInfo.year info = y /\
  WeekInfo.week info = w /\
  exists monday sunday,
    DT.valid monday = true /\ DT.isocalendar monday = (y, w, 1) /\
    DT.valid sunday = true /\ DT.isocalendar sunday = (y, w, 7) /\
    WeekInfo.week_start info = DT.strftime_date monday /\
    WeekInfo.week_end info = DT.strftime_date sunday.

(** The [datetime] text of a record is the date [d], whose week is in
    range. *)
Definition dated (post : Post.t) (d : DT.t) : Prop :=
  DT.strptime_iso (Post.datetime post) = Some d /\ DT.valid d = true /\ week_in_range d.

(** The entries of a partition are keyed by the identifier of the ISO
    week that their [info] describes, each key once. *)
Definition weeks_ok (weeks : Weeks) : Prop :=
  NoDup (map fst weeks) /\
  forall k wd, (k, wd) ∈ weeks ->
    k = WeekInfo.week_id (WeekData.info wd) /\
    exists y w, 1 <= y <= 9999 /\ 1 <= w <= 53 /\ describes_week (WeekData.info wd) y w.

(** A listing with a post dated on the last day of the calendar. *)
Definition far_fetch (p : nat) : Response :=
  match p with
  | 1%nat => Page [sample_row "99" "9999-12-31 00:00:00" None]
  | _ => Page []
  end.

(** The records that a first run over [stale_fetch] collects. *)
Definition stale_posts : list Post.t :=
  match crawl_posts stale_fetch sample_today ∅ 2 with
  | Some (Ret posts) => posts
  | _ => []
  end.

(** ** More about the extractor *)

(** The row with other count cells: the text of [td.gall_count], of
    [td.gall_recommend] and of the [.reply_numbox] of the title link. *)
Definition with_counts (row : Row) (count recommend reply : option string) : Row :=
  {| data_type := data_type row;
     data_no := data_no row;
     gall_tit_a :=
       match gall_tit_a row with
       | Some t =>
           Some {| href := href t; reply_numbox := reply; title_text := title_text t |}
       | None => None
       end;
     gall_num := gall_num row;
     gall_date := gall_date row;
     gall_writer := gall_writer row;
     gall_count := count;
     gall_recommend := recommend |}.

(** The number in a comment box: its text without the brackets, or 0. *)
Definition comments_of (reply : option string) : Z :=
  match reply with
  | Some text => int_or_zero (Py.strip "[]" text)
  | None => 0
  end.

(** The record with other counts. *)
Definition set_counts (views likes comments : Z) (pd : PostData) : PostData :=
  {| record :=
       {| Post.post_id := Post.post_id (record pd);
          Post.title := Post.title (record pd);
          Post.author := Post.author (record pd);
          Post.author_ip := Post.author_ip (record pd);
          Post.author_type := Post.author_type (record pd);
          Post.date := Post.date (record pd);
          Post.time := Post.time (record pd);
          Post.datetime := Post.datetime (record pd);
          Post.views := views;
          Post.likes := likes;
          Post.comments := comments;
          Post.url := Post.url (record pd) |};
     _datetime_obj := _datetime_obj pd |}.

(** The number that a string of decimal digits writes. *)
Definition digits_value (digits : string) : Z :=
  fold_left (fun acc c => 10 * acc + Py.digit_val c) (list_ascii_of_string digits) 0.

(** [pad2 n] is read back by [int] and has no separator in it. *)
Definition pad2_plain (n : Z) : bool :=
  int_reads (DT.pad2 n) n &&
  negb (Py.char_in ":" (DT.pad2 n)) && negb (Py.char_in "." (DT.pad2 n)).

(** A text of ASCII characters only. *)
Definition ascii_text (s : string) : bool :=
  forallb (fun c => Py.code c <? 128) (list_ascii_of_string s).

(** ** More about weeks *)

(** [YYYY-MM-DD] of the date of an ordinal. *)
Definition date_string (o : Z) : string :=
  DT.pad4 (fst (fst (DT.ord2ymd o))) +:+ "-" +:+
  DT.pad2 (snd (fst (DT.ord2ymd o))) +:+ "-" +:+
  DT.pad2 (snd (DT.ord2ymd o)).

(** The ordinal of the Monday of the Monday-to-Sunday week of a date. *)
Definition monday_of (d : DT.t) : Z := DT.toordinal d - DT.weekday d.

(** ** More about the partition *)

(** The entries of a partition of the posts [done]: each key once, each
    entry under the identifier of its own [info], with at least one
    post, its posts in the order they have in [done]. *)
Definition weeks_keyed (done : list Post.t) (weeks : Weeks) : Prop :=
  NoDup (map fst weeks) /\
  forall k wd, (k, wd) ∈ weeks ->
    k = WeekInfo.week_id (WeekData.info wd) /\
    WeekData.posts wd <> [] /\
    WeekData.posts wd `sublist_of` done.

(** Three records of two weeks, the older week in the middle. *)
Definition mixed_fetch (p : nat) : Response :=
  match p with
  | 1%nat =>
      Page [sample_row "21" "2024-03-09 10:00:00" None;
            sample_row "22" "2024-03-02 10:00:00" None;
            sample_row "23" "2024-03-08 10:00:00" None]
  | _ => Page []
  end.

Definition mixed_posts : list Post.t :=
  match crawl_posts mixed_fetch sample_today ∅ 3 with
  | Some (Ret posts) => posts
  | _ => []
  end.
(** ** Well-formed files *)



(** The file of week 10 of 2024 as a run leaves it. *)
Definition sample_archive : Archive :=
  match main mixed_fetch sample_today sample_clock 3 ∅ with
  | Some (Ret archive) => archive
  | _ => ∅
  end.

(** The partition of the records of that run. *)
Definition sample_weeks : Weeks :=
  match organize_by_week mixed_posts with
  | Ret weeks => weeks
  | Raise _ => []
  end.
(** ** More about the crawl *)

(** The records of the rows that extract and whose identifier is not
    known, in the order of the rows. *)
Definition unknown_records (today : DT.t) (existing_ids : gset string) (rows : list Row)
  : list PostData :=
  List.filter (fun pd => negb (bool_decide (Post.post_id (record pd) ∈ existing_ids)))
              (omap (fun row => extract_post_data row today) rows).

(** The request for page [p] fails or the page has no row. *)
Definition last_page (fetch : nat -> Response) (p : nat) : Prop :=
  fetch p = RequestFailed \/ fetch p = Page [].
(** ** A listing read twice *)

(** A post has one timestamp: two rows of the listing, on whatever
    pages, that extract with the same identifier extract with the same
    timestamp. *)
Definition listing_consistent (fetch : nat -> Response) (today : DT.t) : Prop :=
  forall p q rows rows' row row' pd pd',
    fetch p = Page rows -> fetch q = Page rows' ->
    row ∈ rows -> row' ∈ rows' ->
    extract_post_data row today = Some pd ->
    extract_post_data row' today = Some pd' ->
    Post.post_id (record pd) = Post.post_id (record pd') ->
    _datetime_obj pd = _datetime_obj pd'.

(** A listing that overlaps the archive: a new post, then the known
    posts 10, 9, 8, 7, 6 in a row, then another new one. *)
Definition overlap_fetch (p : nat) : Response :=
  match p with
  | 1%nat =>
      Page [sample_row "12" "2024-03-10 11:00:00" None;
            sample_row "10" "2024-03-10 10:00:00" None;
            sample_row "9" "2024-03-10 09:00:00" None;
            sample_row "8" "2024-03-10 08:00:00" None;
            sample_row "7" "2024-03-10 07:00:00" None;
            sample_row "6" "2024-03-10 06:00:00" None;
            sample_row "5" "2024-03-10 05:00:00" None]
  | _ => Page []
  end.

(** * Properties *)

#[local] Arguments Nat.leb : simpl never.

(** ** The primitives on known values *)

Example split_hh_mm : Py.split ":" "14:05" = ["14"; "05"].
Proof. reflexivity. Qed.

Example split_without_separator : Py.split "." "abc" = ["abc"].
Proof. reflexivity. Qed.

Example split_trailing_separator : Py.split "." "1.2." = ["1"; "2"; ""].
Proof. reflexivity. Qed.

Example strip_brackets : Py.strip "[]" "[12]" = "12".
Proof. reflexivity. Qed.

Example int_accepts :
  Py.int " 05 " = Some 5 /\ Py.int "-3" = Some (-3) /\ Py.int "+7" = Some 7 /\
  Py.int "1_000" = Some 1000.
Proof. repeat split; reflexivity. Qed.

Example int_rejects :
  Py.int "" = None /\ Py.int "-" = None /\ Py.int "- 1" = None /\ Py.int "12a" = None /\
  Py.int "1__0" = None /\ Py.int "_1" = None /\ Py.int "1_" = None.
Proof. repeat split; reflexivity. Qed.

Example toordinal_2002_03_11 : DT.toordinal (DT.mk 2002 3 11 0 0 0 0) = 730920.
Proof. reflexivity. Qed.

Example ord2ymd_730920 : DT.ord2ymd 730920 = (2002, 3, 11).
Proof. reflexivity. Qed.

Example ord2ymd_last : DT.ord2ymd DT.MAXORDINAL = (9999, 12, 31).
Proof. reflexivity. Qed.

Example isocalendar_2003_12_29 : DT.isocalendar (DT.mk 2003 12 29 0 0 0 0) = (2004, 1, 1).
Proof. reflexivity. Qed.

Example isocalendar_2004_01_04 : DT.isocalendar (DT.mk 2004 1 4 0 0 0 0) = (2004, 1, 7).
Proof. reflexivity. Qed.

Example isocalendar_2021_01_03 : DT.isocalendar (DT.mk 2021 1 3 0 0 0 0) = (2020, 53, 7).
Proof. reflexivity. Qed.

Example strptime_full_reads :
  DT.strptime_full "2024-03-10 14:05:09" = Some (DT.mk 2024 3 10 14 5 9 0) /\
  DT.strptime_full "2024-3-1  1:2:3" = Some (DT.mk 2024 3 1 1 2 3 0).
Proof. split; reflexivity. Qed.

Example strptime_full_refuses :
  DT.strptime_full "2024-13-10 14:05:09" = None /\
  DT.strptime_full "2024-02-30 14:05:09" = None /\
  DT.strptime_full "2024-03-10 14:05:60" = None /\
  DT.strptime_full "2024-03-10 14:05:09 " = None /\
  DT.strptime_full "2024-03-10T14:05:09" = None.
Proof. repeat split; reflexivity. Qed.

Example get_week_info_2024_03_10 :
  get_week_info (DT.mk 2024 3 10 10 0 0 0)
  = Ret {| WeekInfo.week_id := "2024_W10"; WeekInfo.year := 2024; WeekInfo.week := 10;
           WeekInfo.week_start := "2024-03-04"; WeekInfo.week_end := "2024-03-10" |}.
Proof. reflexivity. Qed.

(** ** The date normalizer *)

Example parse_date_hh_mm :
  parse_date (Some {| date_title := None; date_text := "14:05" |}) sample_today
  = Some (DT.mk 2024 3 10 14 5 0 0).
Proof. reflexivity. Qed.

Example parse_date_mm_dd :
  parse_date (Some {| date_title := None; date_text := "03.09" |}) sample_today
  = Some (DT.mk 2024 3 9 0 0 0 0).
Proof. reflexivity. Qed.

Example parse_date_yy_mm_dd :
  parse_date (Some {| date_title := None; date_text := "23.12.31" |}) sample_today
  = Some (DT.mk 2023 12 31 0 0 0 0).
Proof. reflexivity. Qed.

Example parse_date_full :
  parse_date (Some {| date_title := Some "2024-03-08 23:59:58"; date_text := "03.08" |})
             sample_today
  = Some (DT.mk 2024 3 8 23 59 58 0).
Proof. reflexivity. Qed.

(** A text with a colon is never read by the dotted rules. *)
Example parse_date_colon_first :
  parse_date (Some {| date_title := None; date_text := "23.12:31" |}) sample_today = None.
Proof. reflexivity. Qed.

(** C2, as stated, fails: a cell whose [title] attribute is not a
    timestamp is read from its displayed text. *)
Lemma parse_date_malformed_title_falls_through :
  DT.strptime_full "yesterday" = None /\
  parse_date (Some {| date_title := Some "yesterday"; date_text := "14:05" |}) sample_today
  = Some (DT.mk 2024 3 10 14 5 0 0).
Proof. split; reflexivity. Qed.

(** C2, amended: the [title] attribute is read when it holds a
    timestamp; when it is missing, empty or malformed the displayed
    text decides which single rule applies (a colon: HH:MM; else a dot
    and two segments: MM.DD; else a dot and three segments: YY.MM.DD),
    and a failure under that rule gives none: no other rule is tried. *)
Theorem parse_date_rules (tag : DateTag) (today : DT.t) :
  parse_date (Some tag) today = apply_rule (rule_of tag) tag today.
Proof.
  unfold parse_date, rule_of.
  destruct (parse_title (date_title tag)) as [d|] eqn:Htitle.
  - simpl. now rewrite Htitle.
  - destruct (Py.char_in ":" (date_text tag)) eqn:Hcolon.
    + unfold parse_hh_mm. simpl.
      destruct (Py.split ":" (date_text tag)) as [|hh [|mm [|x l]]] eqn:Hsplit;
        simpl; rewrite ?Hsplit;
        repeat match goal with |- context [Py.int ?a] => destruct (Py.int a) end;
        reflexivity.
    + destruct (Py.char_in "." (date_text tag)) eqn:Hdot; [|reflexivity].
      unfold parse_dotted.
      destruct (Py.split "." (date_text tag)) as [|p0 [|p1 [|p2 [|x l]]]] eqn:Hsplit;
        simpl; rewrite ?Hsplit;
        repeat match goal with |- context [Py.int ?a] => destruct (Py.int a) end;
        reflexivity.
Qed.

(** A failure under the rule of the text is final, whatever the other
    rules would read. *)
Corollary parse_date_no_second_rule (tag : DateTag) (today : DT.t) :
  parse_title (date_title tag) = None ->
  Py.char_in ":" (date_text tag) = true ->
  parse_hh_mm (date_text tag) today = None ->
  parse_date (Some tag) today = None.
Proof.
  intros Htitle Hcolon Hfail. unfold parse_date. now rewrite Htitle, Hcolon.
Qed.

(** ** The record extractor *)

(** What [extract_post_data] returns, when it returns a record. *)
Lemma extract_post_data_Some (row : Row) (today : DT.t) (pd : PostData) :
  extract_post_data row today = Some pd ->
  exists title_tag h post_datetime,
    gall_tit_a row = Some title_tag /\
    href title_tag = Some h /\
    parse_date (gall_date row) today = Some post_datetime /\
    _datetime_obj pd = post_datetime /\
    Post.datetime (record pd) = DT.strftime_iso post_datetime /\
    Post.author (record pd) = fst (fst (writer_info (gall_writer row))) /\
    Post.author_ip (record pd) = snd (fst (writer_info (gall_writer row))) /\
    Post.author_type (record pd) = snd (writer_info (gall_writer row)).
Proof.
  unfold extract_post_data, extract_post_body.
  destruct (Py.contains _ _); [discriminate|].
  destruct (gall_tit_a row) as [title_tag|] eqn:Htag; [|discriminate].
  destruct (href title_tag) as [h|] eqn:Hhref; [|discriminate].
  cbn [mbind exc_bind].
  destruct (if Py.truthy (Py.attr_or_empty (data_no row)) then _ else _); [|discriminate].
  destruct (parse_date (gall_date row) today) as [dt|] eqn:Hdate; [|discriminate].
  destruct (writer_info (gall_writer row)) as [[a i] ty] eqn:Hwriter.
  intros [= <-]. exists title_tag, h, dt. simpl. rewrite ?Hwriter.
  repeat split; auto.
Qed.

(** C3, as stated, fails: a writer cell with neither a member identity
    nor an IP attribute is typed [ip], not [unknown]. *)
Lemma author_type_without_attributes_is_ip :
  exists pd,
    extract_post_data (sample_row "7" "2024-03-10 10:00:00" (Some plain_writer)) sample_today
    = Some pd /\
    data_uid plain_writer = None /\ data_ip plain_writer = None /\
    Post.author_type (record pd) = ip /\
    Post.author_type (record pd) <> unknown.
Proof. eexists. repeat split; try reflexivity. discriminate. Qed.

(** C3, amended: for every extracted row with a writer cell,
    [author_type] is [member] when the member identity is present and
    not empty; otherwise [semi_anonymous] when the IP attribute is
    present and not empty and the author name starts with the marker;
    otherwise [ip], whether or not there is an IP attribute. It is
    [unknown] only for a row without a writer cell. *)
Theorem author_type_resolution (row : Row) (today : DT.t) (pd : PostData) :
  extract_post_data row today = Some pd ->
  match gall_writer row with
  | Some w =>
      Post.author_type (record pd) =
        if Py.attr_truthy (data_uid w) then member
        else if Py.attr_truthy (data_ip w) &&
                Py.startswith (Post.author (record pd)) SEMI_ANONYMOUS_MARK
        then semi_anonymous
        else ip
  | None => Post.author_type (record pd) = unknown
  end.
Proof.
  intros H. apply extract_post_data_Some in H.
  destruct H as (tt & h & dt & _ & _ & _ & _ & _ & Ha & _ & Hty).
  rewrite Hty, Ha. destruct (gall_writer row) as [w|]; [|reflexivity].
  simpl. destruct (Py.attr_truthy (data_uid w)); [reflexivity|].
  destruct (data_ip w) as [i|]; simpl; [|reflexivity].
  destruct (Py.truthy i); simpl; [|reflexivity].
  destruct (Py.startswith _ _); reflexivity.
Qed.

Lemma author_type_resolution_witness :
  exists pd,
    extract_post_data (sample_row "7" "2024-03-10 10:00:00" (Some semi_writer)) sample_today
    = Some pd /\
    Post.author_type (record pd) = semi_anonymous.
Proof.
  eexists. split; [reflexivity|].
  exact (author_type_resolution
           (sample_row "7" "2024-03-10 10:00:00" (Some semi_writer)) sample_today _ eq_refl).
Defined.

(** C10: a writer cell without a (non-empty) nickname attribute gives
    its displayed text as the author; with the attribute, the author is
    the attribute and the displayed text has no effect on the record. *)
Theorem author_falls_back_to_text (row : Row) (today : DT.t) (pd : PostData) (w : WriterTag) :
  extract_post_data row today = Some pd ->
  gall_writer row = Some w ->
  (Py.attr_truthy (data_nick w) = false -> Post.author (record pd) = writer_text w) /\
  (Py.attr_truthy (data_nick w) = true ->
     Some (Post.author (record pd)) = data_nick w /\
     forall text, extract_post_data (with_writer_text row text) today = Some pd).
Proof.
  intros Hpd Hw. split.
  - intros Hnick. apply extract_post_data_Some in Hpd.
    destruct Hpd as (tt & h & dt & _ & _ & _ & _ & _ & Ha & _).
    rewrite Ha, Hw. simpl.
    destruct (data_nick w) as [n|]; simpl in *; [now rewrite Hnick | reflexivity].
  - intros Hnick. split.
    + apply extract_post_data_Some in Hpd.
      destruct Hpd as (tt & h & dt & _ & _ & _ & _ & _ & Ha & _).
      rewrite Ha, Hw. simpl.
      destruct (data_nick w) as [n|]; simpl in *; [now rewrite Hnick | discriminate].
    + intros text. rewrite <- Hpd.
      unfold extract_post_data, extract_post_body, with_writer_text. simpl.
      rewrite Hw. simpl.
      destruct (data_nick w) as [n|]; simpl in *; [|discriminate].
      rewrite Hnick. reflexivity.
Qed.

Lemma author_falls_back_to_text_witness :
  exists pd,
    extract_post_data (sample_row "7" "2024-03-10 10:00:00" (Some nameless_writer)) sample_today
    = Some pd /\
    Post.author (record pd) = "passer-by".
Proof.
  eexists. split; [reflexivity|].
  exact (proj1 (author_falls_back_to_text
                  (sample_row "7" "2024-03-10 10:00:00" (Some nameless_writer))
                  sample_today _ nameless_writer eq_refl eq_refl) eq_refl).
Defined.

(** ** Rows that do not extract *)

Lemma extraction_failure_None (row : Row) (today : DT.t) :
  extraction_failure row today -> extract_post_data row today = None.
Proof.
  unfold extract_post_data, extract_post_body.
  intros [Hn | Ht | Hno Hnum | Hd | e He].
  - now rewrite Hn.
  - rewrite Ht. now destruct (Py.contains _ _).
  - destruct (Py.contains _ _); [reflexivity|].
    destruct (gall_tit_a row) as [t|]; [|reflexivity].
    destruct (href t); [|reflexivity]. cbn [mbind exc_bind].
    destruct (data_no row) as [n|]; simpl in Hno |- *.
    + rewrite Hno. now rewrite Hnum.
    + now rewrite Hnum.
  - destruct (Py.contains _ _); [reflexivity|].
    destruct (gall_tit_a row) as [t|]; [|reflexivity].
    destruct (href t); [|reflexivity]. cbn [mbind exc_bind].
    destruct (if Py.truthy _ then _ else _); [|reflexivity].
    now rewrite Hd.
  - unfold extract_post_body in He. now rewrite He.
Qed.


Section RowLoop.

Variable today : DT.t.
Variable cutoff_date : DT.t.
Variable existing_ids : gset string.

Local Abbreviation for_rows := (for_rows today cutoff_date existing_ids).

(** A row that does not extract leaves the loop as it found it. *)
Lemma for_rows_skip (pre post : list Row) (row : Row) (st : CrawlState) :
  extract_post_data row today = None ->
  for_rows (pre ++ row :: post) st = for_rows (pre ++ post) st.
Proof.
  intros Hnone. revert st.
  induction pre as [|r pre IH]; intros st; simpl.
  - now rewrite Hnone.
  - destruct (extract_post_data r today) as [pd|]; [|apply IH].
    repeat match goal with
           | |- context [if ?b then _ else _] => destruct b
           end; solve [reflexivity | apply IH].
Qed.

End RowLoop.

(** C9: the extraction of a row that is a notice, has no title cell,
    has no numeric identifier, has no resolvable timestamp or raises an
    exception is absent, and the loop over the page goes on with the
    rows that follow as if the row were not there. *)
Theorem extraction_failure_is_local (row : Row) (today cutoff_date : DT.t)
    (existing_ids : gset string) (pre post : list Row) (st : CrawlState) :
  extraction_failure row today ->
  extract_post_data row today = None /\
  for_rows today cutoff_date existing_ids (pre ++ row :: post) st
  = for_rows today cutoff_date existing_ids (pre ++ post) st.
Proof.
  intros Hfail. apply extraction_failure_None in Hfail.
  split; [exact Hfail | now apply for_rows_skip].
Qed.

Lemma extraction_failure_is_local_witness :
  extract_post_data broken_row sample_today = None /\
  for_rows sample_today sample_today ∅
    ([sample_row "7" "2024-03-10 10:00:00" None] ++
     broken_row :: [sample_row "8" "2024-03-10 11:00:00" None]) crawl_init
  = for_rows sample_today sample_today ∅
    ([sample_row "7" "2024-03-10 10:00:00" None] ++
     [sample_row "8" "2024-03-10 11:00:00" None]) crawl_init.
Proof.
  apply extraction_failure_is_local.
  apply (unexpected_exception broken_row sample_today KeyError). reflexivity.
Defined.

(** ** The pagination crawler *)

Section CrawlFacts.

Variable fetch : nat -> Response.
Variable today : DT.t.
Variable cutoff_date : DT.t.
Variable existing_ids : gset string.

Local Abbreviation scan := (for_rows today cutoff_date existing_ids).
Local Abbreviation crawl := (crawl_loop fetch today cutoff_date existing_ids).

Local Ltac branches :=
  repeat match goal with
         | |- context [if ?b then _ else _] => destruct b eqn:?
         end.

Lemma for_rows_page (rows : list Row) (st : CrawlState) :
  page (scan rows st) = page st.
Proof.
  revert st. induction rows as [|row rows IH]; intros st; simpl; [reflexivity|].
  destruct (extract_post_data row today); [|apply IH].
  branches; simpl; rewrite ?IH; reflexivity.
Qed.

Lemma for_rows_next_page (rows : list Row) (st : CrawlState) :
  scan rows (next_page st) = next_page (scan rows st).
Proof.
  revert st. induction rows as [|row rows IH]; intros st; simpl; [reflexivity|].
  destruct (extract_post_data row today); [|apply IH].
  branches; simpl; try reflexivity; rewrite <- IH; reflexivity.
Qed.

(** The loop over two row lists in a row: the second is not entered
    once the first has stopped the crawl. *)
Lemma for_rows_app (a b : list Row) (st : CrawlState) :
  stop_crawling st = false ->
  scan (a ++ b) st =
  if stop_crawling (scan a st) then scan a st else scan b (scan a st).
Proof.
  revert st. induction a as [|row a IH]; intros st Hst; simpl.
  - now rewrite Hst.
  - destruct (extract_post_data row today); [|now apply IH].
    destruct (bool_decide _).
    + destruct (Nat.leb _ _); [reflexivity | now apply IH].
    + destruct (DT.geb _ _); [now apply IH | reflexivity].
Qed.

Lemma for_rows_prefix (rows : list Row) (st : CrawlState) :
  all_posts st `prefix_of` all_posts (scan rows st).
Proof.
  revert st. induction rows as [|row rows IH]; intros st; simpl; [reflexivity|].
  destruct (extract_post_data row today) as [pd|]; [|apply IH].
  destruct (bool_decide _).
  - destruct (Nat.leb _ _); [reflexivity | exact (IH _)].
  - destruct (DT.geb _ _); [|reflexivity].
    etransitivity; [|exact (IH _)]. simpl. now apply prefix_app_r.
Qed.

(** Every record of the result is new and in the window. *)
Lemma for_rows_sound (rows : list Row) (st : CrawlState) :
  Forall (fun pd => ~ is_known existing_ids pd /\ in_window cutoff_date pd) (all_posts st) ->
  Forall (fun pd => ~ is_known existing_ids pd /\ in_window cutoff_date pd)
         (all_posts (scan rows st)).
Proof.
  revert st. induction rows as [|row rows IH]; intros st Hst; simpl; [exact Hst|].
  destruct (extract_post_data row today) as [pd|]; [|now apply IH].
  destruct (bool_decide _) eqn:Hknown.
  - destruct (Nat.leb _ _); [exact Hst | now apply IH].
  - destruct (DT.geb _ _) eqn:Hwin; [|exact Hst].
    apply IH. simpl. apply Forall_app. split; [exact Hst|].
    constructor; [|constructor]. split; [|exact Hwin].
    unfold is_known. now apply bool_decide_eq_false in Hknown.
Qed.

(** While the crawl goes on, fewer than five known records were met in
    a row. *)
Lemma for_rows_count (rows : list Row) (st : CrawlState) :
  (consecutive_dup_count st < 5)%nat ->
  stop_crawling st = false ->
  stop_crawling (scan rows st) = false ->
  (consecutive_dup_count (scan rows st) < 5)%nat.
Proof.
  revert st. induction rows as [|row rows IH]; intros st Hc Hst; simpl; [easy|].
  destruct (extract_post_data row today) as [pd|]; [|now apply IH].
  destruct (bool_decide _).
  - destruct (Nat.leb _ _) eqn:Hle; [discriminate|].
    apply IH; simpl; [|exact Hst].
    apply Nat.leb_gt in Hle. lia.
  - destruct (DT.geb _ _); [|discriminate].
    apply IH; simpl; [lia | exact Hst].
Qed.

(** One row that extracts, met while the crawl goes on. *)
Lemma for_rows_snoc (pre : list Row) (row : Row) (pd : PostData) (st : CrawlState) :
  stop_crawling st = false ->
  stop_crawling (scan pre st) = false ->
  extract_post_data row today = Some pd ->
  scan (pre ++ [row]) st = scan [row] (scan pre st).
Proof.
  intros Hst Hpre Hpd. rewrite for_rows_app by exact Hst. now rewrite Hpre.
Qed.

Lemma scan_eq_refl (st : CrawlState) : scan_eq st st.
Proof. repeat split. Qed.

(** The loop over the pages is the loop over the rows of the stream. *)
Lemma crawl_loop_scans (fuel : nat) (st st' : CrawlState) :
  stop_crawling st = false ->
  crawl fuel st = Some st' ->
  exists n, (n <= fuel)%nat /\
            scan_eq st' (scan (row_stream fetch (page st) n) st).
Proof.
  revert st. induction fuel as [|fuel IH]; intros st Hst; cbn [crawl_loop]; [discriminate|].
  destruct (fetch (page st)) as [|[|row rows]] eqn:Hfetch.
  - intros [= <-]. exists O. split; [lia | apply scan_eq_refl].
  - intros [= <-]. exists O. split; [lia | apply scan_eq_refl].
  - destruct (stop_crawling (scan (row :: rows) st)) eqn:Hstop.
    + intros [= <-]. exists 1%nat. split; [lia|].
      cbn [row_stream]. rewrite Hfetch, app_nil_r. apply scan_eq_refl.
    + intros Hloop. apply IH in Hloop; [|exact Hstop].
      destruct Hloop as (n & Hn & Heq). exists (S n). split; [lia|].
      cbn [row_stream]. rewrite Hfetch.
      rewrite for_rows_app by exact Hst. rewrite Hstop.
      cbn [next_page page] in Heq. rewrite for_rows_page in Heq.
      rewrite for_rows_next_page in Heq. exact Heq.
Qed.

(** The loop over the pages ends as soon as the rows of the stream
    stop it. *)
Lemma crawl_loop_stops (n : nat) :
  forall (st : CrawlState) (fuel : nat),
  stop_crawling st = false ->
  stop_crawling (scan (row_stream fetch (page st) n) st) = true ->
  (n <= fuel)%nat ->
  exists st', crawl fuel st = Some st' /\
              scan_eq st' (scan (row_stream fetch (page st) n) st).
Proof.
  induction n as [|n IH]; intros st fuel Hst Hstop Hfuel.
  - simpl in Hstop. congruence.
  - destruct fuel as [|fuel]; [lia|].
    cbn [row_stream crawl_loop] in *.
    destruct (fetch (page st)) as [|[|row rows]] eqn:Hfetch.
    + simpl in Hstop. congruence.
    + simpl in Hstop. congruence.
    + rewrite for_rows_app in Hstop |- * by exact Hst.
      destruct (stop_crawling (scan (row :: rows) st)) eqn:Hpage.
      * eexists. split; [reflexivity | apply scan_eq_refl].
      * destruct (IH (next_page (scan (row :: rows) st)) fuel) as (st' & Hloop & Heq).
        -- exact Hpage.
        -- cbn [next_page page]. rewrite for_rows_page, for_rows_next_page. exact Hstop.
        -- lia.
        -- exists st'. split; [exact Hloop|].
           cbn [next_page page] in Heq. rewrite for_rows_page in Heq.
           rewrite for_rows_next_page in Heq. exact Heq.
Qed.

End CrawlFacts.

(** Known records in a row, as many as the counter still allows, stop
    the loop and add nothing. *)
Lemma for_rows_known_run (today cutoff_date : DT.t) (existing_ids : gset string)
    (rows : list Row) :
  forall (st : CrawlState) (known more : list PostData),
  omap (fun row => extract_post_data row today) rows = known ++ more ->
  Forall (is_known existing_ids) known ->
  (consecutive_dup_count st + length known = 5)%nat ->
  (0 < length known)%nat ->
  stop_crawling (for_rows today cutoff_date existing_ids rows st) = true /\
  all_posts (for_rows today cutoff_date existing_ids rows st) = all_posts st.
Proof.
  induction rows as [|row rows IH]; intros st known more Hrows Hknown Hcount Hlen.
  - destruct known; simpl in *; [lia | discriminate].
  - simpl in Hrows. cbn [for_rows].
    destruct (extract_post_data row today) as [pd|]; [|now apply (IH st known more)].
    destruct known as [|k known]; [simpl in Hlen; lia|].
    simpl in Hrows. injection Hrows as -> Hrows.
    apply Forall_cons in Hknown. destruct Hknown as [Hk Hknown].
    rewrite bool_decide_eq_true_2 by exact Hk.
    destruct (Nat.leb _ _) eqn:Hle; [split; reflexivity|].
    apply Nat.leb_gt in Hle. simpl in Hcount.
    destruct (IH {| all_posts := all_posts st; page := page st;
                    stop_crawling := stop_crawling st;
                    new_posts_count := new_posts_count st;
                    consecutive_dup_count := S (consecutive_dup_count st) |}
                 known more Hrows Hknown) as [Hs Ha].
    + simpl. lia.
    + destruct known; simpl in *; lia.
    + split; [exact Hs | exact Ha].
Qed.

(** The post before the window ends the crawl of [window_fetch]: the
    post that follows it on the page is inside the window and is not
    collected. *)
Example window_fetch_result :
  option_map (fun st => (post_ids (map record (all_posts st)), stop_crawling st))
    (crawl_loop window_fetch sample_today sample_cutoff ∅ 2 crawl_init)
  = Some (["12"], true).
Proof. vm_compute. reflexivity. Qed.

(** ** Sorting *)

Lemma string_ltb_false_leb (a b : string) :
  String.ltb a b = false <-> String.leb b a = true.
Proof.
  unfold String.ltb, String.leb. rewrite (String.compare_antisym b a).
  destruct (String.compare a b); simpl; split; congruence.
Qed.

Lemma string_compare_lt_trans (a b c : string) :
  String.compare a b = Lt -> String.compare b c = Lt -> String.compare a c = Lt.
Proof.
  intros Hab Hbc.
  apply String_as_OT.cmp_lt. apply String_as_OT.lt_trans with b;
    apply String_as_OT.cmp_lt; assumption.
Qed.

Lemma string_leb_trans (a b c : string) :
  String.leb a b = true -> String.leb b c = true -> String.leb a c = true.
Proof.
  unfold String.leb. intros Hab Hbc.
  destruct (String.compare a c) eqn:Hac; try reflexivity.
  destruct (String.compare a b) eqn:Eab; try discriminate;
    destruct (String.compare b c) eqn:Ebc; try discriminate.
  - apply String.compare_eq_iff in Eab. subst. congruence.
  - apply String.compare_eq_iff in Eab. subst. congruence.
  - apply String.compare_eq_iff in Ebc. subst. congruence.
  - rewrite (string_compare_lt_trans a b c Eab Ebc) in Hac. discriminate.
Qed.

Section Sorting.

Context {A : Type}.
Variable key : A -> string.

Lemma insert_desc_perm (x : A) (l : list A) :
  Permutation (Py.insert_desc key x l) (x :: l).
Proof.
  induction l as [|y l IH]; simpl; [reflexivity|].
  destruct (String.ltb (key x) (key y)); [|reflexivity].
  rewrite IH. apply perm_swap.
Qed.

Lemma sort_desc_perm (l : list A) : Permutation (Py.sort_desc key l) l.
Proof.
  induction l as [|x l IH]; simpl; [reflexivity|].
  rewrite insert_desc_perm. now rewrite IH.
Qed.

Lemma insert_desc_sorted (x : A) (l : list A) :
  StronglySorted (key_ge key) l -> StronglySorted (key_ge key) (Py.insert_desc key x l).
Proof.
  induction l as [|y l IH]; intros Hl; simpl.
  - constructor; constructor.
  - apply StronglySorted_inv in Hl. destruct Hl as [Hl Hy].
    destruct (String.ltb (key x) (key y)) eqn:Hlt.
    + constructor; [now apply IH|].
      rewrite insert_desc_perm. constructor; [|exact Hy].
      unfold key_ge, String.leb. unfold String.ltb in Hlt.
      destruct (String.compare (key x) (key y)); congruence.
    + apply string_ltb_false_leb in Hlt.
      constructor; [constructor; assumption|].
      constructor; [exact Hlt|].
      eapply Forall_impl; [exact Hy|].
      intros z Hz. unfold key_ge in *. now apply string_leb_trans with (key y).
Qed.

(** The sort puts the keys in non-increasing order. *)
Lemma sort_desc_sorted (l : list A) : StronglySorted (key_ge key) (Py.sort_desc key l).
Proof.
  induction l as [|x l IH]; simpl; [constructor|].
  now apply insert_desc_sorted.
Qed.

Lemma insert_desc_filter (f : A -> bool) (x : A) (l : list A) :
  (forall y, f x = true -> f y = true -> key x = key y) ->
  List.filter f (Py.insert_desc key x l) = List.filter f (x :: l).
Proof.
  intros Hf. induction l as [|y l IH]; simpl; [reflexivity|].
  destruct (String.ltb (key x) (key y)) eqn:Hlt; [|reflexivity].
  simpl. rewrite IH. simpl. specialize (Hf y).
  destruct (f x) eqn:Hx, (f y) eqn:Hy; try reflexivity.
  rewrite (Hf eq_refl eq_refl) in Hlt. unfold String.ltb in Hlt.
  assert (Heq : String.compare (key y) (key y) = Eq).
  { pose proof (String.compare_antisym (key y) (key y)) as H.
    destruct (String.compare (key y) (key y)); simpl in H; congruence. }
  rewrite Heq in Hlt. discriminate.
Qed.

(** The sort is stable: the elements of one key keep their order. *)
Lemma sort_desc_stable (k : string) (l : list A) :
  List.filter (fun x => String.eqb (key x) k) (Py.sort_desc key l)
  = List.filter (fun x => String.eqb (key x) k) l.
Proof.
  induction l as [|x l IH]; simpl; [reflexivity|].
  rewrite insert_desc_filter.
  - simpl. now rewrite IH.
  - intros y Hx Hy. apply String.eqb_eq in Hx, Hy. congruence.
Qed.

(** A list in non-increasing key order is left as it is. *)
Lemma sort_desc_sorted_id (l : list A) :
  StronglySorted (key_ge key) l -> Py.sort_desc key l = l.
Proof.
  induction l as [|x l IH]; intros Hl; simpl; [reflexivity|].
  apply StronglySorted_inv in Hl. destruct Hl as [Hl Hx].
  rewrite (IH Hl). destruct l as [|y l']; simpl; [reflexivity|].
  apply Forall_inv in Hx. unfold key_ge in Hx.
  apply string_ltb_false_leb in Hx. now rewrite Hx.
Qed.

Lemma sort_desc_idempotent (l : list A) :
  Py.sort_desc key (Py.sort_desc key l) = Py.sort_desc key l.
Proof. apply sort_desc_sorted_id, sort_desc_sorted. Qed.

End Sorting.

(** ** The archive store *)

Lemma merge_and_persist_lookup (now : DT.t) (week_id : string) (week_info : WeekInfo.t)
    (new_posts : list Post.t) (archive : Archive) :
  merge_and_persist now week_id week_info new_posts archive !! week_id
  = Some {| WeekFile.gallery_id := GALL_ID;
            WeekFile.gallery_name := GALL_NAME;
            WeekFile.week := WeekInfo.week_id week_info;
            WeekFile.week_start := WeekInfo.week_start week_info;
            WeekFile.week_end := WeekInfo.week_end week_info;
            WeekFile.last_updated := DT.strftime_stamp now;
            WeekFile.posts :=
              Py.sort_desc Post.datetime (merged_posts (archive !! week_id) new_posts);
            WeekFile.total_posts :=
              Z.of_nat (length (Py.sort_desc Post.datetime
                                  (merged_posts (archive !! week_id) new_posts))) |}.
Proof.
  unfold merge_and_persist, save_week_data, load_week_data. now rewrite lookup_insert_eq.
Qed.

Lemma merge_and_persist_other (now : DT.t) (week_id other : string) (week_info : WeekInfo.t)
    (new_posts : list Post.t) (archive : Archive) :
  other <> week_id ->
  merge_and_persist now week_id week_info new_posts archive !! other = archive !! other.
Proof.
  intros Hne. unfold merge_and_persist, save_week_data.
  now rewrite lookup_insert_ne by congruence.
Qed.

(** C7: the file written by a merge has its posts in non-increasing
    [datetime] order, the posts of one [datetime] in the order they had
    before the sort (the posts of the old file, then the new ones), and
    [total_posts] equal to the number of posts of that same file. *)
Theorem persisted_posts_sorted (now : DT.t) (week_id : string) (week_info : WeekInfo.t)
    (new_posts : list Post.t) (archive : Archive) :
  exists data,
    merge_and_persist now week_id week_info new_posts archive !! week_id = Some data /\
    StronglySorted (key_ge Post.datetime) (WeekFile.posts data) /\
    (forall k,
       List.filter (fun post => String.eqb (Post.datetime post) k) (WeekFile.posts data)
       = List.filter (fun post => String.eqb (Post.datetime post) k)
           (merged_posts (load_week_data archive week_id) new_posts)) /\
    Permutation (WeekFile.posts data)
                (merged_posts (load_week_data archive week_id) new_posts) /\
    WeekFile.total_posts data = Z.of_nat (length (WeekFile.posts data)).
Proof.
  eexists. split; [apply merge_and_persist_lookup|]. simpl.
  split; [apply sort_desc_sorted|].
  split; [intros k; apply sort_desc_stable|].
  split; [apply sort_desc_perm | reflexivity].
Qed.

Lemma filter_all_false {A : Type} (f : A -> bool) (l : list A) :
  (forall x, x ∈ l -> f x = false) -> List.filter f l = [].
Proof.
  induction l as [|x l IH]; intros H; simpl; [reflexivity|].
  rewrite (H x) by constructor. apply IH. intros y Hy. apply H. now constructor.
Qed.

Lemma elem_of_post_ids (post : Post.t) (posts : list Post.t) :
  post ∈ posts -> Post.post_id post ∈ post_ids posts.
Proof. intros H. unfold post_ids. apply list_elem_of_fmap. eauto. Qed.

Lemma unique_new_posts_spec (existing new_posts : list Post.t) (post : Post.t) :
  post ∈ unique_new_posts existing new_posts <->
  post ∈ new_posts /\ Post.post_id post ∉ post_ids existing.
Proof.
  unfold unique_new_posts. rewrite list_elem_of_In, filter_In, <- list_elem_of_In.
  rewrite negb_true_iff, bool_decide_eq_false, elem_of_list_to_set. reflexivity.
Qed.

(** Every new post has its identifier in the merged list. *)
Lemma merged_posts_covers (existing_data : option WeekFile.t) (new_posts : list Post.t)
    (post : Post.t) :
  post ∈ new_posts ->
  Post.post_id post ∈ post_ids (merged_posts existing_data new_posts).
Proof.
  intros Hin. destruct existing_data as [existing|]; simpl.
  - unfold post_ids. rewrite map_app. apply elem_of_app.
    destruct (decide (Post.post_id post ∈ post_ids (WeekFile.posts existing))) as [He|He].
    + left. exact He.
    + right. apply elem_of_post_ids. apply unique_new_posts_spec. auto.
  - now apply elem_of_post_ids.
Qed.

Lemma post_ids_perm (l1 l2 : list Post.t) :
  Permutation l1 l2 -> Permutation (post_ids l1) (post_ids l2).
Proof. apply Permutation_map. Qed.

(** C6: merging the same new records a second time rewrites the file
    with the same posts and the same [total_posts]: none of the new
    records is unique any more. The other files are left alone. *)
Theorem merge_and_persist_idempotent (now1 now2 : DT.t) (week_id : string)
    (week_info : WeekInfo.t) (new_posts : list Post.t) (archive : Archive) :
  let once := merge_and_persist now1 week_id week_info new_posts archive in
  let twice := merge_and_persist now2 week_id week_info new_posts once in
  exists data1 data2,
    once !! week_id = Some data1 /\
    twice !! week_id = Some data2 /\
    unique_new_posts (WeekFile.posts data1) new_posts = [] /\
    WeekFile.posts data2 = WeekFile.posts data1 /\
    WeekFile.total_posts data2 = WeekFile.total_posts data1 /\
    forall other, other <> week_id -> twice !! other = once !! other.
Proof.
  intros once twice.
  assert (Hnone : unique_new_posts
                    (Py.sort_desc Post.datetime (merged_posts (archive !! week_id) new_posts))
                    new_posts = []).
  { apply filter_all_false. intros post Hin.
    apply negb_false_iff, bool_decide_eq_true, elem_of_list_to_set.
    rewrite (post_ids_perm _ _ (sort_desc_perm Post.datetime _)).
    now apply merged_posts_covers. }
  pose proof (merge_and_persist_lookup now1 week_id week_info new_posts archive) as H1.
  pose proof (merge_and_persist_lookup now2 week_id week_info new_posts once) as H2.
  fold once in H1. fold twice in H2.
  rewrite H1 in H2. cbn [merged_posts WeekFile.posts] in H2.
  rewrite Hnone, app_nil_r, sort_desc_idempotent in H2.
  eexists. eexists.
  split; [exact H1|]. split; [exact H2|].
  cbn [WeekFile.posts WeekFile.total_posts].
  split; [exact Hnone|]. split; [reflexivity|]. split; [reflexivity|].
  intros other Hne. now apply merge_and_persist_other.
Qed.

(** ** The dedup invariant *)


Lemma elem_of_load_all_existing_ids (archive : Archive) (id : string) :
  id ∈ load_all_existing_ids archive <->
  exists k data, archive !! k = Some data /\ id ∈ post_ids (WeekFile.posts data).
Proof.
  unfold load_all_existing_ids.
  assert (Hfold : forall files : list (string * WeekFile.t),
            id ∈ foldr (fun file all_ids =>
                          list_to_set (post_ids (WeekFile.posts (snd file))) ∪ all_ids)
                       (∅ : gset string) files <->
            exists file, file ∈ files /\ id ∈ post_ids (WeekFile.posts (snd file))).
  { induction files as [|file files IH]; simpl.
    - split; [set_solver|]. intros (file & Hin & _). inversion Hin.
    - rewrite elem_of_union, elem_of_list_to_set, IH. split.
      + intros [H | (f & Hf & Hid)].
        * exists file. split; [constructor | exact H].
        * exists f. split; [now constructor | exact Hid].
      + intros (f & Hf & Hid). apply elem_of_cons in Hf. destruct Hf as [-> | Hf].
        * now left.
        * right. eauto. }
  rewrite Hfold. split.
  - intros ([k data] & Hin & Hid). apply elem_of_map_to_list in Hin. eauto.
  - intros (k & data & Hk & Hid). exists (k, data). split; [|exact Hid].
    now apply elem_of_map_to_list.
Qed.

(** The crawl collects only identifiers that the archive does not
    have. *)
Lemma crawl_posts_new (fetch : nat -> Response) (today : DT.t) (archive : Archive)
    (fuel : nat) (posts : list Post.t) :
  crawl_posts fetch today archive fuel = Some (Ret posts) ->
  forall post, post ∈ posts -> Post.post_id post ∉ load_all_existing_ids archive.
Proof.
  unfold crawl_posts. destruct (DT.add_days today (- DAYS_LIMIT)) as [cutoff|]; [|discriminate].
  destruct (crawl_loop _ _ _ _ _ _) as [st|] eqn:Hloop; [|discriminate].
  intros [= <-] post Hin.
  apply crawl_loop_scans in Hloop; [|reflexivity].
  destruct Hloop as (n & _ & Hposts & _).
  pose proof (for_rows_sound today cutoff (load_all_existing_ids archive)
                (row_stream fetch (page crawl_init) n) crawl_init) as Hsound.
  rewrite <- Hposts in Hsound. specialize (Hsound ltac:(constructor)).
  rewrite Forall_forall in Hsound.
  apply list_elem_of_In, in_map_iff in Hin. destruct Hin as (pd & <- & Hpd).
  apply list_elem_of_In in Hpd. apply Hsound in Hpd. exact (proj1 Hpd).
Qed.

Lemma weeks_append_posts (weeks : Weeks) (week_info : WeekInfo.t) (post : Post.t) :
  Permutation (weeks_posts (weeks_append weeks week_info post)) (post :: weeks_posts weeks).
Proof.
  unfold weeks_posts. induction weeks as [|[k wd] weeks IH]; simpl; [reflexivity|].
  destruct (String.eqb k (WeekInfo.week_id week_info)); simpl.
  - rewrite <- app_assoc. simpl.
    rewrite <- Permutation_middle. reflexivity.
  - rewrite IH. rewrite <- Permutation_middle. reflexivity.
Qed.

Lemma organize_loop_posts (posts : list Post.t) :
  forall weeks weeks',
  organize_loop posts weeks = Ret weeks' ->
  Permutation (weeks_posts weeks') (weeks_posts weeks ++ posts).
Proof.
  induction posts as [|post posts IH]; intros weeks weeks'; simpl.
  - intros [= <-]. now rewrite app_nil_r.
  - destruct (DT.strptime_iso (Post.datetime post)) as [d|]; [|discriminate].
    cbn [or_raise mbind exc_bind].
    destruct (get_week_info d) as [info|]; [|discriminate].
    intros H. apply IH in H. rewrite H, weeks_append_posts.
    rewrite <- Permutation_middle. reflexivity.
Qed.

(** The partition holds the posts it was given, each once. *)
Lemma organize_by_week_posts (posts : list Post.t) (weeks : Weeks) :
  organize_by_week posts = Ret weeks -> Permutation (weeks_posts weeks) posts.
Proof. intros H. apply organize_loop_posts in H. exact H. Qed.

Lemma post_ids_app (l1 l2 : list Post.t) : post_ids (l1 ++ l2) = post_ids l1 ++ post_ids l2.
Proof. apply map_app. Qed.


Lemma elem_of_post_ids_inv (id : string) (posts : list Post.t) :
  id ∈ post_ids posts -> exists post, post ∈ posts /\ Post.post_id post = id.
Proof.
  intros H. apply list_elem_of_In, in_map_iff in H. destruct H as (post & Hid & Hin).
  exists post. split; [now apply list_elem_of_In | exact Hid].
Qed.







(** ** Dates *)

Lemma days_before_year_succ (y : Z) :
  DT.days_before_year (y + 1)
  = DT.days_before_year y + 365 + (if DT.is_leap y then 1 else 0).
Proof.
  unfold DT.days_before_year, DT.is_leap. cbv zeta.
  replace (y + 1 - 1) with y by lia.
  destruct (y mod 4 =? 0) eqn:H4; destruct (y mod 100 =? 0) eqn:H100;
    destruct (y mod 400 =? 0) eqn:H400; simpl;
    rewrite ?Z.eqb_eq, ?Z.eqb_neq in *; Z.div_mod_to_equations; lia.
Qed.

Lemma days_before_year_mono (y1 y2 : Z) :
  y1 <= y2 -> DT.days_before_year y1 <= DT.days_before_year y2.
Proof.
  intros H. unfold DT.days_before_year. cbv zeta. Z.div_mod_to_equations. lia.
Qed.

Lemma days_before_year_lt (y1 y2 : Z) :
  y1 < y2 -> DT.days_before_year y1 + 365 <= DT.days_before_year y2.
Proof.
  intros H. pose proof (days_before_year_succ y1) as Hs.
  pose proof (days_before_year_mono (y1 + 1) y2 ltac:(lia)).
  destruct (DT.is_leap y1); lia.
Qed.

Lemma month_day_ok_all (leap : bool) (r : Z) :
  0 <= r < 365 + (if leap then 1 else 0) -> month_day_ok leap r = true.
Proof.
  intros Hr.
  assert (Hall : forallb (fun k => month_day_ok true (Z.of_nat k)) (seq 0 366) = true /\
                 forallb (fun k => month_day_ok false (Z.of_nat k)) (seq 0 365) = true).
  { split; vm_compute; reflexivity. }
  destruct Hall as [Ht Hf].
  rewrite forallb_forall in Ht, Hf.
  rewrite <- (Z2Nat.id r) by lia.
  destruct leap; [apply Ht | apply Hf]; apply in_seq; lia.
Qed.

Lemma ord2ymd_spec (n : Z) :
  1 <= n ->
  let y := fst (fst (DT.ord2ymd n)) in
  let m := snd (fst (DT.ord2ymd n)) in
  let d := snd (DT.ord2ymd n) in
  1 <= m <= 12 /\ 1 <= d <= DT.days_in_month y m /\ DT.ymd2ord y m d = n.
Proof.
  intros Hn. cbv zeta. unfold DT.ord2ymd. cbv zeta.
  set (n400 := (n - 1) / DT.DI400Y).
  set (r400 := (n - 1) mod DT.DI400Y).
  set (n100 := r400 / DT.DI100Y).
  set (r100 := r400 mod DT.DI100Y).
  set (n4 := r100 / DT.DI4Y).
  set (r4 := r100 mod DT.DI4Y).
  set (n1 := r4 / 365).
  set (r1 := r4 mod 365).
  set (y := n400 * 400 + 1 + n100 * 100 + n4 * 4 + n1).
  assert (Hyear :
    if (n1 =? 4) || (n100 =? 4) then DT.days_before_year y = n /\ 2 <= y
    else DT.days_before_year y + r1 + 1 = n /\
         0 <= r1 < 365 + (if DT.is_leap y then 1 else 0) /\
         DT.is_leap y = ((n1 =? 3) && (negb (n4 =? 24) || (n100 =? 3)))).
  { subst y r1 n1 r4 n4 r100 n100 r400 n400.
    unfold DT.DI400Y, DT.DI100Y, DT.DI4Y, DT.days_before_year, DT.is_leap. cbv zeta.
    destruct (_ =? 4) eqn:E1; destruct ((_ / 36524) =? 4) eqn:E2; simpl;
      rewrite ?Z.eqb_eq, ?Z.eqb_neq in *.
    - Z.div_mod_to_equations; lia.
    - Z.div_mod_to_equations; lia.
    - Z.div_mod_to_equations; lia.
    - repeat match goal with |- context [?a =? ?b] => destruct (Z.eqb_spec a b) end;
        simpl; Z.div_mod_to_equations; lia. }
  destruct ((n1 =? 4) || (n100 =? 4)).
  - destruct Hyear as [Hy Hy2]. simpl.
    pose proof (days_before_year_succ (y - 1)) as Hs.
    replace (y - 1 + 1) with y in Hs by lia.
    unfold DT.ymd2ord, DT.days_before_month, DT.days_in_month. simpl.
    destruct (DT.is_leap (y - 1)); simpl; lia.
  - destruct Hyear as (Hy & Hr & Hleap). rewrite <- Hleap.
    pose proof (month_day_ok_all (DT.is_leap y) r1 Hr) as Hok.
    unfold month_day_ok in Hok. cbv zeta in Hok.
    destruct (r1 <? _); cbn [fst snd] in Hok |- *;
      rewrite !andb_true_iff, !Z.leb_le, Z.eqb_eq in Hok;
      unfold DT.ymd2ord, DT.days_before_month, DT.days_in_month;
      destruct Hok as ((((H1 & H2) & H3) & H4) & H5);
      (repeat split; try lia;
       match goal with
       | |- context [(?a =? 2) && DT.is_leap y] =>
           destruct ((a =? 2) && DT.is_leap y) eqn:E; [|lia];
           apply andb_true_iff in E; destruct E as [E1 E2];
           apply Z.eqb_eq in E1; rewrite E1 in *; simpl in *; lia
       end).
Qed.

Lemma ymd2ord_bounds (y m d : Z) :
  1 <= m <= 12 -> 1 <= d <= DT.days_in_month y m ->
  DT.days_before_year y < DT.ymd2ord y m d <= DT.days_before_year (y + 1).
Proof.
  intros Hm Hd. rewrite days_before_year_succ.
  unfold DT.ymd2ord, DT.days_before_month, DT.days_in_month in *.
  assert (Hcases : m = 1 \/ m = 2 \/ m = 3 \/ m = 4 \/ m = 5 \/ m = 6 \/ m = 7 \/
                   m = 8 \/ m = 9 \/ m = 10 \/ m = 11 \/ m = 12) by lia.
  destruct (DT.is_leap y);
    repeat (destruct Hcases as [-> | Hcases]; [simpl in *; lia|]);
    subst; simpl in *; lia.
Qed.

Lemma ord2ymd_year_range (n : Z) :
  1 <= n <= DT.MAXORDINAL -> 1 <= fst (fst (DT.ord2ymd n)) <= 9999.
Proof.
  intros Hn. pose proof (ord2ymd_spec n ltac:(lia)) as H. cbv zeta in H.
  destruct H as (Hm & Hd & Ho).
  pose proof (ymd2ord_bounds _ _ _ Hm Hd) as Hb. rewrite Ho in Hb.
  set (y := fst (fst (DT.ord2ymd n))) in *.
  destruct (Z_lt_le_dec y 1) as [Hlo | Hlo].
  - pose proof (days_before_year_mono (y + 1) 1 ltac:(lia)) as Hmono.
    change (DT.days_before_year 1) with 0 in Hmono. lia.
  - destruct (Z_le_gt_dec y 9999) as [Hhi | Hhi]; [lia|].
    pose proof (days_before_year_mono 10000 y ltac:(lia)) as Hmono.
    change (DT.days_before_year 10000) with 3652059 in Hmono.
    unfold DT.MAXORDINAL in Hn. lia.
Qed.

(** The first Monday of ISO week 1 is a Monday, at most three days
    off the first of January. *)
Lemma isoweek1monday_spec (y : Z) :
  (DT.isoweek1monday y + 6) mod 7 = 0 /\
  DT.days_before_year y - 2 <= DT.isoweek1monday y <= DT.days_before_year y + 4.
Proof.
  unfold DT.isoweek1monday. cbv zeta.
  change (DT.ymd2ord y 1 1) with (DT.days_before_year y + (0 + 0) + 1).
  destruct (3 <? _) eqn:E; [apply Z.ltb_lt in E | apply Z.ltb_ge in E];
    Z.div_mod_to_equations; lia.
Qed.

Lemma isoweek1monday_lt (y1 y2 : Z) :
  y1 < y2 -> DT.isoweek1monday y1 + 364 <= DT.isoweek1monday y2.
Proof.
  intros H.
  pose proof (isoweek1monday_spec y1) as [Hm1 Hr1].
  pose proof (isoweek1monday_spec y2) as [Hm2 Hr2].
  pose proof (days_before_year_lt y1 y2 H).
  Z.div_mod_to_equations. lia.
Qed.

Lemma isoweek1monday_succ (y : Z) :
  DT.isoweek1monday (y + 1) <= DT.isoweek1monday y + 371.
Proof.
  pose proof (isoweek1monday_spec y) as [Hm1 Hr1].
  pose proof (isoweek1monday_spec (y + 1)) as [Hm2 Hr2].
  pose proof (days_before_year_succ y).
  destruct (DT.is_leap y); Z.div_mod_to_equations; lia.
Qed.

(** The ISO year of an ordinal is the year whose week 1 starts on or
    before it while that of the next year starts after it. *)
Lemma iso_year_unique (o y1 y2 : Z) :
  DT.isoweek1monday y1 <= o < DT.isoweek1monday (y1 + 1) ->
  DT.isoweek1monday y2 <= o < DT.isoweek1monday (y2 + 1) ->
  y1 = y2.
Proof.
  intros H1 H2.
  destruct (Z.lt_trichotomy y1 y2) as [Hlt | [Heq | Hgt]]; [|exact Heq|].
  - destruct (Z.eq_dec (y1 + 1) y2) as [<- | Hne]; [lia|].
    pose proof (isoweek1monday_lt (y1 + 1) y2 ltac:(lia)). lia.
  - destruct (Z.eq_dec (y2 + 1) y1) as [<- | Hne]; [lia|].
    pose proof (isoweek1monday_lt (y2 + 1) y1 ltac:(lia)). lia.
Qed.

Lemma isocalendar_spec (d : DT.t) :
  DT.days_before_year (DT.year d) < DT.toordinal d <= DT.days_before_year (DT.year d + 1) ->
  exists iso_year,
    DT.isoweek1monday iso_year <= DT.toordinal d < DT.isoweek1monday (iso_year + 1) /\
    DT.isocalendar d =
      (iso_year,
       (DT.toordinal d - DT.isoweek1monday iso_year) / 7 + 1,
       (DT.toordinal d - DT.isoweek1monday iso_year) mod 7 + 1).
Proof.
  intros Hb. unfold DT.isocalendar. cbv zeta.
  set (o := DT.toordinal d) in *. set (y := DT.year d) in *. clearbody o y.
  pose proof (isoweek1monday_spec (y - 1)) as [Hm0 Hr0].
  pose proof (isoweek1monday_spec y) as [Hm1 Hr1].
  pose proof (isoweek1monday_spec (y + 1)) as [Hm2 Hr2].
  pose proof (isoweek1monday_spec (y + 1 + 1)) as [Hm3 Hr3].
  pose proof (days_before_year_succ (y - 1)) as Hs0.
  replace (y - 1 + 1) with y in Hs0 by lia.
  pose proof (days_before_year_succ y) as Hs1.
  pose proof (days_before_year_succ (y + 1)) as Hs2.
  assert (Hl0 : 0 <= (if DT.is_leap (y - 1) then 1 else 0) <= 1) by (destruct (DT.is_leap (y - 1)); lia).
  assert (Hl1 : 0 <= (if DT.is_leap y then 1 else 0) <= 1) by (destruct (DT.is_leap y); lia).
  assert (Hl2 : 0 <= (if DT.is_leap (y + 1) then 1 else 0) <= 1) by (destruct (DT.is_leap (y + 1)); lia).
  destruct ((o - DT.isoweek1monday y) / 7 <? 0) eqn:E1.
  - apply Z.ltb_lt in E1. exists (y - 1). replace (y - 1 + 1) with y by lia.
    split; [|reflexivity]. Z.div_mod_to_equations. lia.
  - apply Z.ltb_ge in E1.
    destruct ((52 <=? (o - DT.isoweek1monday y) / 7) && (DT.isoweek1monday (y + 1) <=? o)) eqn:E2.
    + apply andb_true_iff in E2. destruct E2 as [E2 E3].
      apply Z.leb_le in E2, E3. exists (y + 1).
      split; [Z.div_mod_to_equations; lia|].
      f_equal; [f_equal|]; Z.div_mod_to_equations; lia.
    + exists y. split; [|reflexivity].
      apply andb_false_iff in E2. destruct E2 as [E2 | E2];
        [apply Z.leb_gt in E2 | apply Z.leb_gt in E2];
        Z.div_mod_to_equations; lia.
Qed.

Lemma valid_date_spec (y m d : Z) :
  DT.valid_date y m d = true <->
  1 <= y <= 9999 /\ 1 <= m <= 12 /\ 1 <= d <= DT.days_in_month y m.
Proof.
  unfold DT.valid_date, DT.MINYEAR, DT.MAXYEAR.
  rewrite !andb_true_iff, !Z.leb_le. tauto.
Qed.

Lemma valid_spec (d : DT.t) :
  DT.valid d = true ->
  DT.valid_date (DT.year d) (DT.month d) (DT.day d) = true /\
  DT.valid_time (DT.hour d) (DT.minute d) (DT.second d) (DT.microsecond d) = true.
Proof. unfold DT.valid. now rewrite andb_true_iff. Qed.

Lemma toordinal_bounds (d : DT.t) :
  DT.valid d = true ->
  DT.days_before_year (DT.year d) < DT.toordinal d <= DT.days_before_year (DT.year d + 1).
Proof.
  intros H. apply valid_spec in H. destruct H as [H _].
  apply valid_date_spec in H. now apply ymd2ord_bounds.
Qed.

Lemma toordinal_range (d : DT.t) :
  DT.valid d = true -> 1 <= DT.toordinal d <= DT.MAXORDINAL.
Proof.
  intros H. pose proof (toordinal_bounds d H) as Hb.
  apply valid_spec in H. destruct H as [H _]. apply valid_date_spec in H.
  pose proof (days_before_year_mono 1 (DT.year d) ltac:(lia)) as H1.
  pose proof (days_before_year_mono (DT.year d + 1) 10000 ltac:(lia)) as H2.
  change (DT.days_before_year 1) with 0 in H1.
  change (DT.days_before_year 10000) with 3652059 in H2.
  unfold DT.MAXORDINAL. lia.
Qed.

(** Adding days within the range of dates gives the date of the new
    ordinal with the same clock fields. *)
Lemma add_days_spec (d : DT.t) (k : Z) :
  DT.valid d = true ->
  1 <= DT.toordinal d + k <= DT.MAXORDINAL ->
  exists d',
    DT.add_days d k = Some d' /\
    DT.valid d' = true /\
    DT.toordinal d' = DT.toordinal d + k.
Proof.
  intros Hv Hr. unfold DT.add_days. cbv zeta.
  replace ((1 <=? DT.toordinal d + k) && (DT.toordinal d + k <=? DT.MAXORDINAL)) with true
    by (symmetry; apply andb_true_iff; rewrite !Z.leb_le; lia).
  pose proof (ord2ymd_spec (DT.toordinal d + k) ltac:(lia)) as Hs.
  pose proof (ord2ymd_year_range (DT.toordinal d + k) Hr) as Hy.
  cbv zeta in Hs.
  destruct (DT.ord2ymd (DT.toordinal d + k)) as [[y m] dd]. cbn [fst snd] in Hs, Hy.
  destruct Hs as (Hm & Hd & Ho).
  eexists. split; [reflexivity|]. split.
  - unfold DT.valid. cbn [DT.year DT.month DT.day DT.hour DT.minute DT.second DT.microsecond].
    apply valid_spec in Hv. destruct Hv as [_ Ht]. rewrite Ht, andb_true_r.
    apply valid_date_spec. auto.
  - exact Ho.
Qed.

Lemma add_days_overflow (d : DT.t) (k : Z) :
  DT.MAXORDINAL < DT.toordinal d + k -> DT.add_days d k = None.
Proof.
  intros H. unfold DT.add_days. cbv zeta.
  replace (DT.toordinal d + k <=? DT.MAXORDINAL) with false
    by (symmetry; apply Z.leb_gt; lia).
  now rewrite andb_false_r.
Qed.

(** The dates of the Monday-to-Sunday week of a date share its ISO
    year and ISO week, and their ISO weekday counts from the Monday. *)
Lemma isocalendar_same_week (d d' : DT.t) :
  DT.valid d = true -> DT.valid d' = true ->
  let monday := DT.toordinal d - DT.weekday d in
  monday <= DT.toordinal d' <= monday + 6 ->
  DT.isocalendar d' =
    (fst (fst (DT.isocalendar d)), snd (fst (DT.isocalendar d)), DT.toordinal d' - monday + 1).
Proof.
  intros Hv Hv' monday Hweek. subst monday. unfold DT.weekday in *.
  destruct (isocalendar_spec d (toordinal_bounds d Hv)) as (Y & HY & ->).
  destruct (isocalendar_spec d' (toordinal_bounds d' Hv')) as (Y' & HY' & ->).
  cbn [fst snd].
  pose proof (isoweek1monday_spec Y) as [Hm1 _].
  pose proof (isoweek1monday_spec (Y + 1)) as [Hm2 _].
  assert (Y' = Y) as ->.
  { apply (iso_year_unique (DT.toordinal d')); [exact HY'|].
    Z.div_mod_to_equations. lia. }
  f_equal; [f_equal|]; Z.div_mod_to_equations; lia.
Qed.

Lemma isocalendar_range (d : DT.t) :
  DT.valid d = true ->
  1 <= fst (fst (DT.isocalendar d)) <= 9999 /\
  1 <= snd (fst (DT.isocalendar d)) <= 53 /\
  snd (DT.isocalendar d) = DT.weekday d + 1.
Proof.
  intros Hv. pose proof (toordinal_range d Hv) as Hr.
  destruct (isocalendar_spec d (toordinal_bounds d Hv)) as (Y & HY & ->).
  cbn [fst snd]. unfold DT.weekday.
  pose proof (isoweek1monday_spec Y) as [Hm1 _].
  pose proof (isoweek1monday_succ Y) as Hsucc.
  split; [|split; Z.div_mod_to_equations; lia].
  destruct (Z_lt_le_dec Y 1) as [Hlo | Hlo].
  - destruct (Z.eq_dec (Y + 1) 1) as [He | He].
    + rewrite He in HY. change (DT.isoweek1monday 1) with 1 in HY. lia.
    + pose proof (isoweek1monday_lt (Y + 1) 1 ltac:(lia)) as Hlt.
      change (DT.isoweek1monday 1) with 1 in Hlt. lia.
  - destruct (Z_le_gt_dec Y 9999) as [Hhi | Hhi]; [lia|].
    destruct (Z.eq_dec Y 10000) as [He | He].
    + rewrite He in HY. change (DT.isoweek1monday 10000) with 3652062 in HY.
      unfold DT.MAXORDINAL in Hr. lia.
    + pose proof (isoweek1monday_lt 10000 Y ltac:(lia)) as Hlt.
      change (DT.isoweek1monday 10000) with 3652062 in Hlt.
      unfold DT.MAXORDINAL in Hr. lia.
Qed.

Lemma weekday_range (d : DT.t) : 0 <= DT.weekday d <= 6.
Proof. unfold DT.weekday. Z.div_mod_to_equations. lia. Qed.

Lemma monday_ordinal_positive (d : DT.t) :
  DT.valid d = true -> 1 <= DT.toordinal d - DT.weekday d.
Proof.
  intros Hv. pose proof (toordinal_range d Hv) as Hr.
  unfold DT.weekday. Z.div_mod_to_equations. lia.
Qed.

(** [get_week_info] of a date whose week ends within the range of
    dates: the ISO year and week of the date, and the Monday and the
    Sunday of that ISO week. *)
Lemma get_week_info_spec (date : DT.t) :
  DT.valid date = true ->
  DT.toordinal date - DT.weekday date + 6 <= DT.MAXORDINAL ->
  let iso_year := fst (fst (DT.isocalendar date)) in
  let iso_week := snd (fst (DT.isocalendar date)) in
  exists monday sunday,
    get_week_info date =
      Ret {| WeekInfo.week_id := week_id_of iso_year iso_week;
             WeekInfo.year := iso_year;
             WeekInfo.week := iso_week;
             WeekInfo.week_start := DT.strftime_date monday;
             WeekInfo.week_end := DT.strftime_date sunday |} /\
    DT.valid monday = true /\ DT.isocalendar monday = (iso_year, iso_week, 1) /\
    DT.valid sunday = true /\ DT.isocalendar sunday = (iso_year, iso_week, 7).
Proof.
  intros Hv Hend iso_year iso_week.
  pose proof (weekday_range date) as Hwd.
  pose proof (monday_ordinal_positive date Hv) as Hpos.
  destruct (add_days_spec date (- DT.weekday date) Hv ltac:(lia))
    as (monday & Hmon & Hvm & Hom).
  destruct (add_days_spec monday 6 Hvm ltac:(lia)) as (sunday & Hsun & Hvs & Hos).
  exists monday, sunday. unfold get_week_info. cbv zeta.
  rewrite Hmon. cbn [or_raise mbind exc_bind]. rewrite Hsun. cbn [or_raise mbind exc_bind].
  split; [reflexivity|]. split; [exact Hvm|]. split; [|split; [exact Hvs|]].
  - rewrite (isocalendar_same_week date monday Hv Hvm) by lia.
    subst iso_year iso_week. f_equal. lia.
  - rewrite (isocalendar_same_week date sunday Hv Hvs) by lia.
    subst iso_year iso_week. f_equal. lia.
Qed.

(** A date whose week ends after the last date makes [get_week_info]
    raise. *)
Lemma get_week_info_overflow (date : DT.t) :
  DT.valid date = true ->
  DT.MAXORDINAL < DT.toordinal date - DT.weekday date + 6 ->
  get_week_info date = Raise OverflowError.
Proof.
  intros Hv Hend.
  pose proof (weekday_range date) as Hwd.
  pose proof (monday_ordinal_positive date Hv) as Hpos.
  pose proof (toordinal_range date Hv) as Hr.
  destruct (add_days_spec date (- DT.weekday date) Hv ltac:(lia))
    as (monday & Hmon & Hvm & Hom).
  unfold get_week_info. cbv zeta. rewrite Hmon. cbn [or_raise mbind exc_bind].
  rewrite add_days_overflow by lia. reflexivity.
Qed.
(** ** Printing and reading dates *)

#[local] Arguments String.append : simpl nomatch.

Lemma holds_between_spec (f : Z -> bool) (lo hi z : Z) :
  holds_between f lo hi = true -> lo <= z <= hi -> f z = true.
Proof.
  unfold holds_between. rewrite forallb_forall. intros H Hz.
  replace z with (lo + Z.of_nat (Z.to_nat (z - lo))) by lia.
  apply H. apply in_seq. lia.
Qed.

Lemma append_nil_r (s : string) : s +:+ "" = s.
Proof. induction s as [|c s IH]; simpl; [reflexivity | now rewrite IH]. Qed.

Lemma append_assoc (a b c : string) : (a +:+ b) +:+ c = a +:+ (b +:+ c).
Proof. induction a as [|x a IH]; simpl; [reflexivity | now rewrite IH]. Qed.

Lemma re_seq_frame (classes : list (ascii -> bool)) :
  forall (acc txt rest : string),
  (length classes <= String.length txt)%nat ->
  DT.re_seq classes acc (txt +:+ rest)
  = option_map (fun tr => (fst tr, snd tr +:+ rest)) (DT.re_seq classes acc txt).
Proof.
  induction classes as [|cl classes IH]; intros acc txt rest Hlen; simpl; [reflexivity|].
  destruct txt as [|c txt]; simpl in *; [lia|].
  destruct (cl c); [|reflexivity]. apply IH. lia.
Qed.

Lemma re_field_frame (alts : list (list (ascii -> bool))) (txt rest : string) :
  Forall (fun alt => (length alt <= String.length txt)%nat) alts ->
  DT.re_field alts (txt +:+ rest)
  = map (fun vr => (fst vr, snd vr +:+ rest)) (DT.re_field alts txt).
Proof.
  unfold DT.re_field. induction alts as [|alt alts IH]; intros Hlen; simpl; [reflexivity|].
  apply Forall_cons in Hlen. destruct Hlen as [Ha Hlen].
  rewrite map_app, IH by exact Hlen. f_equal.
  rewrite re_seq_frame by exact Ha.
  destruct (DT.re_seq alt "" txt) as [[t r]|]; simpl; [|reflexivity].
  destruct (Py.int t); reflexivity.
Qed.

(** A field that reads a text reads it in front of any other text. *)
Lemma field_reads_frame (alts : list (list (ascii -> bool))) (txt rest : string) (v : Z) :
  Forall (fun alt => (length alt <= String.length txt)%nat) alts ->
  field_reads (DT.re_field alts) txt v = true ->
  exists tl, DT.re_field alts (txt +:+ rest) = (v, rest) :: tl.
Proof.
  intros Hlen Hreads. rewrite re_field_frame by exact Hlen.
  unfold field_reads in Hreads.
  destruct (DT.re_field alts txt) as [|[v' [|c r]] tl]; try discriminate.
  apply Z.eqb_eq in Hreads. subst v'. simpl. eauto.
Qed.

Lemma re_bind_head {A B : Type} (p : DT.re A) (k : A -> DT.re B) (s rest : string)
    (a : A) (tl : DT.matches A) (b : B * string) :
  p s = (a, rest) :: tl ->
  (exists tl', k a rest = b :: tl') ->
  exists tl'', DT.re_bind p k s = b :: tl''.
Proof.
  intros Hp [tl' Hk]. unfold DT.re_bind. rewrite Hp. simpl. rewrite Hk. simpl. eauto.
Qed.

Lemma re_Y_pad4 (y : Z) (rest : string) :
  0 <= y <= 9999 -> exists tl, DT.re_Y (DT.pad4 y +:+ rest) = (y, rest) :: tl.
Proof.
  intros Hy. apply field_reads_frame.
  - repeat constructor.
  - apply (holds_between_spec (fun y => field_reads DT.re_Y (DT.pad4 y) y) 0 9999);
      [vm_compute; reflexivity | lia].
Qed.

Lemma re_m_pad2 (m : Z) (rest : string) :
  1 <= m <= 12 -> exists tl, DT.re_m (DT.pad2 m +:+ rest) = (m, rest) :: tl.
Proof.
  intros Hm. apply field_reads_frame.
  - repeat constructor.
  - apply (holds_between_spec (fun m => field_reads DT.re_m (DT.pad2 m) m) 1 12);
      [vm_compute; reflexivity | lia].
Qed.

Lemma re_d_pad2 (d : Z) (rest : string) :
  1 <= d <= 31 -> exists tl, DT.re_d (DT.pad2 d +:+ rest) = (d, rest) :: tl.
Proof.
  intros Hd. apply field_reads_frame.
  - repeat constructor.
  - apply (holds_between_spec (fun d => field_reads DT.re_d (DT.pad2 d) d) 1 31);
      [vm_compute; reflexivity | lia].
Qed.

Lemma re_H_pad2 (h : Z) (rest : string) :
  0 <= h <= 23 -> exists tl, DT.re_H (DT.pad2 h +:+ rest) = (h, rest) :: tl.
Proof.
  intros Hh. apply field_reads_frame.
  - repeat constructor.
  - apply (holds_between_spec (fun h => field_reads DT.re_H (DT.pad2 h) h) 0 23);
      [vm_compute; reflexivity | lia].
Qed.

Lemma re_M_pad2 (mi : Z) (rest : string) :
  0 <= mi <= 59 -> exists tl, DT.re_M (DT.pad2 mi +:+ rest) = (mi, rest) :: tl.
Proof.
  intros Hmi. apply field_reads_frame.
  - repeat constructor.
  - apply (holds_between_spec (fun mi => field_reads DT.re_M (DT.pad2 mi) mi) 0 59);
      [vm_compute; reflexivity | lia].
Qed.

Lemma re_S_pad2 (s : Z) (rest : string) :
  0 <= s <= 59 -> exists tl, DT.re_S (DT.pad2 s +:+ rest) = (s, rest) :: tl.
Proof.
  intros Hs. apply field_reads_frame.
  - repeat constructor.
  - apply (holds_between_spec (fun s => field_reads DT.re_S (DT.pad2 s) s) 0 59);
      [vm_compute; reflexivity | lia].
Qed.

Lemma valid_time_spec (h mi s us : Z) :
  DT.valid_time h mi s us = true <->
  0 <= h <= 23 /\ 0 <= mi <= 59 /\ 0 <= s <= 59 /\ 0 <= us <= 999999.
Proof.
  unfold DT.valid_time. rewrite !andb_true_iff, !Z.leb_le. tauto.
Qed.

Lemma days_in_month_le_31 (y m : Z) : DT.days_in_month y m <= 31.
Proof.
  unfold DT.days_in_month, DT.DAYS_IN_MONTH.
  destruct ((m =? 2) && DT.is_leap y); [lia|].
  repeat match goal with
         | |- context [match ?x with _ => _ end] => destruct x
         end; lia.
Qed.

(** What [strftime] prints for a date and time without microseconds,
    [strptime] reads back. *)
Lemma strptime_iso_strftime_iso (d : DT.t) :
  DT.valid d = true -> DT.microsecond d = 0 ->
  DT.strptime_iso (DT.strftime_iso d) = Some d.
Proof.
  intros Hv Hus. destruct d as [y m dd h mi s us]. simpl in Hus. subst us.
  pose proof (valid_spec _ Hv) as [Hdate Htime]. simpl in Hdate, Htime.
  pose proof Hdate as Hd. apply valid_date_spec in Hd. destruct Hd as (Hy & Hm & Hdd).
  pose proof (days_in_month_le_31 y m) as H31.
  pose proof Htime as Ht. apply valid_time_spec in Ht. destruct Ht as (Hh & Hmi & Hs & _).
  unfold DT.strptime_iso, DT.strptime_with, DT.strftime_iso, DT.strftime_date,
    DT.strftime_time.
  cbn [DT.year DT.month DT.day DT.hour DT.minute DT.second].
  rewrite !append_assoc. rewrite <- (append_nil_r (DT.pad2 s)).
  match goal with
  | |- match DT.re_datetime ?sep ?txt with _ => _ end = _ =>
      assert (Hre : exists tl, DT.re_datetime sep txt = ((y, m, dd, h, mi, s), "") :: tl)
  end.
  { unfold DT.re_datetime.
    destruct (re_Y_pad4 y ("-" +:+ DT.pad2 m +:+ "-" +:+ DT.pad2 dd +:+ "T" +:+ DT.pad2 h
                           +:+ ":" +:+ DT.pad2 mi +:+ ":" +:+ DT.pad2 s +:+ ""))
      as [tl1 H1]; [lia|].
    eapply re_bind_head; [exact H1|]. cbv beta. eapply re_bind_head; [reflexivity|]. cbv beta.
    destruct (re_m_pad2 m ("-" +:+ DT.pad2 dd +:+ "T" +:+ DT.pad2 h
                           +:+ ":" +:+ DT.pad2 mi +:+ ":" +:+ DT.pad2 s +:+ ""))
      as [tl2 H2]; [lia|].
    eapply re_bind_head; [exact H2|]. cbv beta. eapply re_bind_head; [reflexivity|]. cbv beta.
    destruct (re_d_pad2 dd ("T" +:+ DT.pad2 h +:+ ":" +:+ DT.pad2 mi +:+ ":"
                            +:+ DT.pad2 s +:+ ""))
      as [tl3 H3]; [lia|].
    eapply re_bind_head; [exact H3|]. cbv beta. eapply re_bind_head; [reflexivity|]. cbv beta.
    destruct (re_H_pad2 h (":" +:+ DT.pad2 mi +:+ ":" +:+ DT.pad2 s +:+ ""))
      as [tl4 H4]; [lia|].
    eapply re_bind_head; [exact H4|]. cbv beta. eapply re_bind_head; [reflexivity|]. cbv beta.
    destruct (re_M_pad2 mi (":" +:+ DT.pad2 s +:+ "")) as [tl5 H5]; [lia|].
    eapply re_bind_head; [exact H5|]. cbv beta. eapply re_bind_head; [reflexivity|]. cbv beta.
    destruct (re_S_pad2 s "") as [tl6 H6]; [lia|].
    eapply re_bind_head; [exact H6|]. cbv beta. eexists. reflexivity. }
  destruct Hre as [tl ->].
  unfold DT.make. rewrite Hdate, Htime. reflexivity.
Qed.

(** ** Week identifiers *)

Lemma append_digits_inj (a a' b b' : string) :
  Py.all_digits a = true -> Py.all_digits a' = true ->
  a +:+ "_W" +:+ b = a' +:+ "_W" +:+ b' -> a = a' /\ b = b'.
Proof.
  revert a'. induction a as [|c a IH]; intros [|c' a'] Ha Ha' Heq; simpl in *.
  - injection Heq as ->. auto.
  - injection Heq as <- _. apply andb_true_iff in Ha'. destruct Ha' as [Hc _]. discriminate.
  - injection Heq as -> _. apply andb_true_iff in Ha. destruct Ha as [Hc _]. discriminate.
  - injection Heq as -> Heq.
    apply andb_true_iff in Ha, Ha'. destruct Ha as [_ Ha]. destruct Ha' as [_ Ha'].
    destruct (IH a' Ha Ha' Heq) as [-> ->]. auto.
Qed.

Lemma int_reads_inj (txt : string) (v v' : Z) :
  int_reads txt v = true -> int_reads txt v' = true -> v = v'.
Proof.
  unfold int_reads. destruct (Py.int txt); [|discriminate].
  rewrite !Z.eqb_eq. congruence.
Qed.

Lemma year_string_ok (y : Z) :
  1 <= y <= 9999 ->
  Py.all_digits (Py.str_of_int y) = true /\ int_reads (Py.str_of_int y) y = true.
Proof.
  intros Hy. apply andb_true_iff.
  apply (holds_between_spec
           (fun y => Py.all_digits (Py.str_of_int y) && int_reads (Py.str_of_int y) y) 1 9999);
    [vm_compute; reflexivity | lia].
Qed.

Lemma week_string_ok (w : Z) :
  1 <= w <= 53 -> int_reads (Py.fmt_02d w) w = true.
Proof.
  intros Hw.
  apply (holds_between_spec (fun w => int_reads (Py.fmt_02d w) w) 1 53);
    [vm_compute; reflexivity | lia].
Qed.

(** Two ISO weeks with the same identifier are the same week. *)
Lemma week_id_of_inj (y w y' w' : Z) :
  1 <= y <= 9999 -> 1 <= w <= 53 -> 1 <= y' <= 9999 -> 1 <= w' <= 53 ->
  week_id_of y w = week_id_of y' w' -> y = y' /\ w = w'.
Proof.
  intros Hy Hw Hy' Hw' Heq. unfold week_id_of in Heq.
  destruct (year_string_ok y Hy) as [Hd Hr].
  destruct (year_string_ok y' Hy') as [Hd' Hr'].
  apply append_digits_inj in Heq; [|assumption..]. destruct Heq as [Ey Ew].
  pose proof (week_string_ok w Hw) as Hrw.
  pose proof (week_string_ok w' Hw') as Hrw'.
  rewrite Ey in Hr. rewrite Ew in Hrw.
  split; [exact (int_reads_inj _ _ _ Hr Hr') | exact (int_reads_inj _ _ _ Hrw Hrw')].
Qed.

(** ** The dates of extracted records *)

Lemma make_valid (y m d h mi s : Z) (dt : DT.t) :
  DT.make y m d h mi s = Some dt -> DT.valid dt = true /\ DT.microsecond dt = 0.
Proof.
  unfold DT.make. destruct (DT.valid_date y m d && DT.valid_time h mi s 0) eqn:E; [|discriminate].
  intros [= <-]. split; [exact E | reflexivity].
Qed.

Lemma strptime_with_valid (sep : DT.re unit) (s : string) (dt : DT.t) :
  DT.strptime_with sep s = Some dt -> DT.valid dt = true /\ DT.microsecond dt = 0.
Proof.
  unfold DT.strptime_with.
  destruct (DT.re_datetime sep s) as [|[[[[[[y m] d] h] mi] sec] [|c r]] tl]; try discriminate.
  apply make_valid.
Qed.

(** The normalizer gives dates of the calendar, without microseconds. *)
Lemma parse_date_valid (date_tag : option DateTag) (today dt : DT.t) :
  parse_date date_tag today = Some dt -> DT.valid dt = true /\ DT.microsecond dt = 0.
Proof.
  unfold parse_date. destruct date_tag as [tag|]; [|discriminate].
  destruct (parse_title (date_title tag)) as [d|] eqn:Htitle.
  - intros [= <-]. unfold parse_title in Htitle.
    destruct (date_title tag) as [s|]; [|discriminate].
    destruct (Py.truthy s); [|discriminate].
    now apply strptime_with_valid in Htitle.
  - destruct (Py.char_in ":" (date_text tag)).
    + unfold parse_hh_mm.
      destruct (map Py.int (Py.split ":" (date_text tag))) as [|[h|] [|[mi|] [|x l]]];
        try discriminate.
      apply make_valid.
    + destruct (Py.char_in "." (date_text tag)); [|discriminate].
      unfold parse_dotted.
      destruct (Py.split "." (date_text tag)) as [|p0 [|p1 [|p2 [|x l]]]]; try discriminate.
      * destruct (Py.int p0), (Py.int p1); try discriminate. apply make_valid.
      * destruct (Py.int p0), (Py.int p1), (Py.int p2); try discriminate. apply make_valid.
Qed.

(** The [datetime] text of an extracted record reads back as its
    timestamp. *)
Lemma extract_post_data_datetime (row : Row) (today : DT.t) (pd : PostData) :
  extract_post_data row today = Some pd ->
  DT.valid (_datetime_obj pd) = true /\
  DT.strptime_iso (Post.datetime (record pd)) = Some (_datetime_obj pd).
Proof.
  intros H. apply extract_post_data_Some in H.
  destruct H as (tt & h & dt & _ & _ & Hdate & Hobj & Hdt & _).
  apply parse_date_valid in Hdate. destruct Hdate as [Hv Hus].
  rewrite Hdt, Hobj. split; [exact Hv|]. now apply strptime_iso_strftime_iso.
Qed.
(** ** The week partitioner *)

Lemma week_in_range_spec (d : DT.t) :
  week_in_range d <-> DT.toordinal d - DT.weekday d + 6 <= DT.MAXORDINAL.
Proof.
  unfold week_in_range, DT.weekday, DT.MAXORDINAL.
  change (DT.ymd2ord 9999 12 26) with 3652054.
  Z.div_mod_to_equations. lia.
Qed.

Lemma get_week_info_describes (date : DT.t) :
  DT.valid date = true -> week_in_range date ->
  exists info,
    get_week_info date = Ret info /\
    WeekInfo.week_id info = iso_week_id date /\
    describes_week info (iso_year date) (iso_week date).
Proof.
  intros Hv Hr. apply week_in_range_spec in Hr.
  destruct (get_week_info_spec date Hv Hr) as (monday & sunday & Hinfo & Hm & Him & Hs & His).
  eexists. split; [exact Hinfo|]. split; [reflexivity|].
  unfold describes_week. cbn [WeekInfo.week_id WeekInfo.year WeekInfo.week
                               WeekInfo.week_start WeekInfo.week_end].
  split; [reflexivity|]. split; [reflexivity|]. split; [reflexivity|].
  exists monday, sunday. auto 10.
Qed.

Lemma iso_week_range (d : DT.t) :
  DT.valid d = true -> 1 <= iso_year d <= 9999 /\ 1 <= iso_week d <= 53.
Proof.
  intros Hv. destruct (isocalendar_range d Hv) as (Hy & Hw & _). auto.
Qed.

Lemma weeks_append_keys (weeks : Weeks) (week_info : WeekInfo.t) (post : Post.t) :
  map fst (weeks_append weeks week_info post) =
  if bool_decide (WeekInfo.week_id week_info ∈ map fst weeks) then map fst weeks
  else map fst weeks ++ [WeekInfo.week_id week_info].
Proof.
  induction weeks as [|[k wd] weeks IH]; simpl; [reflexivity|].
  destruct (String.eqb_spec k (WeekInfo.week_id week_info)) as [-> | Hne]; simpl.
  - rewrite bool_decide_eq_true_2 by constructor. reflexivity.
  - rewrite IH. destruct (bool_decide (WeekInfo.week_id week_info ∈ map fst weeks)) eqn:E.
    + apply bool_decide_eq_true in E. rewrite bool_decide_eq_true_2 by now constructor.
      reflexivity.
    + apply bool_decide_eq_false in E. rewrite bool_decide_eq_false_2; [reflexivity|].
      intros Hin. apply elem_of_cons in Hin. destruct Hin as [Heq | Hin]; congruence.
Qed.

(** Every entry stays under its key with its [info] and its posts. *)
Lemma weeks_append_keeps (weeks : Weeks) (week_info : WeekInfo.t) (post : Post.t)
    (k : string) (wd : WeekData.t) :
  (k, wd) ∈ weeks ->
  exists wd', (k, wd') ∈ weeks_append weeks week_info post /\
              WeekData.info wd' = WeekData.info wd /\
              forall q, q ∈ WeekData.posts wd -> q ∈ WeekData.posts wd'.
Proof.
  induction weeks as [|[k0 wd0] weeks IH]; intros Hin; [inversion Hin|].
  apply elem_of_cons in Hin. simpl.
  destruct (String.eqb k0 (WeekInfo.week_id week_info)).
  - destruct Hin as [[= -> ->] | Hin].
    + eexists. split; [constructor|]. simpl. split; [reflexivity|].
      intros q Hq. apply elem_of_app. now left.
    + exists wd. split; [now constructor | auto].
  - destruct Hin as [[= -> ->] | Hin].
    + exists wd0. split; [constructor | auto].
    + destruct (IH Hin) as (wd' & Hin' & Hinfo & Hposts).
      exists wd'. split; [now constructor | auto].
Qed.

(** The post is put under the key of its week. *)
Lemma weeks_append_adds (weeks : Weeks) (week_info : WeekInfo.t) (post : Post.t) :
  exists wd, (WeekInfo.week_id week_info, wd) ∈ weeks_append weeks week_info post /\
             post ∈ WeekData.posts wd.
Proof.
  induction weeks as [|[k0 wd0] weeks IH]; simpl.
  - eexists. split; [constructor|]. simpl. constructor.
  - destruct (String.eqb_spec k0 (WeekInfo.week_id week_info)) as [-> | Hne].
    + eexists. split; [constructor|]. simpl. apply elem_of_app. right. constructor.
    + destruct IH as (wd & Hin & Hp). exists wd. split; [now constructor | exact Hp].
Qed.

(** The entries of the new partition come from the old one, or are the
    new entry of the post. *)
Lemma weeks_append_inv (weeks : Weeks) (week_info : WeekInfo.t) (post : Post.t)
    (k : string) (wd' : WeekData.t) :
  (k, wd') ∈ weeks_append weeks week_info post ->
  (exists wd, (k, wd) ∈ weeks /\ WeekData.info wd' = WeekData.info wd) \/
  (k = WeekInfo.week_id week_info /\ WeekData.info wd' = week_info).
Proof.
  induction weeks as [|[k0 wd0] weeks IH]; simpl; intros Hin.
  - apply list_elem_of_singleton in Hin. injection Hin as -> ->. right. auto.
  - destruct (String.eqb k0 (WeekInfo.week_id week_info)).
    + apply elem_of_cons in Hin. destruct Hin as [[= -> ->] | Hin].
      * left. exists wd0. split; [constructor | reflexivity].
      * left. exists wd'. split; [now constructor | reflexivity].
    + apply elem_of_cons in Hin. destruct Hin as [[= -> ->] | Hin].
      * left. exists wd0. split; [constructor | reflexivity].
      * destruct (IH Hin) as [(wd & Hw & Hi) | H]; [|now right].
        left. exists wd. split; [now constructor | exact Hi].
Qed.

Lemma weeks_append_ok (weeks : Weeks) (week_info : WeekInfo.t) (post : Post.t) :
  weeks_ok weeks ->
  (exists y w, 1 <= y <= 9999 /\ 1 <= w <= 53 /\ describes_week week_info y w) ->
  weeks_ok (weeks_append weeks week_info post).
Proof.
  intros [Hnodup Hok] Hinfo. split.
  - rewrite weeks_append_keys. destruct (bool_decide _) eqn:E; [exact Hnodup|].
    apply bool_decide_eq_false in E. apply NoDup_app. split; [exact Hnodup|].
    split; [|apply NoDup_singleton].
    intros k Hk Hk'. apply list_elem_of_singleton in Hk'. congruence.
  - intros k wd' Hin. apply weeks_append_inv in Hin.
    destruct Hin as [(wd & Hw & Hi) | [-> Hi]]; rewrite Hi; auto.
Qed.

(** The partition of records whose weeks are in range: the loop does
    not raise, the entries are keyed by ISO week, the earlier entries
    keep their posts, and every record is under the key of the ISO week
    of its own date. *)
Lemma organize_loop_spec (posts : list Post.t) :
  forall weeks,
  weeks_ok weeks ->
  (forall post, post ∈ posts -> exists d, dated post d) ->
  exists weeks',
    organize_loop posts weeks = Ret weeks' /\
    weeks_ok weeks' /\
    (forall k wd, (k, wd) ∈ weeks ->
       exists wd', (k, wd') ∈ weeks' /\ forall q, q ∈ WeekData.posts wd -> q ∈ WeekData.posts wd') /\
    (forall post d, post ∈ posts -> dated post d ->
       exists wd, (iso_week_id d, wd) ∈ weeks' /\ post ∈ WeekData.posts wd).
Proof.
  induction posts as [|post posts IH]; intros weeks Hok Hdated.
  - exists weeks. split; [reflexivity|]. split; [exact Hok|]. split.
    + intros k wd Hin. exists wd. auto.
    + intros post d Hin. inversion Hin.
  - destruct (Hdated post ltac:(constructor)) as (d & Hparse & Hv & Hr).
    destruct (get_week_info_describes d Hv Hr) as (info & Hinfo & Hid & Hdesc).
    destruct (IH (weeks_append weeks info post)) as (weeks' & Hloop & Hok' & Hkeep & Hall).
    { apply weeks_append_ok; [exact Hok|].
      exists (iso_year d), (iso_week d). pose proof (iso_week_range d Hv). tauto. }
    { intros q Hq. apply Hdated. now constructor. }
    exists weeks'. split.
    { cbn [organize_loop]. rewrite Hparse. cbn [or_raise mbind exc_bind].
      rewrite Hinfo. cbn [mbind exc_bind]. exact Hloop. }
    split; [exact Hok'|]. split.
    + intros k wd Hin.
      destruct (weeks_append_keeps weeks info post k wd Hin) as (wd1 & Hin1 & _ & Hsub1).
      destruct (Hkeep k wd1 Hin1) as (wd2 & Hin2 & Hsub2).
      exists wd2. split; [exact Hin2 | auto].
    + intros q dq Hq Hdq. apply elem_of_cons in Hq. destruct Hq as [-> | Hq].
      * destruct Hdq as (Hparse' & _). rewrite Hparse in Hparse'. injection Hparse' as <-.
        destruct (weeks_append_adds weeks info post) as (wd1 & Hin1 & Hp1).
        destruct (Hkeep _ wd1 Hin1) as (wd2 & Hin2 & Hsub2).
        exists wd2. rewrite <- Hid. split; [exact Hin2 | auto].
      * now apply Hall.
Qed.

(** ** Records and the files of their weeks *)

Lemma merge_and_save_other (weeks : Weeks) :
  forall (clock : nat -> DT.t) (archive : Archive) (k : string),
  k ∉ map fst weeks ->
  merge_and_save clock weeks archive !! k = archive !! k.
Proof.
  induction weeks as [|[k0 wd0] weeks IH]; intros clock archive k Hk; simpl; [reflexivity|].
  simpl in Hk. apply not_elem_of_cons in Hk. destruct Hk as [Hne Hk].
  rewrite IH by exact Hk. now apply merge_and_persist_other.
Qed.

(** The file written for an entry of a partition. *)
Lemma merge_and_save_lookup (weeks : Weeks) :
  forall (clock : nat -> DT.t) (archive : Archive) (k : string) (wd : WeekData.t),
  NoDup (map fst weeks) ->
  (k, wd) ∈ weeks ->
  exists data,
    merge_and_save clock weeks archive !! k = Some data /\
    WeekFile.week data = WeekInfo.week_id (WeekData.info wd) /\
    WeekFile.week_start data = WeekInfo.week_start (WeekData.info wd) /\
    WeekFile.week_end data = WeekInfo.week_end (WeekData.info wd) /\
    WeekFile.posts data
    = Py.sort_desc Post.datetime (merged_posts (archive !! k) (WeekData.posts wd)).
Proof.
  induction weeks as [|[k0 wd0] weeks IH]; intros clock archive k wd Hnodup Hin;
    [inversion Hin|].
  simpl in Hnodup. apply NoDup_cons in Hnodup. destruct Hnodup as [Hk0 Hnodup].
  apply elem_of_cons in Hin. simpl. destruct Hin as [[= -> ->] | Hin].
  - rewrite merge_and_save_other by exact Hk0. rewrite merge_and_persist_lookup.
    eexists. split; [reflexivity|]. simpl. auto.
  - assert (Hne : k <> k0).
    { intros ->. apply Hk0. apply list_elem_of_fmap. exists (k0, wd). auto. }
    destruct (IH (fun n => clock (S n))
                 (merge_and_persist (clock O) k0 (WeekData.info wd0) (WeekData.posts wd0) archive)
                 k wd Hnodup Hin) as (data & Hdata & Hw & Hs & He & Hp).
    exists data. rewrite merge_and_persist_other in Hp by exact Hne. auto.
Qed.

Lemma merged_posts_keeps_new (existing_data : option WeekFile.t) (new_posts : list Post.t)
    (post : Post.t) :
  post ∈ new_posts ->
  (forall existing, existing_data = Some existing ->
                    Post.post_id post ∉ post_ids (WeekFile.posts existing)) ->
  post ∈ merged_posts existing_data new_posts.
Proof.
  intros Hin Hfresh. destruct existing_data as [existing|]; simpl; [|exact Hin].
  apply elem_of_app. right. apply unique_new_posts_spec. auto.
Qed.

(** The records of a crawl carry the text of their own timestamp. *)
Lemma for_rows_dated (today cutoff_date : DT.t) (existing_ids : gset string)
    (rows : list Row) :
  forall st,
  Forall (fun pd => DT.valid (_datetime_obj pd) = true /\
                    DT.strptime_iso (Post.datetime (record pd)) = Some (_datetime_obj pd))
         (all_posts st) ->
  Forall (fun pd => DT.valid (_datetime_obj pd) = true /\
                    DT.strptime_iso (Post.datetime (record pd)) = Some (_datetime_obj pd))
         (all_posts (for_rows today cutoff_date existing_ids rows st)).
Proof.
  induction rows as [|row rows IH]; intros st Hst; simpl; [exact Hst|].
  destruct (extract_post_data row today) as [pd|] eqn:Hpd; [|now apply IH].
  destruct (bool_decide _).
  - destruct (Nat.leb _ _); [exact Hst | now apply IH].
  - destruct (DT.geb _ _); [|exact Hst].
    apply IH. simpl. apply Forall_app. split; [exact Hst|].
    constructor; [|constructor]. now apply extract_post_data_datetime in Hpd.
Qed.

Lemma crawl_posts_dated (fetch : nat -> Response) (today : DT.t) (archive : Archive)
    (fuel : nat) (posts : list Post.t) :
  crawl_posts fetch today archive fuel = Some (Ret posts) ->
  forall post, post ∈ posts ->
  exists d, DT.strptime_iso (Post.datetime post) = Some d /\ DT.valid d = true.
Proof.
  unfold crawl_posts. destruct (DT.add_days today (- DAYS_LIMIT)) as [cutoff|]; [|discriminate].
  destruct (crawl_loop _ _ _ _ _ _) as [st|] eqn:Hloop; [|discriminate].
  intros [= <-] post Hin.
  apply crawl_loop_scans in Hloop; [|reflexivity].
  destruct Hloop as (n & _ & Hposts & _).
  pose proof (for_rows_dated today cutoff (load_all_existing_ids archive)
                (row_stream fetch (page crawl_init) n) crawl_init) as Hdated.
  rewrite <- Hposts in Hdated. specialize (Hdated ltac:(constructor)).
  rewrite Forall_forall in Hdated.
  apply list_elem_of_In, in_map_iff in Hin. destruct Hin as (pd & <- & Hpd).
  apply list_elem_of_In in Hpd. apply Hdated in Hpd. destruct Hpd as [Hv Hparse].
  eauto.
Qed.

(** C8, as stated, fails: a record dated in the last days of the
    calendar is collected, and the partitioner raises on it instead of
    assigning it to a week; nothing is written. *)
Lemma last_week_record_is_not_filed :
  exists post,
    crawl_posts far_fetch sample_today ∅ 2 = Some (Ret [post]) /\
    Post.datetime post = "9999-12-31T00:00:00" /\
    organize_by_week [post] = Raise OverflowError /\
    main far_fetch sample_today sample_clock 2 ∅ = Some (Raise OverflowError).
Proof.
  eexists. split; [vm_compute; reflexivity|].
  repeat split; vm_compute; reflexivity.
Qed.

(** C8, amended: every collected record dated on or before 9999-12-26
    is put by the partitioner under the identifier
    ["{ISO-year}_W{ISO-week:02d}"] of the ISO week of its own datetime,
    in an entry whose [week_start] and [week_end] are the Monday and
    the Sunday of that ISO week as [YYYY-MM-DD]; the run does not raise
    and writes the record into the file stored under that identifier,
    whose [week], [week_start] and [week_end] fields are those of the
    entry. *)
Theorem records_filed_by_iso_week (fetch : nat -> Response) (today : DT.t)
    (clock : nat -> DT.t) (fuel : nat) (archive : Archive) (posts : list Post.t) :
  crawl_posts fetch today archive fuel = Some (Ret posts) ->
  (forall post d, post ∈ posts -> DT.strptime_iso (Post.datetime post) = Some d ->
                  week_in_range d) ->
  exists weeks archive',
    organize_by_week posts = Ret weeks /\
    main fetch today clock fuel archive = Some (Ret archive') /\
    forall post, post ∈ posts ->
      exists d wd data,
        DT.strptime_iso (Post.datetime post) = Some d /\
        (iso_week_id d, wd) ∈ weeks /\
        post ∈ WeekData.posts wd /\
        describes_week (WeekData.info wd) (iso_year d) (iso_week d) /\
        archive' !! iso_week_id d = Some data /\
        WeekFile.week data = iso_week_id d /\
        WeekFile.week_start data = WeekInfo.week_start (WeekData.info wd) /\
        WeekFile.week_end data = WeekInfo.week_end (WeekData.info wd) /\
        post ∈ WeekFile.posts data.
Proof.
  intros Hcrawl Hrange.
  assert (Hdated : forall post, post ∈ posts -> exists d, dated post d).
  { intros post Hin. destruct (crawl_posts_dated _ _ _ _ _ Hcrawl post Hin) as (d & Hp & Hv).
    exists d. split; [exact Hp|]. split; [exact Hv | now apply (Hrange post)]. }
  destruct (organize_loop_spec posts [] ltac:(split; [constructor | intros k wd H; inversion H])
              Hdated) as (weeks & Hweeks & [Hnodup Hok] & _ & Hall).
  exists weeks.
  exists (match posts with [] => archive | _ :: _ => merge_and_save clock weeks archive end).
  split; [exact Hweeks|]. split.
  { unfold main. rewrite Hcrawl. destruct posts; [reflexivity|].
    unfold organize_by_week in Hweeks |- *. now rewrite Hweeks. }
  intros post Hin.
  destruct (Hdated post Hin) as (d & Hd).
  destruct (Hall post d Hin Hd) as (wd & Hwd & Hpost).
  destruct Hd as (Hparse & Hv & Hr).
  destruct (Hok _ _ Hwd) as (Hkey & y & w & Hy & Hw & Hdesc).
  assert (Hyw : y = iso_year d /\ w = iso_week d).
  { destruct (iso_week_range d Hv) as [Hy' Hw'].
    apply week_id_of_inj; try assumption.
    destruct Hdesc as (Hid & _). unfold iso_week_id in Hkey. congruence. }
  destruct Hyw as [-> ->].
  destruct (merge_and_save_lookup weeks clock archive _ wd Hnodup Hwd)
    as (data & Hdata & Hweek & Hstart & Hend & Hposts).
  exists d, wd, data.
  split; [exact Hparse|]. split; [exact Hwd|]. split; [exact Hpost|]. split; [exact Hdesc|].
  destruct posts as [|p0 posts0]; [inversion Hin|].
  split; [exact Hdata|]. split; [congruence|]. split; [exact Hstart|]. split; [exact Hend|].
  rewrite Hposts. apply list_elem_of_In.
  apply (Permutation_in _ (Permutation_sym (sort_desc_perm Post.datetime _))).
  apply list_elem_of_In. apply merged_posts_keeps_new; [exact Hpost|].
  intros existing He Hid.
  apply (crawl_posts_new _ _ _ _ _ Hcrawl post Hin).
  apply elem_of_load_all_existing_ids. eauto.
Qed.

Lemma records_filed_by_iso_week_witness :
  exists weeks archive',
    organize_by_week stale_posts = Ret weeks /\
    main stale_fetch sample_today sample_clock 2 ∅ = Some (Ret archive').
Proof.
  destruct (records_filed_by_iso_week stale_fetch sample_today sample_clock 2 ∅ stale_posts)
    as (weeks & archive' & Hweeks & Hmain & _).
  - vm_compute. reflexivity.
  - intros post d Hin Hparse. unfold week_in_range.
    vm_compute in Hin.
    repeat (apply elem_of_cons in Hin; destruct Hin as [-> | Hin];
            [vm_compute in Hparse; injection Hparse as <-; vm_compute; discriminate|]).
    inversion Hin.
  - exists weeks, archive'. auto.
Defined.

(** ** More about the extractor *)


(** All the fields of an extracted record. *)
Lemma extract_post_data_fields (row : Row) (today : DT.t) (pd : PostData) :
  extract_post_data row today = Some pd ->
  exists title_tag h,
    gall_tit_a row = Some title_tag /\
    href title_tag = Some h /\
    Py.contains "icon_notice" (Py.attr_or_empty (data_type row)) = false /\
    parse_date (gall_date row) today = Some (_datetime_obj pd) /\
    Post.post_id (record pd) =
      (if Py.truthy (Py.attr_or_empty (data_no row)) then Py.attr_or_empty (data_no row)
       else Py.attr_or_empty (gall_num row)) /\
    (Py.truthy (Py.attr_or_empty (data_no row)) = false ->
       Py.isdigit (Py.attr_or_empty (gall_num row)) = true) /\
    Post.title (record pd) = title_text title_tag /\
    Post.url (record pd) = "https://gall.dcinside.com" +:+ h /\
    Post.date (record pd) = DT.strftime_date (_datetime_obj pd) /\
    Post.time (record pd) = DT.strftime_time (_datetime_obj pd) /\
    Post.datetime (record pd) = DT.strftime_iso (_datetime_obj pd) /\
    Post.views (record pd) = count_of (gall_count row) /\
    Post.likes (record pd) = count_of (gall_recommend row) /\
    Post.comments (record pd) = comments_of (reply_numbox title_tag).
Proof.
  unfold extract_post_data, extract_post_body.
  destruct (Py.contains _ _) eqn:Hnotice; [discriminate|].
  destruct (gall_tit_a row) as [title_tag|] eqn:Htag; [|discriminate].
  destruct (href title_tag) as [h|] eqn:Hhref; [|discriminate].
  cbn [mbind exc_bind].
  destruct (Py.truthy (Py.attr_or_empty (data_no row))) eqn:Hno.
  - destruct (parse_date (gall_date row) today) as [dt|] eqn:Hdate; [|discriminate].
    destruct (writer_info (gall_writer row)) as [[a i] ty] eqn:Hwriter.
    intros [= <-]. exists title_tag, h. simpl. repeat split; auto; discriminate.
  - destruct (Py.isdigit (Py.attr_or_empty (gall_num row))) eqn:Hnum; [|discriminate].
    destruct (parse_date (gall_date row) today) as [dt|] eqn:Hdate; [|discriminate].
    destruct (writer_info (gall_writer row)) as [[a i] ty] eqn:Hwriter.
    intros [= <-]. exists title_tag, h. simpl. repeat split; auto.
Qed.

(** X2: the count cells never decide whether a row is extracted: with
    other view, recommendation and comment cells the row gives the
    same record with the counts of those cells, and a missing or
    non-numeric cell counts 0. *)
Theorem counts_only_set_counts (row : Row) (today : DT.t)
    (count recommend reply : option string) :
  extract_post_data (with_counts row count recommend reply) today
  = option_map (set_counts (count_of count) (count_of recommend) (comments_of reply))
               (extract_post_data row today) /\
  (forall cell, cell = None \/ (exists text, cell = Some text /\ Py.int text = None) ->
                count_of cell = 0).
Proof.
  split.
  - unfold extract_post_data, extract_post_body, with_counts. simpl.
    destruct (Py.contains _ _); [reflexivity|].
    destruct (gall_tit_a row) as [t|]; [|reflexivity]. simpl.
    destruct (href t) as [h|]; [|reflexivity]. cbn [mbind exc_bind].
    destruct (if Py.truthy (Py.attr_or_empty (data_no row)) then _ else _); [|reflexivity].
    destruct (parse_date (gall_date row) today); [|reflexivity].
    destruct (writer_info (gall_writer row)) as [[a i] ty]. reflexivity.
  - intros cell [-> | (text & -> & Hint)]; [reflexivity|].
    unfold count_of, int_or_zero. now rewrite Hint.
Qed.

(** *** Digits *)

Lemma digit_is_plain (c : ascii) :
  Py.is_digit c = true ->
  Py.is_space c = false /\ Py.char_in c "[]" = false /\ Ascii.eqb c "_" = false /\
  Py.is_blank c = false.
Proof.
  destruct c as [[] [] [] [] [] [] [] []]; vm_compute; intros H;
    try discriminate H; repeat split; reflexivity.
Qed.

Lemma int_head_digit (c : ascii) (s : string) :
  Py.is_digit c = true ->
  match String c s with
  | String "-"%char rest => option_map Z.opp (Py.int_unsigned rest)
  | String "+"%char rest => Py.int_unsigned rest
  | t => Py.int_unsigned t
  end = Py.int_unsigned (String c s).
Proof.
  destruct c as [[] [] [] [] [] [] [] []]; intros H; cbv in H;
    try discriminate H; reflexivity.
Qed.

Lemma lstrip_kept (drop : ascii -> bool) (c : ascii) (s : string) :
  drop c = false -> Py.lstrip drop (String c s) = String c s.
Proof. intros H. simpl. now rewrite H. Qed.

Lemma rstrip_kept (drop : ascii -> bool) (s : string) :
  (forall c, In c (list_ascii_of_string s) -> drop c = false) ->
  Py.rstrip drop s = s.
Proof.
  induction s as [|c s IH]; intros H; simpl; [reflexivity|].
  rewrite IH by (intros x Hx; apply H; simpl; auto).
  destruct s; [|reflexivity]. rewrite (H c) by (simpl; auto). reflexivity.
Qed.

Lemma rstrip_last_dropped (drop : ascii -> bool) (s : string) (x : ascii) :
  (forall c, In c (list_ascii_of_string s) -> drop c = false) ->
  drop x = true ->
  Py.rstrip drop (s +:+ String x "") = s.
Proof.
  intros Hs Hx. induction s as [|c s IH]; simpl.
  - now rewrite Hx.
  - rewrite IH by (intros y Hy; apply Hs; simpl; auto).
    destruct s; [|reflexivity]. rewrite (Hs c) by (simpl; auto). reflexivity.
Qed.

Lemma all_digits_In (s : string) (c : ascii) :
  Py.all_digits s = true -> In c (list_ascii_of_string s) -> Py.is_digit c = true.
Proof.
  induction s as [|x s IH]; simpl; [tauto|].
  rewrite andb_true_iff. intros [Hx Hs] [<- | Hin]; auto.
Qed.

Lemma int_digits_all (s : string) :
  forall (acc : Z) (prev : bool),
  Py.all_digits s = true -> (prev = true \/ s <> "") ->
  Py.int_digits acc prev s
  = Some (fold_left (fun a c => 10 * a + Py.digit_val c) (list_ascii_of_string s) acc).
Proof.
  induction s as [|c s IH]; intros acc prev Hd Hne; simpl.
  - destruct Hne as [-> | Hne]; [reflexivity | congruence].
  - simpl in Hd. apply andb_true_iff in Hd. destruct Hd as [Hc Hs].
    rewrite Hc. apply IH; auto.
Qed.

Lemma count_digits_all (s : string) :
  Py.all_digits s = true -> Py.count_digits s = Z.of_nat (String.length s).
Proof.
  induction s as [|c s IH]; [reflexivity|].
  cbn [Py.all_digits Py.count_digits String.length]. rewrite andb_true_iff.
  intros [-> Hs]. rewrite (IH Hs). lia.
Qed.

(** [int] reads a string of digits, of no more than 4300, as the
    number it writes, and refuses a longer one. *)
Lemma int_of_digits (s : string) :
  Py.all_digits s = true -> s <> "" ->
  Py.int s = if Z.of_nat (String.length s) <=? Py.MAX_STR_DIGITS
             then Some (digits_value s) else None.
Proof.
  intros Hd Hne. unfold Py.int.
  destruct s as [|c s]; [congruence|].
  pose proof Hd as Hc. simpl in Hc. apply andb_true_iff in Hc. destruct Hc as [Hc _].
  destruct (digit_is_plain c Hc) as (_ & _ & _ & Hsp).
  rewrite lstrip_kept by exact Hsp.
  rewrite rstrip_kept.
  - rewrite (int_head_digit c s Hc). unfold Py.int_unsigned. rewrite Hc.
    rewrite (count_digits_all _ Hd).
    destruct (_ <=? _); [|reflexivity].
    apply int_digits_all; [exact Hd | right; discriminate].
  - intros x Hx. apply (all_digits_In _ _ Hd) in Hx. now apply digit_is_plain in Hx.
Qed.

Lemma strip_brackets_digits (s : string) :
  Py.all_digits s = true -> s <> "" -> Py.strip "[]" ("[" +:+ s +:+ "]") = s.
Proof.
  intros Hd Hne. unfold Py.strip.
  destruct s as [|c s]; [congruence|].
  pose proof Hd as Hc. simpl in Hc. apply andb_true_iff in Hc. destruct Hc as [Hc _].
  destruct (digit_is_plain c Hc) as (_ & Hbr & _).
  change ("[" +:+ String c s +:+ "]") with (String "[" (String c (s +:+ "]"))).
  cbn [Py.lstrip]. change (Py.char_in "[" "[]") with true. cbv iota.
  rewrite Hbr.
  change (String c (s +:+ "]")) with (String c s +:+ String "]" "").
  apply rstrip_last_dropped; [|reflexivity].
  intros x Hx. apply (all_digits_In _ _ Hd) in Hx. now apply digit_is_plain in Hx.
Qed.

(** X3: a comment box [[N]], with [N] written in ASCII decimal
    digits, gives [comments = N] when [N] has at most 4300 digits, the
    most that [int] reads, and [comments = 0] when it has more. *)
Theorem comments_from_brackets (row : Row) (today : DT.t) (pd : PostData)
    (title_tag : TitleTag) (digits : string) :
  extract_post_data row today = Some pd ->
  gall_tit_a row = Some title_tag ->
  reply_numbox title_tag = Some ("[" +:+ digits +:+ "]") ->
  Py.all_digits digits = true -> digits <> "" ->
  ((String.length digits <= 4300)%nat -> Post.comments (record pd) = digits_value digits) /\
  ((4300 < String.length digits)%nat -> Post.comments (record pd) = 0).
Proof.
  intros Hpd Htag Hreply Hd Hne.
  apply extract_post_data_fields in Hpd.
  destruct Hpd as (t & h & Ht & _ & _ & _ & _ & _ & _ & _ & _ & _ & _ & _ & _ & Hc).
  rewrite Htag in Ht. injection Ht as <-.
  rewrite Hc, Hreply. unfold comments_of, int_or_zero.
  rewrite strip_brackets_digits by assumption.
  rewrite int_of_digits by assumption. unfold Py.MAX_STR_DIGITS.
  split; intros Hlen.
  - destruct (Z.leb_spec (Z.of_nat (String.length digits)) 4300); [reflexivity | lia].
  - destruct (Z.leb_spec (Z.of_nat (String.length digits)) 4300); [lia | reflexivity].
Qed.

Lemma comments_from_brackets_witness :
  exists pd,
    extract_post_data (sample_row "7" "2024-03-10 10:00:00" None) sample_today = Some pd /\
    Post.comments (record pd) = 3.
Proof.
  eexists. split; [reflexivity|].
  refine (proj1 (comments_from_brackets (sample_row "7" "2024-03-10 10:00:00" None)
                   sample_today _ sample_title "3" eq_refl eq_refl eq_refl eq_refl
                   ltac:(discriminate)) _).
  simpl. lia.
Defined.

(** X4: the identifier of an extracted record is never empty; it is
    the [data-no] attribute when that is not empty, and otherwise the
    text of the number cell, which then passes [isdigit]; when that
    text is ASCII it is made of the digits 0 to 9. *)
Theorem extracted_id_not_empty (row : Row) (today : DT.t) (pd : PostData) :
  extract_post_data row today = Some pd ->
  Post.post_id (record pd) <> "" /\
  (Py.attr_truthy (data_no row) = true -> Some (Post.post_id (record pd)) = data_no row) /\
  (Py.attr_truthy (data_no row) = false ->
     Some (Post.post_id (record pd)) = gall_num row /\
     Py.isdigit (Post.post_id (record pd)) = true /\
     (ascii_text (Post.post_id (record pd)) = true ->
      Py.all_digits (Post.post_id (record pd)) = true)).
Proof.
  intros Hpd. apply extract_post_data_fields in Hpd.
  destruct Hpd as (t & h & _ & _ & _ & _ & Hid & Hnum & _).
  rewrite Hid.
  destruct (data_no row) as [n|]; simpl in *.
  - destruct (Py.truthy n) eqn:Hn.
    + split; [destruct n; [discriminate | discriminate]|]. split; [reflexivity | discriminate].
    + specialize (Hnum eq_refl). pose proof Hnum as Hdig. unfold Py.isdigit in Hnum.
      apply andb_true_iff in Hnum. destruct Hnum as [Ht Hd].
      destruct (gall_num row) as [g|]; simpl in *; [|discriminate].
      split; [destruct g; [discriminate | discriminate]|]. split; [discriminate | auto].
  - specialize (Hnum eq_refl). pose proof Hnum as Hdig. unfold Py.isdigit in Hnum.
    apply andb_true_iff in Hnum. destruct Hnum as [Ht Hd].
    destruct (gall_num row) as [g|]; simpl in *; [|discriminate].
    split; [destruct g; [discriminate | discriminate]|]. split; [discriminate | auto].
Qed.

(** X5: the [date], [time] and [datetime] fields of an extracted record
    are renderings of one valid timestamp without microseconds:
    [datetime] is [date], a [T] and [time]; and for a timestamp of the
    years 1000 to 9999, whose year every [strftime] writes with four
    digits, [date] is year, month and day at widths four, two and two,
    and reading [datetime] back gives that timestamp. *)
Theorem extracted_timestamp_fields (row : Row) (today : DT.t) (pd : PostData) :
  extract_post_data row today = Some pd ->
  DT.valid (_datetime_obj pd) = true /\
  DT.microsecond (_datetime_obj pd) = 0 /\
  Post.time (record pd) = DT.strftime_time (_datetime_obj pd) /\
  Post.datetime (record pd) = Post.date (record pd) +:+ "T" +:+ Post.time (record pd) /\
  (1000 <= DT.year (_datetime_obj pd) ->
   Post.date (record pd) = DT.strftime_date (_datetime_obj pd) /\
   DT.strptime_iso (Post.datetime (record pd)) = Some (_datetime_obj pd)).
Proof.
  intros Hpd. pose proof (extract_post_data_datetime _ _ _ Hpd) as [Hv Hrt].
  apply extract_post_data_fields in Hpd.
  destruct Hpd as (t & h & _ & _ & _ & Hdate & _ & _ & _ & _ & Hd & Ht & Hdt & _).
  apply parse_date_valid in Hdate. destruct Hdate as [_ Hus].
  rewrite Hdt in Hrt. rewrite Hd, Ht, Hdt.
  split; [exact Hv|]. split; [exact Hus|]. split; [reflexivity|]. split; [reflexivity|].
  intros _. split; [reflexivity | exact Hrt].
Qed.

Lemma extracted_id_not_empty_witness :
  exists pd,
    extract_post_data (sample_row "7" "2024-03-10 10:00:00" None) sample_today = Some pd /\
    Post.post_id (record pd) <> "".
Proof.
  eexists. split; [reflexivity|].
  exact (proj1 (extracted_id_not_empty (sample_row "7" "2024-03-10 10:00:00" None)
                  sample_today _ eq_refl)).
Defined.

Lemma extracted_timestamp_fields_witness :
  exists pd,
    extract_post_data (sample_row "7" "2024-03-10 10:00:00" None) sample_today = Some pd /\
    DT.strptime_iso (Post.datetime (record pd)) = Some (_datetime_obj pd).
Proof.
  eexists. split; [reflexivity|].
  refine (proj2 (proj2 (proj2 (proj2 (proj2
            (extracted_timestamp_fields (sample_row "7" "2024-03-10 10:00:00" None)
               sample_today _ eq_refl)))) _)).
  vm_compute. discriminate.
Defined.

(** ** More about the date normalizer *)

Lemma split_no_separator (sep : ascii) (s : string) :
  Py.char_in sep s = false -> Py.split sep s = [s].
Proof.
  induction s as [|c s IH]; simpl; [reflexivity|].
  rewrite (Ascii.eqb_sym c sep). intros H. apply orb_false_iff in H. destruct H as [Hc Hs].
  rewrite Hc, (IH Hs). reflexivity.
Qed.

Lemma split_first_segment (sep : ascii) (s rest : string) :
  Py.char_in sep s = false ->
  Py.split sep (s +:+ String sep rest) = s :: Py.split sep rest.
Proof.
  induction s as [|c s IH]; simpl.
  - intros _. now rewrite Ascii.eqb_refl.
  - rewrite (Ascii.eqb_sym c sep). intros H. apply orb_false_iff in H. destruct H as [Hc Hs].
    rewrite Hc, (IH Hs). reflexivity.
Qed.

Lemma char_in_append (c : ascii) (a b : string) :
  Py.char_in c (a +:+ b) = Py.char_in c a || Py.char_in c b.
Proof.
  induction a as [|x a IH]; simpl; [reflexivity|]. now rewrite IH, orb_assoc.
Qed.

Lemma pad2_plain_spec (n : Z) :
  0 <= n <= 99 ->
  Py.int (DT.pad2 n) = Some n /\
  Py.char_in ":" (DT.pad2 n) = false /\ Py.char_in "." (DT.pad2 n) = false.
Proof.
  intros Hn.
  assert (H : pad2_plain n = true).
  { apply (holds_between_spec pad2_plain 0 99); [vm_compute; reflexivity | lia]. }
  unfold pad2_plain, int_reads in H.
  rewrite !andb_true_iff, !negb_true_iff in H. destruct H as [[Hint Hc] Hd].
  destruct (Py.int (DT.pad2 n)) as [v|]; [|discriminate].
  apply Z.eqb_eq in Hint. subst v. auto.
Qed.

(** X6: without a usable [title] attribute, a displayed text [HH:MM]
    of two-digit numbers is read as that time on the day of [today];
    an hour above 23 or a minute above 59 gives none. *)
Theorem parse_date_reads_hh_mm (tag : DateTag) (today : DT.t) (h mi : Z) :
  parse_title (date_title tag) = None ->
  date_text tag = DT.pad2 h +:+ ":" +:+ DT.pad2 mi ->
  0 <= h <= 99 -> 0 <= mi <= 99 ->
  parse_date (Some tag) today
  = DT.make (DT.year today) (DT.month today) (DT.day today) h mi 0 /\
  (DT.valid today = true -> h <= 23 -> mi <= 59 ->
     parse_date (Some tag) today
     = Some (DT.mk (DT.year today) (DT.month today) (DT.day today) h mi 0 0)) /\
  (23 < h \/ 59 < mi -> parse_date (Some tag) today = None).
Proof.
  intros Htitle Htext Hh Hmi.
  destruct (pad2_plain_spec h Hh) as (Hih & Hch & _).
  destruct (pad2_plain_spec mi Hmi) as (Himi & Hcmi & _).
  assert (Hparse : parse_date (Some tag) today
                   = DT.make (DT.year today) (DT.month today) (DT.day today) h mi 0).
  { unfold parse_date. rewrite Htitle, Htext.
    rewrite char_in_append. change (":" +:+ DT.pad2 mi) with (String ":" (DT.pad2 mi)).
    cbn [Py.char_in]. rewrite Ascii.eqb_refl, orb_true_r. cbv iota.
    unfold parse_hh_mm. rewrite split_first_segment by exact Hch.
    rewrite split_no_separator by exact Hcmi. simpl. rewrite Hih, Himi. reflexivity. }
  split; [exact Hparse|]. rewrite Hparse. unfold DT.make. split.
  - intros Hv H23 H59. apply valid_spec in Hv. destruct Hv as [Hdate _]. rewrite Hdate.
    replace (DT.valid_time h mi 0 0) with true; [reflexivity|].
    symmetry. apply valid_time_spec. lia.
  - intros Hout. replace (DT.valid_time h mi 0 0) with false; [now rewrite andb_false_r|].
    symmetry. apply not_true_is_false. rewrite valid_time_spec. lia.
Qed.

Lemma parse_date_reads_hh_mm_witness :
  parse_date (Some {| date_title := None; date_text := "07:45" |}) sample_today
  = Some (DT.mk 2024 3 10 7 45 0 0).
Proof.
  exact (proj1 (proj2 (parse_date_reads_hh_mm
                         {| date_title := None; date_text := "07:45" |} sample_today 7 45
                         eq_refl eq_refl ltac:(lia) ltac:(lia)))
           eq_refl ltac:(lia) ltac:(lia)).
Defined.

(** X7: without a usable [title] attribute, a displayed text [MM.DD]
    is read as that day of the year of [today], and [YY.MM.DD] as that
    day of the year 2000 + YY, both at midnight; a day that the
    calendar does not have gives none. *)
Theorem parse_date_reads_dotted (tag : DateTag) (today : DT.t) (yy m d : Z) :
  parse_title (date_title tag) = None ->
  0 <= yy <= 99 -> 0 <= m <= 99 -> 0 <= d <= 99 ->
  (date_text tag = DT.pad2 m +:+ "." +:+ DT.pad2 d ->
     parse_date (Some tag) today = DT.make (DT.year today) m d 0 0 0) /\
  (date_text tag = DT.pad2 yy +:+ "." +:+ DT.pad2 m +:+ "." +:+ DT.pad2 d ->
     parse_date (Some tag) today = DT.make (2000 + yy) m d 0 0 0).
Proof.
  intros Htitle Hyy Hm Hd.
  destruct (pad2_plain_spec yy Hyy) as (Hiy & Hcy & Hdy).
  destruct (pad2_plain_spec m Hm) as (Him & Hcm & Hdm).
  destruct (pad2_plain_spec d Hd) as (Hid & Hcd & Hdd).
  split; intros Htext; unfold parse_date; rewrite Htitle, Htext.
  - rewrite !char_in_append. change ("." +:+ DT.pad2 d) with (String "." (DT.pad2 d)).
    cbn [Py.char_in]. rewrite Hcm, Hcd, Ascii.eqb_refl.
    change (Ascii.eqb ":" ".") with false. cbn [orb]. rewrite orb_true_r. cbv iota.
    unfold parse_dotted. rewrite split_first_segment by exact Hdm.
    rewrite split_no_separator by exact Hdd. rewrite Him, Hid. reflexivity.
  - change ("." +:+ DT.pad2 m +:+ "." +:+ DT.pad2 d)
      with (String "." (DT.pad2 m +:+ String "." (DT.pad2 d))).
    rewrite !char_in_append. cbn [Py.char_in]. rewrite !char_in_append. cbn [Py.char_in].
    rewrite Hcy, Hcm, Hcd, Ascii.eqb_refl.
    change (Ascii.eqb ":" ".") with false. cbn [orb]. rewrite orb_true_r. cbv iota.
    unfold parse_dotted. rewrite split_first_segment by exact Hdy.
    rewrite split_first_segment by exact Hdm.
    rewrite split_no_separator by exact Hdd. rewrite Hiy, Him, Hid. reflexivity.
Qed.

Lemma parse_date_reads_dotted_witness :
  parse_date (Some {| date_title := None; date_text := "24.02.29" |}) sample_today
  = Some (DT.mk 2024 2 29 0 0 0 0) /\
  parse_date (Some {| date_title := None; date_text := "02.30" |}) sample_today = None.
Proof.
  split.
  - exact (proj2 (parse_date_reads_dotted
                    {| date_title := None; date_text := "24.02.29" |} sample_today 24 2 29
                    eq_refl ltac:(lia) ltac:(lia) ltac:(lia)) eq_refl).
  - exact (proj1 (parse_date_reads_dotted
                    {| date_title := None; date_text := "02.30" |} sample_today 0 2 30
                    eq_refl ltac:(lia) ltac:(lia) ltac:(lia)) eq_refl).
Defined.


(** ** More about weeks *)

Lemma add_days_date (d r : DT.t) (k : Z) :
  DT.add_days d k = Some r ->
  DT.strftime_date r = date_string (DT.toordinal d + k).
Proof.
  unfold DT.add_days. cbv zeta.
  destruct ((1 <=? DT.toordinal d + k) && (DT.toordinal d + k <=? DT.MAXORDINAL));
    [|discriminate].
  unfold date_string.
  destruct (DT.ord2ymd (DT.toordinal d + k)) as [[y m] dd].
  intros [= <-]. reflexivity.
Qed.

(** [get_week_info] in closed form. *)
Lemma get_week_info_eq (date : DT.t) :
  DT.valid date = true -> week_in_range date ->
  get_week_info date =
    Ret {| WeekInfo.week_id := iso_week_id date;
           WeekInfo.year := iso_year date;
           WeekInfo.week := iso_week date;
           WeekInfo.week_start := date_string (monday_of date);
           WeekInfo.week_end := date_string (monday_of date + 6) |}.
Proof.
  intros Hv Hr. apply week_in_range_spec in Hr.
  pose proof (weekday_range date) as Hwd.
  pose proof (monday_ordinal_positive date Hv) as Hpos.
  destruct (add_days_spec date (- DT.weekday date) Hv ltac:(lia))
    as (monday & Hmon & Hvm & Hom).
  destruct (add_days_spec monday 6 Hvm ltac:(lia)) as (sunday & Hsun & Hvs & Hos).
  unfold get_week_info. cbv zeta.
  rewrite Hmon. cbn [or_raise mbind exc_bind]. rewrite Hsun. cbn [or_raise mbind exc_bind].
  rewrite (add_days_date _ _ _ Hmon), (add_days_date _ _ _ Hsun), Hom.
  unfold monday_of, iso_week_id, iso_year, iso_week.
  replace (DT.toordinal date + - DT.weekday date) with (DT.toordinal date - DT.weekday date)
    by lia.
  reflexivity.
Qed.

(** X8: on a date of the calendar, [get_week_info] raises
    [OverflowError] exactly when the date is after 9999-12-26, the
    last Sunday of the calendar, and returns a week description
    otherwise. *)
Theorem get_week_info_raises_iff (date : DT.t) :
  DT.valid date = true ->
  (get_week_info date = Raise OverflowError <-> ~ week_in_range date) /\
  (week_in_range date -> exists info, get_week_info date = Ret info).
Proof.
  intros Hv. split; [split|].
  - intros Hraise Hr. rewrite (get_week_info_eq date Hv Hr) in Hraise. discriminate.
  - intros Hr. apply get_week_info_overflow; [exact Hv|].
    rewrite week_in_range_spec in Hr. lia.
  - intros Hr. rewrite (get_week_info_eq date Hv Hr). eauto.
Qed.

Lemma get_week_info_raises_iff_witness :
  get_week_info (DT.mk 9999 12 27 0 0 0 0) = Raise OverflowError /\
  exists info, get_week_info (DT.mk 9999 12 26 23 59 59 0) = Ret info.
Proof.
  split.
  - apply (proj1 (get_week_info_raises_iff (DT.mk 9999 12 27 0 0 0 0) eq_refl)).
    unfold week_in_range. vm_compute. intros H. apply H. reflexivity.
  - apply (proj2 (get_week_info_raises_iff (DT.mk 9999 12 26 23 59 59 0) eq_refl)).
    unfold week_in_range. vm_compute. discriminate.
Defined.

Lemma monday_of_same_week (d d' : DT.t) :
  monday_of d <= DT.toordinal d' <= monday_of d + 6 -> monday_of d' = monday_of d.
Proof.
  unfold monday_of, DT.weekday. intros H. Z.div_mod_to_equations. lia.
Qed.

(** X9: all the dates of one Monday-to-Sunday week get the same week
    description from [get_week_info], whatever their clock time. *)
Theorem get_week_info_same_week (d d' : DT.t) :
  DT.valid d = true -> DT.valid d' = true -> week_in_range d ->
  monday_of d <= DT.toordinal d' <= monday_of d + 6 ->
  get_week_info d' = get_week_info d.
Proof.
  intros Hv Hv' Hr Hweek.
  pose proof (monday_of_same_week d d' Hweek) as Hmon.
  assert (Hr' : week_in_range d').
  { apply week_in_range_spec. apply week_in_range_spec in Hr.
    fold (monday_of d'). fold (monday_of d) in Hr. lia. }
  rewrite (get_week_info_eq d Hv Hr), (get_week_info_eq d' Hv' Hr'), Hmon.
  unfold iso_week_id, iso_year, iso_week.
  rewrite (isocalendar_same_week d d' Hv Hv' Hweek). reflexivity.
Qed.

Lemma get_week_info_same_week_witness :
  get_week_info (DT.mk 2024 12 30 8 0 0 0) = get_week_info (DT.mk 2025 1 5 23 59 59 0).
Proof.
  apply (get_week_info_same_week (DT.mk 2025 1 5 23 59 59 0) (DT.mk 2024 12 30 8 0 0 0)).
  - reflexivity.
  - reflexivity.
  - unfold week_in_range. vm_compute. discriminate.
  - vm_compute. split; discriminate.
Defined.

Lemma iso_week_block (d : DT.t) :
  DT.valid d = true ->
  monday_of d = DT.isoweek1monday (iso_year d) + 7 * (iso_week d - 1).
Proof.
  intros Hv. unfold iso_year, iso_week, monday_of, DT.weekday.
  destruct (isocalendar_spec d (toordinal_bounds d Hv)) as (Y & HY & ->).
  cbn [fst snd]. pose proof (isoweek1monday_spec Y) as [Hm _].
  Z.div_mod_to_equations. lia.
Qed.

(** X10: two dates of the calendar have the same week identifier
    exactly when they are in the same Monday-to-Sunday week: no two
    weeks share a file name. *)
Theorem iso_week_id_same_iff (d d' : DT.t) :
  DT.valid d = true -> DT.valid d' = true ->
  (iso_week_id d = iso_week_id d' <-> monday_of d = monday_of d').
Proof.
  intros Hv Hv'. split.
  - intros Hid. unfold iso_week_id in Hid.
    destruct (iso_week_range d Hv) as [Hy Hw].
    destruct (iso_week_range d' Hv') as [Hy' Hw'].
    apply week_id_of_inj in Hid; try assumption. destruct Hid as [Ey Ew].
    rewrite (iso_week_block d Hv), (iso_week_block d' Hv'), Ey, Ew. reflexivity.
  - intros Hmon. unfold iso_week_id, iso_year, iso_week.
    pose proof (weekday_range d') as Hwd.
    rewrite (isocalendar_same_week d d' Hv Hv'); [reflexivity|].
    fold (monday_of d). rewrite Hmon. unfold monday_of. lia.
Qed.

Lemma iso_week_id_same_iff_witness :
  iso_week_id (DT.mk 2024 12 30 8 0 0 0) = iso_week_id (DT.mk 2025 1 5 23 59 59 0) /\
  iso_week_id (DT.mk 2025 1 5 23 59 59 0) <> iso_week_id (DT.mk 2025 1 6 0 0 0 0).
Proof.
  split.
  - apply (proj2 (iso_week_id_same_iff (DT.mk 2024 12 30 8 0 0 0)
                    (DT.mk 2025 1 5 23 59 59 0) eq_refl eq_refl)).
    vm_compute. reflexivity.
  - intros H.
    apply (proj1 (iso_week_id_same_iff (DT.mk 2025 1 5 23 59 59 0)
                    (DT.mk 2025 1 6 0 0 0 0) eq_refl eq_refl)) in H.
    vm_compute in H. discriminate H.
Defined.


(** ** More about the partition *)

Lemma weeks_append_entry (weeks : Weeks) (week_info : WeekInfo.t) (post : Post.t)
    (k : string) (wd' : WeekData.t) :
  (k, wd') ∈ weeks_append weeks week_info post ->
  (exists wd, (k, wd) ∈ weeks /\ WeekData.info wd' = WeekData.info wd /\
              (WeekData.posts wd' = WeekData.posts wd \/
               WeekData.posts wd' = WeekData.posts wd ++ [post])) \/
  (k = WeekInfo.week_id week_info /\ WeekData.info wd' = week_info /\
   WeekData.posts wd' = [post]).
Proof.
  induction weeks as [|[k0 wd0] weeks IH]; simpl; intros Hin.
  - apply list_elem_of_singleton in Hin. injection Hin as -> ->. right. auto.
  - destruct (String.eqb k0 (WeekInfo.week_id week_info)).
    + apply elem_of_cons in Hin. destruct Hin as [[= -> ->] | Hin].
      * left. exists wd0. split; [constructor|]. simpl. auto.
      * left. exists wd'. split; [now constructor | auto].
    + apply elem_of_cons in Hin. destruct Hin as [[= -> ->] | Hin].
      * left. exists wd0. split; [constructor | auto].
      * destruct (IH Hin) as [(wd & Hw & Hi & Hp) | H]; [|now right].
        left. exists wd. split; [now constructor | auto].
Qed.

Lemma weeks_append_keyed (done : list Post.t) (weeks : Weeks) (week_info : WeekInfo.t)
    (post : Post.t) :
  weeks_keyed done weeks ->
  weeks_keyed (done ++ [post]) (weeks_append weeks week_info post).
Proof.
  intros [Hnodup Hok]. split.
  - rewrite weeks_append_keys. destruct (bool_decide _) eqn:E; [exact Hnodup|].
    apply bool_decide_eq_false in E. apply NoDup_app. split; [exact Hnodup|].
    split; [|apply NoDup_singleton].
    intros k Hk Hk'. apply list_elem_of_singleton in Hk'. congruence.
  - intros k wd' Hin. apply weeks_append_entry in Hin.
    destruct Hin as [(wd & Hw & Hi & Hp) | (-> & Hi & Hp)].
    + destruct (Hok k wd Hw) as (Hk & Hne & Hsub). rewrite Hi. split; [exact Hk|].
      destruct Hp as [-> | ->].
      * split; [exact Hne | now apply sublist_inserts_r].
      * split; [now destruct (WeekData.posts wd) | now apply sublist_app].
    + rewrite Hi, Hp. split; [reflexivity|]. split; [discriminate|].
      now apply sublist_inserts_l.
Qed.

Lemma organize_loop_keyed (posts : list Post.t) :
  forall done weeks weeks',
  organize_loop posts weeks = Ret weeks' ->
  weeks_keyed done weeks ->
  weeks_keyed (done ++ posts) weeks'.
Proof.
  induction posts as [|post posts IH]; intros done weeks weeks'; simpl.
  - intros [= <-]. now rewrite app_nil_r.
  - destruct (DT.strptime_iso (Post.datetime post)) as [d|]; [|discriminate].
    cbn [or_raise mbind exc_bind].
    destruct (get_week_info d) as [info|]; [|discriminate].
    intros Hloop Hkeyed.
    replace (done ++ post :: posts) with ((done ++ [post]) ++ posts)
      by (rewrite <- app_assoc; reflexivity).
    apply (IH _ _ _ Hloop). now apply weeks_append_keyed.
Qed.

(** X11: the partition that [organize_by_week] returns holds the posts
    it was given, each once; every week has one entry, under the
    identifier of its own metadata, with at least one post, and the
    posts of an entry are in the order of the input. *)
Theorem organize_by_week_partitions (posts : list Post.t) (weeks : Weeks) :
  organize_by_week posts = Ret weeks ->
  Permutation (weeks_posts weeks) posts /\
  NoDup (map fst weeks) /\
  forall k wd, (k, wd) ∈ weeks ->
    k = WeekInfo.week_id (WeekData.info wd) /\
    WeekData.posts wd <> [] /\
    WeekData.posts wd `sublist_of` posts.
Proof.
  intros H. split; [now apply organize_loop_posts in H|].
  apply (organize_loop_keyed posts [] [] weeks H).
  split; [constructor | intros k wd Hin; inversion Hin].
Qed.

Lemma organize_by_week_partitions_witness :
  exists weeks,
    organize_by_week mixed_posts = Ret weeks /\
    map fst weeks = ["2024_W10"; "2024_W09"] /\
    Permutation (weeks_posts weeks) mixed_posts.
Proof.
  eexists. split; [vm_compute; reflexivity|]. split; [reflexivity|].
  refine (proj1 (organize_by_week_partitions mixed_posts _ _)).
  vm_compute. reflexivity.
Defined.

Lemma organize_loop_returns (posts : list Post.t) :
  forall weeks weeks',
  organize_loop posts weeks = Ret weeks' ->
  forall post, post ∈ posts ->
  exists d, DT.strptime_iso (Post.datetime post) = Some d /\ week_in_range d.
Proof.
  induction posts as [|p posts IH]; intros weeks weeks' Hloop post Hin; [inversion Hin|].
  simpl in Hloop.
  destruct (DT.strptime_iso (Post.datetime p)) as [d|] eqn:Hparse; [|discriminate].
  cbn [or_raise mbind exc_bind] in Hloop.
  destruct (get_week_info d) as [info|] eqn:Hinfo; [|discriminate].
  apply elem_of_cons in Hin. destruct Hin as [-> | Hin].
  - exists d. split; [exact Hparse|].
    pose proof (strptime_with_valid _ _ _ Hparse) as [Hv _].
    destruct (Z_le_gt_dec (DT.toordinal d) (DT.ymd2ord 9999 12 26)) as [Hle | Hgt];
      [exact Hle|].
    rewrite get_week_info_overflow in Hinfo; [discriminate | exact Hv|].
    assert (Hn : ~ week_in_range d) by (unfold week_in_range; lia).
    rewrite week_in_range_spec in Hn. lia.
  - apply (IH _ _ Hloop post Hin).
Qed.

(** X12: [organize_by_week] returns a partition exactly when the
    [datetime] of every post reads as a date on or before 9999-12-26;
    otherwise it raises, and there is no partial partition. *)
Theorem organize_by_week_returns_iff (posts : list Post.t) :
  (exists weeks, organize_by_week posts = Ret weeks) <->
  (forall post, post ∈ posts ->
     exists d, DT.strptime_iso (Post.datetime post) = Some d /\ week_in_range d).
Proof.
  split.
  - intros [weeks H]. now apply (organize_loop_returns posts [] weeks).
  - intros Hall.
    destruct (organize_loop_spec posts []) as (weeks & Hloop & _).
    + split; [constructor | intros k wd Hin; inversion Hin].
    + intros post Hin. destruct (Hall post Hin) as (d & Hparse & Hr).
      exists d. split; [exact Hparse|]. split; [|exact Hr].
      now apply strptime_with_valid in Hparse.
    + exists weeks. exact Hloop.
Qed.

(** ** What a merge does to the archive *)

Lemma merge_and_persist_keeps (now : DT.t) (week_id : string) (week_info : WeekInfo.t)
    (new_posts : list Post.t) (archive : Archive) (k : string) (data : WeekFile.t) :
  archive !! k = Some data ->
  exists data',
    merge_and_persist now week_id week_info new_posts archive !! k = Some data' /\
    (forall post, post ∈ WeekFile.posts data -> post ∈ WeekFile.posts data') /\
    (length (WeekFile.posts data) <= length (WeekFile.posts data'))%nat /\
    (k <> week_id -> data' = data).
Proof.
  intros H. destruct (decide (k = week_id)) as [-> | Hne].
  - eexists. split; [apply merge_and_persist_lookup|]. cbn [WeekFile.posts].
    rewrite H. cbn [merged_posts]. split; [|split; [|congruence]].
    + intros post Hin.
      rewrite (elem_of_Permutation_proper _ _ _ (sort_desc_perm Post.datetime _)).
      apply elem_of_app. now left.
    + rewrite (Permutation_length (sort_desc_perm Post.datetime _)), length_app. lia.
  - exists data. rewrite merge_and_persist_other by exact Hne. auto.
Qed.

Lemma merge_and_persist_origin (now : DT.t) (week_id : string) (week_info : WeekInfo.t)
    (new_posts : list Post.t) (archive : Archive) (k : string) (data' : WeekFile.t)
    (post : Post.t) :
  merge_and_persist now week_id week_info new_posts archive !! k = Some data' ->
  post ∈ WeekFile.posts data' ->
  (exists data, archive !! k = Some data /\ post ∈ WeekFile.posts data) \/
  (k = week_id /\ post ∈ new_posts).
Proof.
  intros Hk Hin. destruct (decide (k = week_id)) as [-> | Hne].
  - rewrite merge_and_persist_lookup in Hk. injection Hk as <-. cbn [WeekFile.posts] in Hin.
    rewrite (elem_of_Permutation_proper _ _ _ (sort_desc_perm Post.datetime _)) in Hin.
    destruct (archive !! week_id) as [data|]; cbn [merged_posts] in Hin.
    + apply elem_of_app in Hin. destruct Hin as [Hin | Hin].
      * left. eauto.
      * apply unique_new_posts_spec in Hin. right. tauto.
    + right. auto.
  - rewrite merge_and_persist_other in Hk by exact Hne. left. eauto.
Qed.

(** X13: [merge_and_save] only adds: a file that was in the directory
    is still there afterwards, with every post it had and no fewer
    posts, and it is the same file when its week is not in the batch. *)
Theorem merge_and_save_append_only (weeks : Weeks) (clock : nat -> DT.t)
    (archive : Archive) (k : string) (data : WeekFile.t) :
  archive !! k = Some data ->
  exists data',
    merge_and_save clock weeks archive !! k = Some data' /\
    (forall post, post ∈ WeekFile.posts data -> post ∈ WeekFile.posts data') /\
    (length (WeekFile.posts data) <= length (WeekFile.posts data'))%nat /\
    (k ∉ map fst weeks -> data' = data).
Proof.
  revert clock archive data.
  induction weeks as [|[week_id wd] weeks IH]; intros clock archive data H; simpl.
  - exists data. auto.
  - destruct (merge_and_persist_keeps (clock O) week_id (WeekData.info wd)
                (WeekData.posts wd) archive k data H) as (mid & Hmid & Hsub & Hlen & Hsame).
    destruct (IH (fun n => clock (S n)) _ mid Hmid) as (data' & Hk & Hsub' & Hlen' & Hsame').
    exists data'. split; [exact Hk|]. split; [auto|]. split; [lia|].
    intros Hnot. rewrite not_elem_of_cons in Hnot. destruct Hnot as [Hne Hnot].
    rewrite (Hsame' Hnot). now apply Hsame.
Qed.

Lemma merge_and_save_append_only_witness :
  exists data data',
    sample_archive !! "2024_W10" = Some data /\
    merge_and_save sample_clock sample_weeks sample_archive !! "2024_W10" = Some data' /\
    (length (WeekFile.posts data) <= length (WeekFile.posts data'))%nat.
Proof.
  destruct (sample_archive !! "2024_W10") as [data|] eqn:H; [|vm_compute in H; discriminate].
  destruct (merge_and_save_append_only sample_weeks sample_clock sample_archive
              "2024_W10" data H) as (data' & Hk & _ & Hlen & _).
  exists data, data'. auto.
Defined.

(** X14: [merge_and_save] invents nothing: a file of the directory
    afterwards was there before or is the file of a week of the batch,
    and each of its posts was in the file of that name before or is a
    post that the batch has under that name. *)
Theorem merge_and_save_origin (weeks : Weeks) (clock : nat -> DT.t) (archive : Archive)
    (k : string) (data' : WeekFile.t) :
  merge_and_save clock weeks archive !! k = Some data' ->
  (is_Some (archive !! k) \/ k ∈ map fst weeks) /\
  forall post, post ∈ WeekFile.posts data' ->
    (exists data, archive !! k = Some data /\ post ∈ WeekFile.posts data) \/
    (exists wd, (k, wd) ∈ weeks /\ post ∈ WeekData.posts wd).
Proof.
  revert clock archive data'.
  induction weeks as [|[week_id wd] weeks IH]; intros clock archive data' H; simpl in H.
  - split; [left; eauto|]. intros post Hin. left. eauto.
  - destruct (IH _ _ _ H) as [Hfile Hposts]. split.
    + destruct Hfile as [[mid Hmid] | Hin].
      * destruct (decide (k = week_id)) as [-> | Hne].
        -- right. simpl. constructor.
        -- rewrite merge_and_persist_other in Hmid by exact Hne. left. eauto.
      * right. simpl. now constructor.
    + intros post Hin. destruct (Hposts post Hin) as [(mid & Hmid & Hpost) | (wd' & Hwd & Hpost)].
      * destruct (merge_and_persist_origin _ _ _ _ _ _ _ _ Hmid Hpost)
          as [Hold | [-> Hnew]]; [now left|].
        right. exists wd. split; [constructor | exact Hnew].
      * right. exists wd'. split; [now constructor | exact Hpost].
Qed.

Lemma merge_and_save_origin_witness :
  exists data',
    merge_and_save sample_clock sample_weeks ∅ !! "2024_W09" = Some data' /\
    (is_Some ((∅ : Archive) !! "2024_W09") \/ "2024_W09" ∈ map fst sample_weeks).
Proof.
  destruct (merge_and_save sample_clock sample_weeks ∅ !! "2024_W09") as [data'|] eqn:H;
    [|vm_compute in H; discriminate].
  exists data'. split; [reflexivity|].
  exact (proj1 (merge_and_save_origin sample_weeks sample_clock ∅ "2024_W09" data' H)).
Defined.

Lemma merge_and_persist_ids (now : DT.t) (week_id : string) (week_info : WeekInfo.t)
    (new_posts : list Post.t) (archive : Archive) :
  load_all_existing_ids (merge_and_persist now week_id week_info new_posts archive)
  = load_all_existing_ids archive ∪ list_to_set (post_ids new_posts).
Proof.
  apply set_eq. intros id.
  rewrite elem_of_union, elem_of_list_to_set, !elem_of_load_all_existing_ids. split.
  - intros (k & data' & Hk & Hid).
    apply elem_of_post_ids_inv in Hid. destruct Hid as (post & Hin & <-).
    destruct (merge_and_persist_origin _ _ _ _ _ _ _ _ Hk Hin)
      as [(data & Hdata & Hpost) | [_ Hnew]].
    + left. exists k, data. split; [exact Hdata | now apply elem_of_post_ids].
    + right. now apply elem_of_post_ids.
  - intros [(k & data & Hk & Hid) | Hid].
    + destruct (merge_and_persist_keeps now week_id week_info new_posts archive k data Hk)
        as (data' & Hk' & Hsub & _).
      exists k, data'. split; [exact Hk'|].
      apply elem_of_post_ids_inv in Hid. destruct Hid as (post & Hin & <-).
      apply elem_of_post_ids. auto.
    + exists week_id. eexists. split; [apply merge_and_persist_lookup|].
      cbn [WeekFile.posts].
      rewrite (elem_of_Permutation_proper _ _ _
                 (post_ids_perm _ _ (sort_desc_perm Post.datetime _))).
      apply elem_of_post_ids_inv in Hid. destruct Hid as (post & Hin & <-).
      now apply merged_posts_covers.
Qed.

Lemma merge_and_save_ids (weeks : Weeks) :
  forall (clock : nat -> DT.t) (archive : Archive),
  load_all_existing_ids (merge_and_save clock weeks archive)
  = load_all_existing_ids archive ∪ list_to_set (post_ids (weeks_posts weeks)).
Proof.
  induction weeks as [|[week_id wd] weeks IH]; intros clock archive; simpl.
  - unfold weeks_posts. simpl. now rewrite union_empty_r_L.
  - rewrite IH, merge_and_persist_ids.
    change (weeks_posts ((week_id, wd) :: weeks))
      with (WeekData.posts wd ++ weeks_posts weeks).
    rewrite post_ids_app, list_to_set_app_L. now rewrite (assoc_L (∪)).
Qed.

(** X15: after [merge_and_save] the identifiers that the next run
    finds in the directory are those that were there and those of the
    batch, whatever the batch and the directory are. *)
Theorem merge_and_save_known_ids (weeks : Weeks) (clock : nat -> DT.t) (archive : Archive) :
  load_all_existing_ids (merge_and_save clock weeks archive)
  = load_all_existing_ids archive ∪ list_to_set (post_ids (weeks_posts weeks)).
Proof. apply merge_and_save_ids. Qed.





(** ** More about the crawl *)

Section CrawlMore.

Variable fetch : nat -> Response.
Variable today : DT.t.
Variable cutoff_date : DT.t.
Variable existing_ids : gset string.

Local Abbreviation scan := (for_rows today cutoff_date existing_ids).
Local Abbreviation crawl := (crawl_loop fetch today cutoff_date existing_ids).

(** The counters after the loop over the rows of a page. *)
Lemma for_rows_counters (rows : list Row) :
  forall st,
  new_posts_count st = length (all_posts st) ->
  (consecutive_dup_count st < 5)%nat ->
  stop_crawling st = false ->
  new_posts_count (scan rows st) = length (all_posts (scan rows st)) /\
  (stop_crawling (scan rows st) = false -> (consecutive_dup_count (scan rows st) < 5)%nat) /\
  (stop_crawling (scan rows st) = true ->
     consecutive_dup_count (scan rows st) = 5%nat \/
     consecutive_dup_count (scan rows st) = 0%nat).
Proof.
  induction rows as [|row rows IH]; intros st Hnew Hcount Hst.
  - simpl. split; [exact Hnew|]. split; [auto | congruence].
  - cbn [for_rows].
    destruct (extract_post_data row today) as [pd|]; [|now apply IH].
    destruct (bool_decide _).
    + destruct (Nat.leb _ _) eqn:Hle.
      * cbn. split; [exact Hnew|]. split; [discriminate|]. intros _. left.
        apply Nat.leb_le in Hle. lia.
      * apply IH; cbn; [exact Hnew | | exact Hst]. apply Nat.leb_gt in Hle. lia.
    + destruct (DT.geb _ _).
      * apply IH; cbn; [|lia | exact Hst]. rewrite length_app, Hnew. simpl. lia.
      * cbn. split; [exact Hnew|]. split; [discriminate | auto].
Qed.

Lemma crawl_loop_counters (fuel : nat) :
  forall st st',
  new_posts_count st = length (all_posts st) ->
  (consecutive_dup_count st < 5)%nat ->
  stop_crawling st = false ->
  crawl fuel st = Some st' ->
  new_posts_count st' = length (all_posts st') /\
  (stop_crawling st' = false ->
     (consecutive_dup_count st' < 5)%nat /\ last_page fetch (page st')) /\
  (stop_crawling st' = true ->
     consecutive_dup_count st' = 5%nat \/ consecutive_dup_count st' = 0%nat) /\
  (page st' < page st + fuel)%nat.
Proof.
  induction fuel as [|fuel IH]; intros st st' Hnew Hcount Hst; cbn [crawl_loop];
    [discriminate|].
  destruct (fetch (page st)) as [|[|row rows]] eqn:Hfetch.
  - intros [= <-]. split; [exact Hnew|]. split; [|split; [congruence | lia]].
    intros _. split; [exact Hcount | now left].
  - intros [= <-]. split; [exact Hnew|]. split; [|split; [congruence | lia]].
    intros _. split; [exact Hcount | now right].
  - pose proof (for_rows_counters (row :: rows) st Hnew Hcount Hst) as (Hn & Hc & Hs).
    pose proof (for_rows_page today cutoff_date existing_ids (row :: rows) st) as Hpage.
    set (st1 := scan (row :: rows) st) in *. clearbody st1.
    destruct (stop_crawling st1) eqn:Hstop.
    + intros [= <-]. split; [exact Hn|]. split; [congruence|]. split; [auto | lia].
    + intros Hloop.
      apply IH in Hloop; [| exact Hn | now apply Hc | exact Hstop].
      destruct Hloop as (H1 & H2 & H3 & H4). split; [exact H1|].
      split; [exact H2|]. split; [exact H3|].
      cbn [next_page page] in H4. lia.
Qed.

(** The loop over the pages ends at a page that fails or has no row,
    if not before. *)
Lemma crawl_loop_ends (k : nat) :
  forall st fuel,
  last_page fetch (page st + k) ->
  (k < fuel)%nat ->
  exists st', crawl fuel st = Some st' /\ crawl (S k) st = Some st' /\
              (page st' <= page st + k)%nat.
Proof.
  induction k as [|k IH]; intros st fuel Hlast Hfuel.
  - destruct fuel as [|fuel]; [lia|]. rewrite Nat.add_0_r in Hlast.
    exists st. cbn [crawl_loop].
    destruct Hlast as [-> | ->]; (split; [reflexivity|]; split; [reflexivity | lia]).
  - destruct fuel as [|fuel]; [lia|].
    cbn [crawl_loop].
    destruct (fetch (page st)) as [|[|row rows]] eqn:Hfetch.
    + exists st. split; [reflexivity|]. split; [reflexivity | lia].
    + exists st. split; [reflexivity|]. split; [reflexivity | lia].
    + destruct (stop_crawling (scan (row :: rows) st)) eqn:Hstop.
      * eexists. split; [reflexivity|]. split; [reflexivity|]. rewrite for_rows_page. lia.
      * destruct (IH (next_page (scan (row :: rows) st)) fuel) as (st' & H1 & H2 & H3).
        -- cbn [next_page page]. rewrite for_rows_page.
           now replace (S (page st) + k)%nat with (page st + S k)%nat by lia.
        -- lia.
        -- exists st'. split; [exact H1|]. split; [exact H2|].
           cbn [next_page page] in H3. rewrite for_rows_page in H3. lia.
Qed.

End CrawlMore.

(** X17: a listing that ends makes the crawl end: when the request
    for some page fails or the page has no row, [crawl_posts] returns
    after at most that many requests, and what it returns does not
    depend on the bound on the number of requests. *)
Theorem crawl_posts_ends (fetch : nat -> Response) (today : DT.t) (archive : Archive)
    (k fuel : nat) :
  last_page fetch (S k) ->
  (k < fuel)%nat ->
  exists result,
    crawl_posts fetch today archive fuel = Some result /\
    crawl_posts fetch today archive (S k) = Some result.
Proof.
  intros Hlast Hfuel. unfold crawl_posts.
  destruct (DT.add_days today (- DAYS_LIMIT)) as [cutoff_date|]; [|eauto].
  destruct (crawl_loop_ends fetch today cutoff_date (load_all_existing_ids archive)
              k crawl_init fuel Hlast Hfuel) as (st' & H1 & H2 & _).
  rewrite H1, H2. eauto.
Qed.

Lemma crawl_posts_ends_witness :
  exists result,
    crawl_posts window_fetch sample_today ∅ 7 = Some result /\
    crawl_posts window_fetch sample_today ∅ 3 = Some result.
Proof.
  apply (crawl_posts_ends window_fetch sample_today ∅ 2 7); [right; reflexivity | lia].
Defined.

(** X19: when the loop over the pages has ended, the count shown as
    collected is the number of records collected; a loop that ended
    without [stop_crawling] ended at a page that failed or had no row,
    with fewer than five known records in a row behind it; and one that
    ended with [stop_crawling] met its fifth known record in a row, or
    an unknown record from before the window. No page beyond the bound
    was requested. *)
Theorem crawl_loop_end_state (fetch : nat -> Response) (today cutoff_date : DT.t)
    (existing_ids : gset string) (fuel : nat) (st : CrawlState) :
  crawl_loop fetch today cutoff_date existing_ids fuel crawl_init = Some st ->
  new_posts_count st = length (all_posts st) /\
  (stop_crawling st = false ->
     (consecutive_dup_count st < 5)%nat /\ last_page fetch (page st)) /\
  (stop_crawling st = true ->
     consecutive_dup_count st = 5%nat \/ consecutive_dup_count st = 0%nat) /\
  (page st <= fuel)%nat.
Proof.
  intros Hloop.
  apply crawl_loop_counters in Hloop; [|reflexivity | cbn; lia | reflexivity].
  destruct Hloop as (H1 & H2 & H3 & H4). cbn in H4.
  split; [exact H1|]. split; [exact H2|]. split; [exact H3 | lia].
Qed.

Lemma crawl_loop_end_state_witness :
  exists st,
    crawl_loop stale_fetch sample_today sample_cutoff stale_known 3 crawl_init = Some st /\
    stop_crawling st = true /\
    new_posts_count st = length (all_posts st) /\
    (consecutive_dup_count st = 5%nat \/ consecutive_dup_count st = 0%nat).
Proof.
  assert (H : exists st, crawl_loop stale_fetch sample_today sample_cutoff stale_known 3
                           crawl_init = Some st /\ stop_crawling st = true).
  { eexists. split; vm_compute; reflexivity. }
  destruct H as (st & Hloop & Hstop). exists st.
  destruct (crawl_loop_end_state stale_fetch sample_today sample_cutoff stale_known 3 st Hloop)
    as (H1 & _ & H3 & _).
  auto.
Defined.

(** ** The order of the [datetime] keys is the order of time *)

Lemma ascii_compare_refl (c : ascii) : Ascii.compare c c = Eq.
Proof. unfold Ascii.compare. apply N.compare_refl. Qed.

Lemma string_compare_cons (c : ascii) (s t : string) :
  String.compare (String c s) (String c t) = String.compare s t.
Proof. cbn [String.compare]. now rewrite ascii_compare_refl. Qed.

Lemma digit_char_compare (a b : Z) :
  0 <= a <= 9 -> 0 <= b <= 9 ->
  Ascii.compare (DT.digit_char a) (DT.digit_char b) = (a ?= b).
Proof.
  intros Ha Hb.
  assert (Ea : a = 0 \/ a = 1 \/ a = 2 \/ a = 3 \/ a = 4 \/ a = 5 \/ a = 6 \/ a = 7 \/
               a = 8 \/ a = 9) by lia.
  assert (Eb : b = 0 \/ b = 1 \/ b = 2 \/ b = 3 \/ b = 4 \/ b = 5 \/ b = 6 \/ b = 7 \/
               b = 8 \/ b = 9) by lia.
  repeat destruct Ea as [-> | Ea]; try subst a;
    repeat destruct Eb as [-> | Eb]; try subst b; reflexivity.
Qed.

Lemma pad2_compare (a b : Z) (s t : string) :
  0 <= a <= 99 -> 0 <= b <= 99 ->
  String.compare (DT.pad2 a +:+ s) (DT.pad2 b +:+ t)
  = match a ?= b with Eq => String.compare s t | c => c end.
Proof.
  intros Ha Hb. unfold DT.pad2. simpl String.append. cbn [String.compare].
  rewrite !digit_char_compare by (Z.div_mod_to_equations; lia).
  destruct (Z.compare_spec (a / 10 mod 10) (b / 10 mod 10)) as [H1 | H1 | H1];
    [destruct (Z.compare_spec (a mod 10) (b mod 10)) as [H2 | H2 | H2] | |];
    destruct (Z.compare_spec a b) as [H | H | H]; try reflexivity;
    exfalso; Z.div_mod_to_equations; lia.
Qed.

Lemma pad4_compare (a b : Z) (s t : string) :
  0 <= a <= 9999 -> 0 <= b <= 9999 ->
  String.compare (DT.pad4 a +:+ s) (DT.pad4 b +:+ t)
  = match a ?= b with Eq => String.compare s t | c => c end.
Proof.
  intros Ha Hb. unfold DT.pad4, DT.pad2. simpl String.append. cbn [String.compare].
  rewrite !digit_char_compare by (Z.div_mod_to_equations; lia).
  destruct (Z.compare_spec (a / 1000 mod 10) (b / 1000 mod 10)) as [H1 | H1 | H1];
    [destruct (Z.compare_spec (a / 100 mod 10) (b / 100 mod 10)) as [H2 | H2 | H2];
     [destruct (Z.compare_spec (a / 10 mod 10) (b / 10 mod 10)) as [H3 | H3 | H3];
      [destruct (Z.compare_spec (a mod 10) (b mod 10)) as [H4 | H4 | H4] | |] | |] | |];
    destruct (Z.compare_spec a b) as [H | H | H]; try reflexivity;
    exfalso; Z.div_mod_to_equations; lia.
Qed.

(** The texts of two timestamps compare as the timestamps do. *)
Lemma strftime_iso_compare (d1 d2 : DT.t) :
  DT.valid d1 = true -> DT.valid d2 = true ->
  DT.microsecond d1 = DT.microsecond d2 ->
  String.compare (DT.strftime_iso d1) (DT.strftime_iso d2) = DT.compare d1 d2.
Proof.
  intros Hv1 Hv2 Hus.
  apply valid_spec in Hv1, Hv2. destruct Hv1 as [Hd1 Ht1], Hv2 as [Hd2 Ht2].
  apply valid_date_spec in Hd1, Hd2. apply valid_time_spec in Ht1, Ht2.
  pose proof (days_in_month_le_31 (DT.year d1) (DT.month d1)).
  pose proof (days_in_month_le_31 (DT.year d2) (DT.month d2)).
  unfold DT.strftime_iso, DT.strftime_date, DT.strftime_time, DT.compare, DT.fields.
  rewrite !append_assoc.
  rewrite <- (append_nil_r (DT.pad2 (DT.second d1))), <- (append_nil_r (DT.pad2 (DT.second d2))).
  cbn [DT.lex_compare]. rewrite Hus, Z.compare_refl.
  rewrite pad4_compare by lia.
  change ("-" +:+ ?x) with (String "-" x). rewrite string_compare_cons.
  rewrite pad2_compare by lia.
  change ("-" +:+ ?x) with (String "-" x). rewrite string_compare_cons.
  rewrite pad2_compare by lia.
  change ("T" +:+ ?x) with (String "T" x). rewrite string_compare_cons.
  rewrite pad2_compare by lia.
  change (":" +:+ ?x) with (String ":" x). rewrite string_compare_cons.
  rewrite pad2_compare by lia.
  change (":" +:+ ?x) with (String ":" x). rewrite string_compare_cons.
  rewrite pad2_compare by lia.
  reflexivity.
Qed.

(** X20: the [datetime] texts of two extracted records of the years
    1000 to 9999 compare, as strings, the way their timestamps compare:
    the sort of a file by [datetime] is a sort by time, and the string
    order agrees with the comparison against the cutoff. *)
Theorem datetime_key_order (row1 row2 : Row) (today1 today2 : DT.t) (pd1 pd2 : PostData) :
  extract_post_data row1 today1 = Some pd1 ->
  extract_post_data row2 today2 = Some pd2 ->
  1000 <= DT.year (_datetime_obj pd1) ->
  1000 <= DT.year (_datetime_obj pd2) ->
  String.compare (Post.datetime (record pd1)) (Post.datetime (record pd2))
  = DT.compare (_datetime_obj pd1) (_datetime_obj pd2) /\
  String.ltb (Post.datetime (record pd1)) (Post.datetime (record pd2))
  = DT.ltb (_datetime_obj pd1) (_datetime_obj pd2).
Proof.
  intros H1 H2 _ _.
  assert (Hcmp : String.compare (Post.datetime (record pd1)) (Post.datetime (record pd2))
                 = DT.compare (_datetime_obj pd1) (_datetime_obj pd2)).
  { pose proof (extract_post_data_datetime _ _ _ H1) as [Hv1 _].
    pose proof (extract_post_data_datetime _ _ _ H2) as [Hv2 _].
    apply extract_post_data_fields in H1, H2.
    destruct H1 as (t1 & h1 & _ & _ & _ & Hdate1 & _ & _ & _ & _ & _ & _ & Hdt1 & _).
    destruct H2 as (t2 & h2 & _ & _ & _ & Hdate2 & _ & _ & _ & _ & _ & _ & Hdt2 & _).
    apply parse_date_valid in Hdate1, Hdate2.
    rewrite Hdt1, Hdt2. apply strftime_iso_compare; [exact Hv1 | exact Hv2 |].
    destruct Hdate1 as [_ ->], Hdate2 as [_ ->]. reflexivity. }
  split; [exact Hcmp|]. unfold String.ltb, DT.ltb. now rewrite Hcmp.
Qed.

Lemma datetime_key_order_witness :
  exists pd1 pd2,
    extract_post_data (sample_row "21" "2024-03-09 10:00:00" None) sample_today = Some pd1 /\
    extract_post_data (sample_row "22" "2024-03-02 10:00:00" None) sample_today = Some pd2 /\
    String.ltb (Post.datetime (record pd2)) (Post.datetime (record pd1))
    = DT.ltb (_datetime_obj pd2) (_datetime_obj pd1).
Proof.
  destruct (extract_post_data (sample_row "21" "2024-03-09 10:00:00" None) sample_today)
    as [pd1|] eqn:H1; [|vm_compute in H1; discriminate].
  destruct (extract_post_data (sample_row "22" "2024-03-02 10:00:00" None) sample_today)
    as [pd2|] eqn:H2; [|vm_compute in H2; discriminate].
  exists pd1, pd2. split; [reflexivity|]. split; [reflexivity|].
  apply (datetime_key_order _ _ _ _ _ _ H2 H1).
  - vm_compute in H2. injection H2 as <-. vm_compute. discriminate.
  - vm_compute in H1. injection H1 as <-. vm_compute. discriminate.
Defined.

(** ** A listing read twice *)

Section Rescan.

Variable fetch : nat -> Response.
Variable today : DT.t.
Variable cutoff_date : DT.t.

(** The identifiers known to the first run and to the second. *)
Variables first_ids second_ids : gset string.

Hypothesis first_ids_kept : forall id, id ∈ first_ids -> id ∈ second_ids.

Local Abbreviation scan1 := (for_rows today cutoff_date first_ids).
Local Abbreviation scan2 := (for_rows today cutoff_date second_ids).
Local Abbreviation crawl1 := (crawl_loop fetch today cutoff_date first_ids).
Local Abbreviation crawl2 := (crawl_loop fetch today cutoff_date second_ids).

Local Ltac both_go_on IH :=
  match goal with
  | |- all_posts (for_rows _ _ _ _ ?s2) = _ /\
       (_ -> stop_crawling (for_rows _ _ _ _ ?s1) = false /\ _) =>
      let Ha := fresh in
      let Hb := fresh in
      destruct (IH s1 s2) as [Ha Hb];
      [first [assumption | cbn; auto; lia] .. | split; [exact Ha | exact Hb]]
  end.

(** The second loop over the rows of a page, when it knows what the
    first one collects: it collects nothing and stops where the first
    one stops, if not before. *)
Lemma for_rows_rescan (rows : list Row) :
  forall st1 st2,
  stop_crawling st1 = false ->
  stop_crawling st2 = false ->
  (consecutive_dup_count st1 <= consecutive_dup_count st2)%nat ->
  (forall pd, pd ∈ all_posts (scan1 rows st1) -> Post.post_id (record pd) ∈ second_ids) ->
  (forall row pd, row ∈ rows -> extract_post_data row today = Some pd ->
     Post.post_id (record pd) ∈ second_ids -> Post.post_id (record pd) ∉ first_ids ->
     in_window cutoff_date pd) ->
  all_posts (scan2 rows st2) = all_posts st2 /\
  (stop_crawling (scan2 rows st2) = false ->
     stop_crawling (scan1 rows st1) = false /\
     (consecutive_dup_count (scan1 rows st1) <= consecutive_dup_count (scan2 rows st2))%nat).
Proof.
  induction rows as [|row rows IH]; intros st1 st2 Hs1 Hs2 Hc Hall Hlate.
  - simpl. auto.
  - assert (Hlate' : forall r pd, r ∈ rows -> extract_post_data r today = Some pd ->
              Post.post_id (record pd) ∈ second_ids -> Post.post_id (record pd) ∉ first_ids ->
              in_window cutoff_date pd).
    { intros r pd Hr. apply Hlate. now constructor. }
    cbn [for_rows] in Hall |- *.
    destruct (extract_post_data row today) as [pd|] eqn:Hpd; [|now apply IH].
    destruct (bool_decide (Post.post_id (record pd) ∈ first_ids)) eqn:Hk1.
    + apply bool_decide_eq_true in Hk1.
      rewrite (bool_decide_eq_true_2 _ (first_ids_kept _ Hk1)).
      destruct (5 <=? S (consecutive_dup_count st2))%nat eqn:Hle2.
      * cbn. split; [reflexivity | discriminate].
      * apply Nat.leb_gt in Hle2.
        destruct (5 <=? S (consecutive_dup_count st1))%nat eqn:Hle1;
          [apply Nat.leb_le in Hle1; lia|].
        both_go_on IH.
    + apply bool_decide_eq_false in Hk1.
      destruct (DT.geb (_datetime_obj pd) cutoff_date) eqn:Hwin.
      * assert (Hk2 : Post.post_id (record pd) ∈ second_ids).
        { apply Hall.
          destruct (for_rows_prefix today cutoff_date first_ids rows
                      {| all_posts := all_posts st1 ++ [pd]; page := page st1;
                         stop_crawling := stop_crawling st1;
                         new_posts_count := S (new_posts_count st1);
                         consecutive_dup_count := 0 |}) as [more Hmore].
          rewrite Hmore. cbn [all_posts]. rewrite !elem_of_app, list_elem_of_singleton. auto. }
        rewrite (bool_decide_eq_true_2 _ Hk2).
        destruct (5 <=? S (consecutive_dup_count st2))%nat eqn:Hle2.
        -- cbn. split; [reflexivity | discriminate].
        -- both_go_on IH.
      * assert (Hk2 : Post.post_id (record pd) ∉ second_ids).
        { intros Hk2. assert (Hin : in_window cutoff_date pd).
          { apply (Hlate row pd); [constructor | exact Hpd | exact Hk2 | exact Hk1]. }
          unfold in_window in Hin. congruence. }
        rewrite (bool_decide_eq_false_2 _ Hk2).
        cbn. split; [reflexivity | discriminate].
Qed.

Lemma crawl_loop_prefix (fuel : nat) :
  forall st st', crawl1 fuel st = Some st' -> all_posts st `prefix_of` all_posts st'.
Proof.
  induction fuel as [|fuel IH]; intros st st'; cbn [crawl_loop]; [discriminate|].
  destruct (fetch (page st)) as [|[|row rows]]; try (intros [= <-]; reflexivity).
  pose proof (for_rows_prefix today cutoff_date first_ids (row :: rows) st) as Hpre.
  set (st1 := scan1 (row :: rows) st) in *. clearbody st1.
  destruct (stop_crawling st1); [now intros [= <-]|].
  intros Hloop. apply IH in Hloop. etransitivity; [exact Hpre | exact Hloop].
Qed.

(** What the loop over the pages collects was extracted from a row of
    the listing and is in the window. *)
Lemma crawl_loop_listed (Q : PostData -> Prop) :
  (forall p rows row pd, fetch p = Page rows -> row ∈ rows ->
     extract_post_data row today = Some pd -> in_window cutoff_date pd -> Q pd) ->
  forall fuel st st',
  Forall Q (all_posts st) ->
  crawl1 fuel st = Some st' ->
  Forall Q (all_posts st').
Proof.
  intros HQ.
  assert (Hrows : forall p rows, fetch p = Page rows ->
            forall done st, Forall Q (all_posts st) -> (forall r, r ∈ done -> r ∈ rows) ->
                            Forall Q (all_posts (scan1 done st))).
  { intros p rows Hfetch. induction done as [|row done IH]; intros st Hst Hsub; [exact Hst|].
    assert (Hsub' : forall r, r ∈ done -> r ∈ rows) by (intros r Hr; apply Hsub; now constructor).
    cbn [for_rows].
    destruct (extract_post_data row today) as [pd|] eqn:Hpd; [|now apply IH].
    destruct (bool_decide _).
    - destruct (Nat.leb _ _); [exact Hst | now apply IH].
    - destruct (DT.geb _ _) eqn:Hwin; [|exact Hst].
      apply IH; [|exact Hsub']. cbn [all_posts]. apply Forall_app. split; [exact Hst|].
      constructor; [|constructor].
      apply (HQ p rows row pd Hfetch); [apply Hsub; constructor | exact Hpd | exact Hwin]. }
  induction fuel as [|fuel IH]; intros st st' Hst; cbn [crawl_loop]; [discriminate|].
  destruct (fetch (page st)) as [|[|row rows]] eqn:Hfetch; try (now intros [= <-]).
  pose proof (Hrows _ _ Hfetch (row :: rows) st Hst (fun r H => H)) as Hpage.
  set (st1 := scan1 (row :: rows) st) in *. clearbody st1.
  destruct (stop_crawling st1); [now intros [= <-]|].
  apply IH. exact Hpage.
Qed.

(** The second loop over the pages, when it knows what the first one
    collected: it ends and collects nothing. *)
Lemma crawl_loop_rescan (fuel : nat) :
  forall st1 st2 st1',
  page st1 = page st2 ->
  stop_crawling st1 = false ->
  stop_crawling st2 = false ->
  (consecutive_dup_count st1 <= consecutive_dup_count st2)%nat ->
  crawl1 fuel st1 = Some st1' ->
  (forall pd, pd ∈ all_posts st1' -> Post.post_id (record pd) ∈ second_ids) ->
  (forall p rows row pd, fetch p = Page rows -> row ∈ rows ->
     extract_post_data row today = Some pd ->
     Post.post_id (record pd) ∈ second_ids -> Post.post_id (record pd) ∉ first_ids ->
     in_window cutoff_date pd) ->
  exists st2', crawl2 fuel st2 = Some st2' /\ all_posts st2' = all_posts st2.
Proof.
  induction fuel as [|fuel IH]; intros st1 st2 st1' Hpage Hs1 Hs2 Hc Hloop Hall Hlate;
    [discriminate|].
  pose proof (crawl_loop_prefix _ _ _ Hloop) as Hpre0.
  cbn [crawl_loop] in Hloop |- *. rewrite <- Hpage.
  destruct (fetch (page st1)) as [|[|row rows]] eqn:Hfetch; try (exists st2; now split).
  pose proof (for_rows_page today cutoff_date first_ids (row :: rows) st1) as Hp1.
  pose proof (for_rows_page today cutoff_date second_ids (row :: rows) st2) as Hp2.
  pose proof (for_rows_rescan (row :: rows) st1 st2 Hs1 Hs2 Hc) as Hrescan.
  set (r1 := scan1 (row :: rows) st1) in *.
  set (r2 := scan2 (row :: rows) st2) in *.
  clearbody r1 r2.
  assert (Hpre : all_posts r1 `prefix_of` all_posts st1').
  { destruct (stop_crawling r1); [now injection Hloop as <-|].
    now apply crawl_loop_prefix in Hloop. }
  destruct Hrescan as [Hposts Hgo].
  { intros pd Hin. apply Hall. destruct Hpre as [more ->]. apply elem_of_app. now left. }
  { intros r pd Hr. now apply (Hlate (page st1) (row :: rows)). }
  destruct (stop_crawling r2) eqn:Hstop2; [exists r2; now split|].
  destruct (Hgo eq_refl) as [Hstop1 Hc']. rewrite Hstop1 in Hloop.
  destruct (IH (next_page r1) (next_page r2) st1') as (st2' & Hloop2 & Hposts2);
    cbn [next_page page stop_crawling consecutive_dup_count]; auto; [congruence|].
  exists st2'. split; [exact Hloop2|]. rewrite Hposts2. exact Hposts.
Qed.

End Rescan.

(** X21: a run repeated adds nothing: when a run has returned, the
    same run over the same listing on the archive it left, with the
    same reference time, collects no record and leaves every file as it
    is, provided the listing shows each post with one timestamp. *)
Theorem second_run_adds_nothing (fetch : nat -> Response) (today : DT.t)
    (clock clock' : nat -> DT.t) (fuel : nat) (archive archive' : Archive) :
  listing_consistent fetch today ->
  main fetch today clock fuel archive = Some (Ret archive') ->
  crawl_posts fetch today archive' fuel = Some (Ret []) /\
  main fetch today clock' fuel archive' = Some (Ret archive').
Proof.
  intros Hcons Hmain.
  assert (Hcrawl : crawl_posts fetch today archive' fuel = Some (Ret []));
    [|split; [exact Hcrawl | unfold main; now rewrite Hcrawl]].
  unfold main in Hmain.
  destruct (crawl_posts fetch today archive fuel) as [[posts | e]|] eqn:Hfirst;
    try discriminate.
  destruct posts as [|post posts]; [now injection Hmain as <-|].
  destruct (organize_by_week (post :: posts)) as [weeks | e] eqn:Horg; [|discriminate].
  injection Hmain as <-.
  pose proof (organize_by_week_posts _ _ Horg) as Hperm.
  pose proof (merge_and_save_ids weeks clock archive) as Hids.
  revert Hfirst. unfold crawl_posts.
  destruct (DT.add_days today (- DAYS_LIMIT)) as [cutoff_date|]; [|discriminate].
  cbv zeta.
  destruct (crawl_loop fetch today cutoff_date (load_all_existing_ids archive) fuel crawl_init)
    as [st1'|] eqn:Hloop; [|discriminate].
  intros [= Hposts].
  assert (Hbatch : forall pd, pd ∈ all_posts st1' ->
            Post.post_id (record pd) ∈ post_ids (weeks_posts weeks)).
  { intros pd Hin.
    rewrite (elem_of_Permutation_proper _ _ _ (post_ids_perm _ _ Hperm)), <- Hposts.
    apply elem_of_post_ids. apply list_elem_of_fmap. eauto. }
  destruct (crawl_loop_rescan fetch today cutoff_date (load_all_existing_ids archive)
              (load_all_existing_ids (merge_and_save clock weeks archive))
              ltac:(intros id Hid; rewrite Hids; apply elem_of_union; now left)
              fuel crawl_init crawl_init st1' eq_refl eq_refl eq_refl (Nat.le_refl _) Hloop)
    as (st2' & Hloop2 & Hnone).
  - intros pd Hin. rewrite Hids. apply elem_of_union. right.
    apply elem_of_list_to_set. now apply Hbatch.
  - intros p rows row pd Hfetch Hrow Hpd Hk2 Hk1.
    rewrite Hids in Hk2. apply elem_of_union in Hk2. destruct Hk2 as [Hk2 | Hk2]; [easy|].
    apply elem_of_list_to_set in Hk2.
    rewrite (elem_of_Permutation_proper _ _ _ (post_ids_perm _ _ Hperm)), <- Hposts in Hk2.
    apply elem_of_post_ids_inv in Hk2. destruct Hk2 as (q & Hq & Hid).
    apply list_elem_of_fmap in Hq. destruct Hq as (pd0 & -> & Hpd0).
    assert (HQ : Forall (fun pd0 => forall p rows row pd, fetch p = Page rows -> row ∈ rows ->
                           extract_post_data row today = Some pd ->
                           Post.post_id (record pd0) = Post.post_id (record pd) ->
                           in_window cutoff_date pd) (all_posts st1')).
    { apply (crawl_loop_listed fetch today cutoff_date (load_all_existing_ids archive) _)
        with (fuel := fuel) (st := crawl_init); [|constructor | exact Hloop].
      intros p0 rows0 row0 pd1 Hf0 Hr0 Hpd1 Hwin p1 rows1 row1 pd2 Hf1 Hr1 Hpd2 Hsame.
      unfold in_window in *.
      now rewrite <- (Hcons p0 p1 rows0 rows1 row0 row1 pd1 pd2 Hf0 Hf1 Hr0 Hr1 Hpd1 Hpd2 Hsame). }
    rewrite Forall_forall in HQ. apply (HQ pd0 Hpd0 p rows row pd Hfetch Hrow Hpd Hid).
  - rewrite Hloop2, Hnone. reflexivity.
Qed.

Lemma second_run_adds_nothing_witness :
  main mixed_fetch sample_today sample_clock 3 ∅ = Some (Ret sample_archive) /\
  crawl_posts mixed_fetch sample_today sample_archive 3 = Some (Ret []) /\
  main mixed_fetch sample_today sample_clock 3 sample_archive = Some (Ret sample_archive).
Proof.
  assert (Hmain : main mixed_fetch sample_today sample_clock 3 ∅ = Some (Ret sample_archive))
    by (vm_compute; reflexivity).
  split; [exact Hmain|].
  apply (second_run_adds_nothing mixed_fetch sample_today sample_clock sample_clock 3 ∅);
    [|exact Hmain].
  assert (Hrows : forall p rows row, mixed_fetch p = Page rows -> row ∈ rows ->
            row = sample_row "21" "2024-03-09 10:00:00" None \/
            row = sample_row "22" "2024-03-02 10:00:00" None \/
            row = sample_row "23" "2024-03-08 10:00:00" None).
  { intros [|[|p]] rows row [= <-] Hin; try solve [inversion Hin].
    repeat (apply elem_of_cons in Hin; destruct Hin as [-> | Hin]); auto.
    inversion Hin. }
  intros p q rows rows' row row' pd pd' Hp Hq Hr Hr' Hpd Hpd' Hid.
  destruct (Hrows p rows row Hp Hr) as [-> | [-> | ->]];
    destruct (Hrows q rows' row' Hq Hr') as [-> | [-> | ->]];
    vm_compute in Hpd, Hpd'; injection Hpd as <-; injection Hpd' as <-;
    first [reflexivity | vm_compute in Hid; discriminate].
Defined.


(** ** The crawl, row by row *)

Section CrawlRows.

Variable fetch : nat -> Response.
Variable today : DT.t.
Variable cutoff_date : DT.t.
Variable existing_ids : gset string.

Local Abbreviation scan := (for_rows today cutoff_date existing_ids).
Local Abbreviation crawl := (crawl_loop fetch today cutoff_date existing_ids).

(** The loop over the pages is the loop over the rows of all the pages
    that the bound allows. *)
Lemma crawl_loop_is_scan (fuel : nat) :
  forall st st',
  stop_crawling st = false ->
  crawl fuel st = Some st' ->
  scan_eq st' (scan (row_stream fetch (page st) fuel) st).
Proof.
  induction fuel as [|fuel IH]; intros st st' Hst; cbn [crawl_loop]; [discriminate|].
  cbn [row_stream].
  destruct (fetch (page st)) as [|[|row rows]] eqn:Hfetch.
  - intros [= <-]. apply scan_eq_refl.
  - intros [= <-]. apply scan_eq_refl.
  - rewrite for_rows_app by exact Hst.
    destruct (stop_crawling (scan (row :: rows) st)) eqn:Hstop.
    + intros [= <-]. apply scan_eq_refl.
    + intros Hloop. apply IH in Hloop; [|exact Hstop].
      cbn [next_page page] in Hloop. rewrite for_rows_page in Hloop.
      rewrite for_rows_next_page in Hloop. exact Hloop.
Qed.

Lemma crawl_loop_page_le (fuel : nat) :
  forall st st', crawl fuel st = Some st' -> (page st <= page st')%nat.
Proof.
  induction fuel as [|fuel IH]; intros st st'; cbn [crawl_loop]; [discriminate|].
  destruct (fetch (page st)) as [|[|row rows]]; try (intros [= <-]; lia).
  pose proof (for_rows_page today cutoff_date existing_ids (row :: rows) st) as Hpage.
  set (st1 := scan (row :: rows) st) in *. clearbody st1.
  destruct (stop_crawling st1); [intros [= <-]; lia|].
  intros Hloop. apply IH in Hloop. cbn [next_page page] in Hloop. lia.
Qed.

(** The crawl returns exactly when a row stops it or the listing ends
    within the bound. *)
Lemma crawl_loop_returns_iff (fuel : nat) :
  (exists st', crawl fuel crawl_init = Some st') <->
  (stop_crawling (scan (row_stream fetch 1 fuel) crawl_init) = true \/
   exists k, (k < fuel)%nat /\ last_page fetch (S k)).
Proof.
  split.
  - intros [st' Hloop].
    pose proof (crawl_loop_is_scan fuel crawl_init st' eq_refl Hloop) as (_ & Hstop & _).
    change (page crawl_init) with 1%nat in Hstop.
    destruct (stop_crawling st') eqn:Hst'; [left; now rewrite <- Hstop|].
    right.
    pose proof (crawl_loop_page_le fuel _ _ Hloop) as Hle.
    apply crawl_loop_counters in Hloop; [|reflexivity | cbn; lia | reflexivity].
    destruct Hloop as (_ & Hlast & _ & Hlt).
    destruct (Hlast Hst') as [_ Hlast'].
    cbn [page crawl_init] in Hle, Hlt.
    exists (page st' - 1)%nat. split; [lia|].
    now replace (S (page st' - 1)) with (page st') by lia.
  - intros [Hstop | (k & Hk & Hlast)].
    + destruct (crawl_loop_stops fetch today cutoff_date existing_ids fuel crawl_init fuel
                  eq_refl Hstop (Nat.le_refl _)) as (st' & Hloop & _).
      eauto.
    + destruct (crawl_loop_ends fetch today cutoff_date existing_ids k crawl_init fuel
                  Hlast Hk) as (st' & Hloop & _).
      eauto.
Qed.

(** A row met while the loop goes on: the loop up to the row and the
    whole loop, from the state in which the row is met. *)
Lemma for_rows_at (pre post : list Row) (row : Row) (st : CrawlState) :
  stop_crawling st = false ->
  stop_crawling (scan pre st) = false ->
  scan (pre ++ [row]) st = scan [row] (scan pre st) /\
  scan (pre ++ row :: post) st = scan (row :: post) (scan pre st).
Proof.
  intros Hst Hpre. rewrite !for_rows_app by exact Hst. now rewrite Hpre.
Qed.

(** The rows that the loop goes through before the one that stops it,
    and what it has collected then: the unknown records of those rows,
    all of them and in their order. *)
Lemma for_rows_seen (rows : list Row) :
  forall st, stop_crawling st = false ->
  exists seen rest,
    rows = seen ++ rest /\
    stop_crawling (scan seen st) = false /\
    (rest = [] \/
     exists row rest', rest = row :: rest' /\ stop_crawling (scan (seen ++ [row]) st) = true) /\
    (stop_crawling (scan rows st) = true <-> rest <> []) /\
    all_posts (scan rows st) = all_posts st ++ unknown_records today existing_ids seen.
Proof.
  induction rows as [|r rows IH]; intros st Hst.
  - exists [], []. simpl. rewrite app_nil_r. repeat split; auto; congruence.
  - assert (Hstops : stop_crawling (scan [r] st) = true ->
                     all_posts (scan [r] st) = all_posts st ->
                     scan (r :: rows) st = scan [r] st ->
                     exists seen rest,
                       r :: rows = seen ++ rest /\
                       stop_crawling (scan seen st) = false /\
                       (rest = [] \/
                        exists row rest', rest = row :: rest' /\
                                          stop_crawling (scan (seen ++ [row]) st) = true) /\
                       (stop_crawling (scan (r :: rows) st) = true <-> rest <> []) /\
                       all_posts (scan (r :: rows) st)
                       = all_posts st ++ unknown_records today existing_ids seen).
    { intros Hstop Hposts Hsame. exists [], (r :: rows).
      split; [reflexivity|]. split; [exact Hst|].
      split; [right; exists r, rows; split; [reflexivity | exact Hstop]|].
      rewrite Hsame, Hstop, Hposts. split; [split; congruence|].
      unfold unknown_records. simpl. now rewrite app_nil_r. }
    assert (Hgoes : forall st1 found,
              stop_crawling st1 = false ->
              (forall more, scan (r :: more) st = scan more st1) ->
              all_posts st1 = all_posts st ++ found ->
              (forall more, unknown_records today existing_ids (r :: more)
                            = found ++ unknown_records today existing_ids more) ->
              exists seen rest,
                r :: rows = seen ++ rest /\
                stop_crawling (scan seen st) = false /\
                (rest = [] \/
                 exists row rest', rest = row :: rest' /\
                                   stop_crawling (scan (seen ++ [row]) st) = true) /\
                (stop_crawling (scan (r :: rows) st) = true <-> rest <> []) /\
                all_posts (scan (r :: rows) st)
                = all_posts st ++ unknown_records today existing_ids seen).
    { intros st1 found Hst1 Hstep Hposts Hfound.
      destruct (IH st1 Hst1) as (seen & rest & Hrows & Hseen & Hnext & Hstop & Hall).
      exists (r :: seen), rest. split; [now rewrite Hrows|].
      split; [now rewrite Hstep|].
      split.
      { destruct Hnext as [-> | (row & rest' & -> & Hrow)]; [now left|].
        right. exists row, rest'. split; [reflexivity|].
        change ((r :: seen) ++ [row]) with (r :: (seen ++ [row])). now rewrite Hstep. }
      rewrite !Hstep. split; [exact Hstop|].
      rewrite Hall, Hposts, Hfound. now rewrite app_assoc. }
    destruct (extract_post_data r today) as [pd|] eqn:Hpd.
    + destruct (bool_decide (Post.post_id (record pd) ∈ existing_ids)) eqn:Hknown.
      * destruct (5 <=? S (consecutive_dup_count st))%nat eqn:Hle.
        -- apply Hstops; cbn [for_rows]; rewrite Hpd, Hknown, Hle; reflexivity.
        -- apply (Hgoes {| all_posts := all_posts st; page := page st;
                           stop_crawling := stop_crawling st;
                           new_posts_count := new_posts_count st;
                           consecutive_dup_count := S (consecutive_dup_count st) |} []).
           ++ exact Hst.
           ++ intros more. cbn [for_rows]. now rewrite Hpd, Hknown, Hle.
           ++ cbn [all_posts]. now rewrite app_nil_r.
           ++ intros more. unfold unknown_records. cbn [omap list_omap]. rewrite Hpd.
              cbn [List.filter]. now rewrite Hknown.
      * destruct (DT.geb (_datetime_obj pd) cutoff_date) eqn:Hwin.
        -- apply (Hgoes {| all_posts := all_posts st ++ [pd]; page := page st;
                           stop_crawling := stop_crawling st;
                           new_posts_count := S (new_posts_count st);
                           consecutive_dup_count := 0 |} [pd]).
           ++ exact Hst.
           ++ intros more. cbn [for_rows]. now rewrite Hpd, Hknown, Hwin.
           ++ reflexivity.
           ++ intros more. unfold unknown_records. cbn [omap list_omap]. rewrite Hpd.
              cbn [List.filter]. now rewrite Hknown.
        -- apply Hstops; cbn [for_rows]; rewrite Hpd, Hknown, Hwin; reflexivity.
    + apply (Hgoes st []).
      * exact Hst.
      * intros more. cbn [for_rows]. now rewrite Hpd.
      * now rewrite app_nil_r.
      * intros more. unfold unknown_records. cbn [omap list_omap]. now rewrite Hpd.
Qed.

(** What a known record does to the loop that meets it. *)
Lemma for_rows_known (post : list Row) (row : Row) (pd : PostData) (st1 : CrawlState) :
  (consecutive_dup_count st1 < 5)%nat ->
  stop_crawling st1 = false ->
  extract_post_data row today = Some pd ->
  is_known existing_ids pd ->
  let st2 := scan [row] st1 in
  consecutive_dup_count st2 = S (consecutive_dup_count st1) /\
  all_posts st2 = all_posts st1 /\
  new_posts_count st2 = new_posts_count st1 /\
  (stop_crawling st2 = true <-> consecutive_dup_count st2 = 5%nat) /\
  (consecutive_dup_count st2 = 5%nat -> scan (row :: post) st1 = st2) /\
  (consecutive_dup_count st2 <> 5%nat -> scan (row :: post) st1 = scan post st2).
Proof.
  intros Hc Hst Hpd Hk. unfold is_known in Hk. cbn [for_rows]. rewrite Hpd. cbv zeta.
  rewrite (bool_decide_eq_true_2 _ Hk).
  destruct (5 <=? S (consecutive_dup_count st1))%nat eqn:Hle.
  - apply Nat.leb_le in Hle. cbn.
    split; [reflexivity|]. split; [reflexivity|]. split; [reflexivity|].
    split; [split; [lia | reflexivity]|]. split; [reflexivity | lia].
  - apply Nat.leb_gt in Hle. cbn.
    split; [reflexivity|]. split; [reflexivity|]. split; [reflexivity|].
    split; [split; [congruence | lia]|]. split; [lia | reflexivity].
Qed.

(** What an unknown record does to the loop that meets it. *)
Lemma for_rows_unknown (post : list Row) (row : Row) (pd : PostData) (st1 : CrawlState) :
  stop_crawling st1 = false ->
  extract_post_data row today = Some pd ->
  ~ is_known existing_ids pd ->
  let st2 := scan [row] st1 in
  consecutive_dup_count st2 = 0%nat /\
  (in_window cutoff_date pd ->
     all_posts st2 = all_posts st1 ++ [pd] /\
     stop_crawling st2 = false /\
     new_posts_count st2 = S (new_posts_count st1) /\
     scan (row :: post) st1 = scan post st2) /\
  (~ in_window cutoff_date pd ->
     all_posts st2 = all_posts st1 /\
     stop_crawling st2 = true /\
     new_posts_count st2 = new_posts_count st1 /\
     scan (row :: post) st1 = st2).
Proof.
  intros Hst Hpd Hk. unfold is_known in Hk. unfold in_window. cbn [for_rows]. rewrite Hpd. cbv zeta.
  rewrite (bool_decide_eq_false_2 _ Hk).
  destruct (DT.geb (_datetime_obj pd) cutoff_date); cbn.
  - split; [reflexivity|]. split; [auto | congruence].
  - split; [reflexivity|]. split; [congruence | auto].
Qed.

End CrawlRows.

(** C4: in every crawl, a record with a known identifier adds one to
    the counter of consecutive known records and nothing to the
    result; the crawl stops exactly when the counter reaches 5, with
    nothing collected from that record or from any later row, and goes
    on with the next row otherwise; a record with a new identifier
    resets the counter to 0. The crawl is the loop over the rows of
    the pages; it returns exactly when a row stops it or the listing
    ends. A row stream whose first five extracted records are known
    ends the crawl with no record collected. *)
Theorem consecutive_duplicates_stop (fetch : nat -> Response) (today cutoff_date : DT.t)
    (existing_ids : gset string) :
  (forall fuel,
     let final := for_rows today cutoff_date existing_ids (row_stream fetch 1 fuel) crawl_init in
     ((exists st', crawl_loop fetch today cutoff_date existing_ids fuel crawl_init = Some st') <->
      (stop_crawling final = true \/ exists k, (k < fuel)%nat /\ last_page fetch (S k))) /\
     (forall st',
        crawl_loop fetch today cutoff_date existing_ids fuel crawl_init = Some st' ->
        scan_eq st' final) /\
     forall pre row post pd,
       row_stream fetch 1 fuel = pre ++ row :: post ->
       stop_crawling (for_rows today cutoff_date existing_ids pre crawl_init) = false ->
       extract_post_data row today = Some pd ->
       let st1 := for_rows today cutoff_date existing_ids pre crawl_init in
       let st2 := for_rows today cutoff_date existing_ids (pre ++ [row]) crawl_init in
       (is_known existing_ids pd ->
          consecutive_dup_count st2 = S (consecutive_dup_count st1) /\
          all_posts st2 = all_posts st1 /\
          new_posts_count st2 = new_posts_count st1 /\
          (stop_crawling st2 = true <-> consecutive_dup_count st2 = 5%nat) /\
          (consecutive_dup_count st2 = 5%nat -> final = st2) /\
          (consecutive_dup_count st2 <> 5%nat ->
             final = for_rows today cutoff_date existing_ids post st2)) /\
       (~ is_known existing_ids pd -> consecutive_dup_count st2 = 0%nat)) /\
  (forall n k1 k2 k3 k4 k5 more,
     omap (fun row => extract_post_data row today) (row_stream fetch 1 n)
     = k1 :: k2 :: k3 :: k4 :: k5 :: more ->
     Forall (is_known existing_ids) [k1; k2; k3; k4; k5] ->
     forall fuel, (n <= fuel)%nat ->
     exists st',
       crawl_loop fetch today cutoff_date existing_ids fuel crawl_init = Some st' /\
       stop_crawling st' = true /\ all_posts st' = []).
Proof.
  split.
  - intros fuel final.
    split; [apply crawl_loop_returns_iff|].
    split.
    { intros st' Hloop.
      exact (crawl_loop_is_scan fetch today cutoff_date existing_ids fuel crawl_init st'
               eq_refl Hloop). }
    intros pre row post pd Hrows Hpre Hpd st1 st2.
    assert (Hc1 : (consecutive_dup_count st1 < 5)%nat).
    { apply for_rows_count; [simpl; lia | reflexivity | exact Hpre]. }
    destruct (for_rows_at today cutoff_date existing_ids pre post row crawl_init eq_refl Hpre)
      as [Hst2 Hfinal].
    unfold final. rewrite Hrows, Hfinal. unfold st2. rewrite Hst2. fold st1. split.
    + intros Hk.
      exact (for_rows_known today cutoff_date existing_ids post row pd st1 Hc1 Hpre Hpd Hk).
    + intros Hk.
      exact (proj1 (for_rows_unknown today cutoff_date existing_ids post row pd st1
                      Hpre Hpd Hk)).
  - intros n k1 k2 k3 k4 k5 more Hrows Hknown fuel Hfuel.
    destruct (for_rows_known_run today cutoff_date existing_ids (row_stream fetch 1 n)
                crawl_init [k1; k2; k3; k4; k5] more Hrows Hknown)
      as [Hs Ha]; [reflexivity | simpl; lia |].
    destruct (crawl_loop_stops fetch today cutoff_date existing_ids n crawl_init fuel
                eq_refl Hs Hfuel) as (st' & Hloop & Hall & Hstop & _).
    exists st'. split; [exact Hloop|]. split; [now rewrite Hstop | now rewrite Hall].
Qed.

Lemma consecutive_duplicates_stop_witness :
  exists st',
    crawl_loop overlap_fetch sample_today sample_cutoff stale_known 1 crawl_init = Some st' /\
    stop_crawling st' = true /\
    consecutive_dup_count st' = 5%nat /\
    post_ids (map record (all_posts st')) = ["12"].
Proof.
  destruct (consecutive_duplicates_stop overlap_fetch sample_today sample_cutoff stale_known)
    as [Hcrawl _].
  destruct (Hcrawl 1%nat) as (Hreturns & Hfinal & _).
  destruct (proj2 Hreturns) as [st' Hloop]; [left; vm_compute; reflexivity|].
  exists st'. split; [exact Hloop|].
  destruct (Hfinal st' Hloop) as (Hposts & Hstop & Hcount & _).
  rewrite Hposts, Hstop, Hcount.
  split; [vm_compute; reflexivity|]. split; vm_compute; reflexivity.
Defined.

(** C5: in every crawl, a record with a new identifier met while the
    crawl goes on is appended to the result when its timestamp is on or
    after the cutoff, the crawl goes on with the next row and the
    record stays in the final result; the first one whose timestamp is
    before the cutoff stops the crawl, and the final result is what had
    been collected before it: neither that record nor anything after
    it is included. Every record of the result is new and on or after
    the cutoff. The crawl is the loop over the rows of the pages; it
    returns exactly when a row stops it or the listing ends. *)
Theorem cutoff_accepts_or_stops (fetch : nat -> Response) (today cutoff_date : DT.t)
    (existing_ids : gset string) (fuel : nat) :
  let final := for_rows today cutoff_date existing_ids (row_stream fetch 1 fuel) crawl_init in
  ((exists st', crawl_loop fetch today cutoff_date existing_ids fuel crawl_init = Some st') <->
   (stop_crawling final = true \/ exists k, (k < fuel)%nat /\ last_page fetch (S k))) /\
  (forall st',
     crawl_loop fetch today cutoff_date existing_ids fuel crawl_init = Some st' ->
     scan_eq st' final) /\
  Forall (fun pd => ~ is_known existing_ids pd /\ in_window cutoff_date pd) (all_posts final) /\
  forall pre row post pd,
    row_stream fetch 1 fuel = pre ++ row :: post ->
    stop_crawling (for_rows today cutoff_date existing_ids pre crawl_init) = false ->
    extract_post_data row today = Some pd ->
    ~ is_known existing_ids pd ->
    let st1 := for_rows today cutoff_date existing_ids pre crawl_init in
    let st2 := for_rows today cutoff_date existing_ids (pre ++ [row]) crawl_init in
    (in_window cutoff_date pd ->
       all_posts st2 = all_posts st1 ++ [pd] /\
       stop_crawling st2 = false /\
       new_posts_count st2 = S (new_posts_count st1) /\
       final = for_rows today cutoff_date existing_ids post st2 /\
       all_posts st1 ++ [pd] `prefix_of` all_posts final) /\
    (~ in_window cutoff_date pd ->
       all_posts st2 = all_posts st1 /\
       stop_crawling st2 = true /\
       new_posts_count st2 = new_posts_count st1 /\
       final = st2 /\
       pd ∉ all_posts final).
Proof.
  intros final.
  assert (Hsound : Forall (fun pd => ~ is_known existing_ids pd /\ in_window cutoff_date pd)
                          (all_posts final)).
  { apply for_rows_sound. constructor. }
  split; [apply crawl_loop_returns_iff|].
  split.
  { intros st' Hloop.
    exact (crawl_loop_is_scan fetch today cutoff_date existing_ids fuel crawl_init st'
             eq_refl Hloop). }
  split; [exact Hsound|].
  intros pre row post pd Hrows Hpre Hpd Hnew st1 st2.
  destruct (for_rows_at today cutoff_date existing_ids pre post row crawl_init eq_refl Hpre)
    as [Hst2 Hfinal].
  assert (Hfinal' : final = for_rows today cutoff_date existing_ids (row :: post) st1).
  { unfold final. now rewrite Hrows, Hfinal. }
  destruct (for_rows_unknown today cutoff_date existing_ids post row pd st1 Hpre Hpd Hnew)
    as (_ & Hin & Hout).
  fold st1 in Hst2. fold st2 in Hst2. rewrite <- Hst2 in Hin, Hout. split.
  - intros Hwin. destruct (Hin Hwin) as (Hposts & Hstop & Hcount & Hgo).
    split; [exact Hposts|]. split; [exact Hstop|]. split; [exact Hcount|].
    split; [now rewrite Hfinal', Hgo|].
    rewrite Hfinal', Hgo, <- Hposts.
    exact (for_rows_prefix today cutoff_date existing_ids post st2).
  - intros Hwin. destruct (Hout Hwin) as (Hposts & Hstop & Hcount & Hend).
    split; [exact Hposts|]. split; [exact Hstop|]. split; [exact Hcount|].
    split; [now rewrite Hfinal', Hend|].
    intros Hmem. rewrite Forall_forall in Hsound. apply Hsound in Hmem.
    now destruct Hmem as [_ Hmem].
Qed.

Lemma cutoff_accepts_or_stops_witness :
  exists st',
    crawl_loop window_fetch sample_today sample_cutoff ∅ 2 crawl_init = Some st' /\
    stop_crawling st' = true /\
    post_ids (map record (all_posts st')) = ["12"].
Proof.
  destruct (cutoff_accepts_or_stops window_fetch sample_today sample_cutoff ∅ 2)
    as (Hreturns & Hfinal & _).
  destruct (proj2 Hreturns) as [st' Hloop]; [left; vm_compute; reflexivity|].
  exists st'. split; [exact Hloop|].
  destruct (Hfinal st' Hloop) as (Hposts & Hstop & _).
  rewrite Hposts, Hstop. split; vm_compute; reflexivity.
Defined.

(** X18: the rows of the fetched pages split into the rows that the
    crawl goes through and, when a row stops it, that row and the rows
    behind it; [crawl_posts] returns exactly when a row stops the crawl
    or the listing ends, and what it returns is the records of the rows
    it went through that extract with an identifier not in the archive,
    in document order and none left out. *)
Theorem crawl_posts_collects (fetch : nat -> Response) (today cutoff_date : DT.t)
    (archive : Archive) (fuel : nat) :
  DT.add_days today (- DAYS_LIMIT) = Some cutoff_date ->
  exists seen rest,
    row_stream fetch 1 fuel = seen ++ rest /\
    stop_crawling
      (for_rows today cutoff_date (load_all_existing_ids archive) seen crawl_init) = false /\
    (rest = [] \/
     exists row rest',
       rest = row :: rest' /\
       stop_crawling
         (for_rows today cutoff_date (load_all_existing_ids archive) (seen ++ [row]) crawl_init)
       = true) /\
    ((rest <> [] \/ exists k, (k < fuel)%nat /\ last_page fetch (S k)) ->
     crawl_posts fetch today archive fuel
     = Some (Ret (map record (unknown_records today (load_all_existing_ids archive) seen)))) /\
    (rest = [] -> (forall k, (k < fuel)%nat -> ~ last_page fetch (S k)) ->
     crawl_posts fetch today archive fuel = None).
Proof.
  intros Hcutoff.
  destruct (for_rows_seen today cutoff_date (load_all_existing_ids archive)
              (row_stream fetch 1 fuel) crawl_init eq_refl)
    as (seen & rest & Hrows & Hseen & Hnext & Hstop & Hall).
  exists seen, rest. split; [exact Hrows|]. split; [exact Hseen|]. split; [exact Hnext|].
  pose proof (crawl_loop_returns_iff fetch today cutoff_date (load_all_existing_ids archive) fuel)
    as Hreturns.
  unfold crawl_posts. rewrite Hcutoff. cbv zeta. split.
  - intros Hends.
    destruct (proj2 Hreturns) as [st' Hloop].
    { destruct Hends as [Hrest | Hlast]; [left; now apply Hstop | now right]. }
    rewrite Hloop.
    pose proof (crawl_loop_is_scan fetch today cutoff_date (load_all_existing_ids archive)
                  fuel crawl_init st' eq_refl Hloop) as (Hposts & _).
    change (page crawl_init) with 1%nat in Hposts.
    now rewrite Hposts, Hall.
  - intros Hrest Hnone.
    destruct (crawl_loop fetch today cutoff_date (load_all_existing_ids archive) fuel crawl_init)
      as [st'|] eqn:Hloop; [|reflexivity].
    exfalso. destruct (proj1 Hreturns) as [Hs | (k & Hk & Hlast)]; [eauto | |].
    + apply Hstop in Hs. contradiction.
    + exact (Hnone k Hk Hlast).
Qed.

Lemma crawl_posts_collects_witness :
  exists seen rest,
    row_stream window_fetch 1 2 = seen ++ rest /\
    rest <> [] /\
    crawl_posts window_fetch sample_today ∅ 2
    = Some (Ret (map record (unknown_records sample_today (load_all_existing_ids ∅) seen))).
Proof.
  destruct (crawl_posts_collects window_fetch sample_today sample_cutoff ∅ 2 eq_refl)
    as (seen & rest & Hrows & Hseen & Hnext & Hreturns & _).
  assert (Hrest : rest <> []).
  { intros ->. rewrite app_nil_r in Hrows. subst seen. vm_compute in Hseen. discriminate. }
  exists seen, rest. split; [exact Hrows|]. split; [exact Hrest|].
  apply Hreturns. now left.
Defined.
